(** * Finance tracker: summary aggregation and export pipeline

    A shallow embedding of the analytics and export routes of [app.py]
    ([get_summary], [export_excel], [export_pdf]) together with the
    properties the specification states about them.

    The routes read the rows of one user from the store and then work on
    that list only; the embedding takes the list as its argument.  The
    local variables of each route are kept as named definitions so that
    each theorem can be read next to the lines it is about. *)

From Stdlib Require Import Ascii String QArith Qabs Qcanon Lqa PrimFloat.
From Stdlib Require SpecFloat FloatOps FloatAxioms.
From stdpp Require Import gmap strings list fin_maps sorting pretty.

Set Warnings "-inexact-float".
Close Scope Qc_scope.
Close Scope Q_scope.
Open Scope string_scope.
Open Scope list_scope.
Open Scope nat_scope.

(** The type of Python's [float]: IEEE 754 binary64. *)
Abbreviation binary64 := PrimFloat.float (only parsing).

(** ** Amount arithmetic

    The column [amount] is a [db.Float]: the routes add, subtract, round
    and format binary64 values.  The routes are embedded over a carrier
    with these operations, and run on two carriers: [Binary64], which is
    the arithmetic of the code, and [Exact], the arithmetic without
    rounding error that the specification appeals to where it says "under
    exact arithmetic".  A property that follows the shape of the
    computation holds on every carrier; one that regroups or reorders
    additions needs the laws of [ExactAmount], which binary64 does not
    have. *)

Class Amount (A : Type) := {
  zero : A;                 (* the literal [0] that [sum] and [dict.get] start from *)
  add : A → A → A;          (* [+] and [+=] *)
  sub : A → A → A;          (* [-] *)
  round2 : A → A;           (* [round(x, 2)] *)
  money : A → string        (* the format [{x:,.2f}] *)
}.

Class ExactAmount (A : Type) `{Amount A} : Prop := {
  add_comm : ∀ x y : A, add x y = add y x;
  add_assoc : ∀ x y z : A, add x (add y z) = add (add x y) z;
  add_zero_l : ∀ x : A, add zero x = x;
  sub_zero_zero : sub zero zero = zero;
  round2_zero : round2 zero = zero
}.

(** The builtin [sum]: a left-to-right accumulation that starts from [0]
    (CPython before 3.12; later versions compensate the rounding error of
    a sum of floats). *)
Definition py_sum `{Amount A} (xs : list A) : A := fold_left add xs zero.

(** ** Data model *)

(** The fields of a [datetime] value. *)
Record datetime := {
  year : nat; month : nat; day : nat;
  hour : nat; minute : nat; second : nat
}.

(** A row of the table [transactions].  [type] is a [String(10)] column:
    the routes compare it with the literals ['income'] and ['expense'].
    [description] is the only nullable column. *)
Record transaction (A : Type) := {
  tx_id : nat;
  user_id : nat;
  type : string;
  category : string;
  amount : A;
  description : option string;
  date : datetime;
  created_at : datetime
}.
Arguments tx_id {A} _.
Arguments user_id {A} _.
Arguments type {A} _.
Arguments category {A} _.
Arguments amount {A} _.
Arguments description {A} _.
Arguments date {A} _.
Arguments created_at {A} _.

(** ** Date formatting *)

Definition digit (n : nat) : ascii := ascii_of_nat (48 + n mod 10).

Definition pad2 (n : nat) : string :=
  String (digit (n / 10)) (String (digit n) "").

(** [%Y] as the C library of the platform prints it: the year as a plain
    decimal number, four digits from the year 1000 on and fewer before
    ([datetime(999, 1, 3).strftime('%Y')] is ['999']). *)
Definition strftime_Y (d : datetime) : string := pretty (year d).

(** [d.strftime('%Y-%m')] *)
Definition strftime_Ym (d : datetime) : string :=
  strftime_Y d +:+ "-" +:+ pad2 (month d).

(** [d.strftime('%Y-%m-%d')] *)
Definition strftime_Ymd (d : datetime) : string :=
  strftime_Y d +:+ "-" +:+ pad2 (month d) +:+ "-" +:+ pad2 (day d).

(** [d.strftime('%Y%m%d')] *)
Definition strftime_compact (d : datetime) : string :=
  strftime_Y d +:+ pad2 (month d) +:+ pad2 (day d).

(** ** The route [get_summary] *)

(** One value of the dictionary [monthly_data]. *)
Record month_totals (A : Type) := { income : A; expense : A }.
Arguments income {A} _.
Arguments expense {A} _.

(** One element of the list [monthly_summary]. *)
Record month_row (A : Type) := {
  row_month : string; row_income : A; row_expense : A
}.
Arguments row_month {A} _.
Arguments row_income {A} _.
Arguments row_expense {A} _.

(** The body of the JSON response. *)
Record summary (A : Type) := {
  total_income_field : A;
  total_expense_field : A;
  balance_field : A;
  category_spending_field : gmap string A;
  monthly_summary_field : list (month_row A);
  transaction_count : nat
}.
Arguments total_income_field {A} _.
Arguments total_expense_field {A} _.
Arguments balance_field {A} _.
Arguments category_spending_field {A} _.
Arguments monthly_summary_field {A} _.
Arguments transaction_count {A} _.

Section Summary.
Context {A : Type} `{Amount A}.

Definition is_income (t : transaction A) : bool := String.eqb (type t) "income".
Definition is_expense (t : transaction A) : bool := String.eqb (type t) "expense".

(** [sum(t.amount for t in transactions if t.type == 'income')] *)
Definition total_income (transactions : list (transaction A)) : A :=
  py_sum (map amount (List.filter is_income transactions)).

(** [sum(t.amount for t in transactions if t.type == 'expense')] *)
Definition total_expense (transactions : list (transaction A)) : A :=
  py_sum (map amount (List.filter is_expense transactions)).

(** [balance = total_income - total_expense] *)
Definition balance (transactions : list (transaction A)) : A :=
  sub (total_income transactions) (total_expense transactions).

(** The body of the first loop:
    [category_spending[t.category] = category_spending.get(t.category, 0) + t.amount]
    for an expense row, nothing otherwise. *)
Definition category_step (category_spending : gmap string A) (t : transaction A)
  : gmap string A :=
  if is_expense t
  then <[category t := add (default zero (category_spending !! category t)) (amount t)]>
         category_spending
  else category_spending.

Definition category_spending (transactions : list (transaction A)) : gmap string A :=
  fold_left category_step transactions ∅.

Definition month_key (t : transaction A) : string := strftime_Ym (date t).

(** The body of the second loop: the key is created with two zeros when it
    is new, then the row is added to [income] when its type is ['income']
    and to [expense] in every other case. *)
Definition monthly_step (monthly_data : gmap string (month_totals A)) (t : transaction A)
  : gmap string (month_totals A) :=
  let month_key := month_key t in
  let monthly_data :=
    match monthly_data !! month_key with
    | None => <[month_key := {| income := zero; expense := zero |}]> monthly_data
    | Some _ => monthly_data
    end in
  let entry := default {| income := zero; expense := zero |} (monthly_data !! month_key) in
  if is_income t
  then <[month_key := {| income := add (income entry) (amount t);
                         expense := expense entry |}]> monthly_data
  else <[month_key := {| income := income entry;
                         expense := add (expense entry) (amount t) |}]> monthly_data.

Definition monthly_data (transactions : list (transaction A))
  : gmap string (month_totals A) :=
  fold_left monthly_step transactions ∅.

(** [sorted(keys)]: the keys are strings, compared as Python compares [str]. *)
Definition sorted (keys : list string) : list string := merge_sort String.le keys.

(** The slice [l[-12:]]. *)
Definition last12 {B : Type} (l : list B) : list B := drop (length l - 12) l.

(** [sorted(monthly_data.keys())[-12:]] *)
Definition sorted_months (monthly_data : gmap string (month_totals A)) : list string :=
  last12 (sorted (map fst (map_to_list monthly_data))).

(** The list comprehension that builds [monthly_summary]; every [month] it
    looks up is a key of [monthly_data]. *)
Definition monthly_summary (transactions : list (transaction A)) : list (month_row A) :=
  let monthly_data := monthly_data transactions in
  map (fun month =>
         let entry := default {| income := zero; expense := zero |} (monthly_data !! month) in
         {| row_month := month; row_income := income entry; row_expense := expense entry |})
      (sorted_months monthly_data).

Definition get_summary (transactions : list (transaction A)) : summary A :=
  {| total_income_field := round2 (total_income transactions);
     total_expense_field := round2 (total_expense transactions);
     balance_field := round2 (balance transactions);
     category_spending_field := category_spending transactions;
     monthly_summary_field := monthly_summary transactions;
     transaction_count := length transactions |}.

End Summary.

(** ** Decimal rounding and formatting

    [round(x, 2)] and the format [.2f] both go through the decimal with
    two places that is nearest to the value of [x], the even one of two at
    equal distance. *)

(** Nearest integer, ties to the even one. *)
Definition round_half_even (q : Q) : Z :=
  let n := Qnum q in
  let d := Z.pos (Qden q) in
  let f := (n / d)%Z in
  match (2 * (n mod d) ?= d)%Z with
  | Lt => f
  | Gt => (f + 1)%Z
  | Eq => if Z.even f then f else (f + 1)%Z
  end.

(** The thousands separator of the format [,]: [ds] are the digits of the
    integer part, lowest first, and [k] counts the digits since the last
    separator. *)
Fixpoint commas_rev (ds : list ascii) (k : nat) : list ascii :=
  match ds with
  | [] => []
  | d :: ds' =>
      if Nat.eqb k 3
      then ","%char :: d :: commas_rev ds' 1
      else d :: commas_rev ds' (S k)
  end.

Definition thousands (n : N) : string :=
  string_of_list_ascii
    (rev (commas_rev (rev (list_ascii_of_string (pretty n))) 0)).

(** ** Exact amounts

    Amounts as rationals in lowest terms, computed on without rounding
    error.  This is not the arithmetic of the code: it is the carrier for
    the statements made "under exact arithmetic" and for decimal amounts
    that binary64 holds exactly. *)

Module Exact.

(** [round(x, 2)] of an exact amount *)
Definition round2_Qc (x : Qc) : Qc :=
  Q2Qc (Qmake (round_half_even (Qmult x (Qmake 100 1))) 100).

(** [format(x, ',.2f')] of an exact amount *)
Definition money_Qc (x : Qc) : string :=
  let cents := Z.to_N (round_half_even (Qmult (Qabs x) (Qmake 100 1))) in
  (if Qlt_le_dec x (Qmake 0 1) then "-" else "")
    +:+ thousands (cents / 100) +:+ "." +:+ pad2 (N.to_nat (cents mod 100)).

#[global] Instance Qc_amount : Amount Qc := {|
  zero := Q2Qc (Qmake 0 1);
  add := Qcplus;
  sub := Qcminus;
  round2 := round2_Qc;
  money := money_Qc
|}.

(** An amount written as a fraction, and a whole amount. *)
Definition frac (n : Z) (d : positive) : Qc := Q2Qc (Qmake n d).
Definition whole (n : Z) : Qc := frac n 1.

End Exact.

(** ** Binary64 amounts

    The arithmetic of the code.  [+], [-] and [<=] of two floats are the
    IEEE 754 operations, which are the primitive operations of
    [PrimFloat].  [round(x, 2)] and the format [.2f] are CPython's: both
    convert the binary value of [x], exactly, to the nearest decimal with
    two places (ties to even), and [round] converts that decimal back to
    the nearest binary64 value. *)

Module Binary64.
Import SpecFloat FloatOps.

(** The number [m * 2^e], exactly. *)
Definition magnitude (m : positive) (e : Z) : Q :=
  match e with
  | Z0 => Qmake (Z.pos m) 1
  | Z.pos p => Qmake (Z.pos m * 2 ^ Z.pos p) 1
  | Z.neg p => Qmake (Z.pos m) (2 ^ p)
  end.

(** The number that a finite binary64 value stands for. *)
Definition value (x : binary64) : option Q :=
  match Prim2SF x with
  | S754_zero _ => Some (Qmake 0 1)
  | S754_finite s m e => Some (if s then Qopp (magnitude m e) else magnitude m e)
  | S754_infinity _ | S754_nan => None
  end.

(** The binary64 value nearest to [n / d], the one with an even mantissa of
    two at equal distance, and an infinity beyond the range: the correctly
    rounded quotient of two integers. *)
Definition nearest (n : Z) (d : positive) : spec_float :=
  match n with
  | Z0 => S754_zero false
  | Z.pos p => SFdiv prec emax (S754_finite false p 0) (S754_finite false d 0)
  | Z.neg p => SFdiv prec emax (S754_finite true p 0) (S754_finite false d 0)
  end.

(** The cents of the decimal with two places nearest to [m * 2^e]. *)
Definition cents (m : positive) (e : Z) : Z :=
  round_half_even (Qmult (magnitude m e) (Qmake 100 1)).

(** [round(x, 2)]: infinities and NaN round to themselves, and a value
    that rounds to no cent keeps its sign. *)
Definition round2_float (x : binary64) : binary64 :=
  match Prim2SF x with
  | S754_finite s m e =>
      match cents m e with
      | Z0 => if s then neg_zero else PrimFloat.zero
      | c => SF2Prim (nearest (if s then Z.opp c else c) 100)
      end
  | S754_zero _ | S754_infinity _ | S754_nan => x
  end.

(** [format(x, ',.2f')] *)
Definition money_float (x : binary64) : string :=
  match Prim2SF x with
  | S754_nan => "nan"
  | S754_infinity s => (if s then "-" else "") +:+ "inf"
  | S754_zero s => (if s then "-" else "") +:+ "0.00"
  | S754_finite s m e =>
      let c := Z.to_N (cents m e) in
      (if s then "-" else "")
        +:+ thousands (c / 100) +:+ "." +:+ pad2 (N.to_nat (c mod 100))
  end.

#[global] Instance binary64_amount : Amount binary64 := {|
  zero := PrimFloat.zero;
  add := PrimFloat.add;
  sub := PrimFloat.sub;
  round2 := round2_float;
  money := money_float
|}.

End Binary64.

(** ** Errors

    The routes raise no exception of their own; the only one that the
    embedded code can meet is the [TypeError] of a builtin applied to
    [None]. *)

Inductive exn := TypeError.

Inductive result (T : Type) :=
| Ok (v : T)
| Raise (e : exn).
Arguments Ok {T} _.
Arguments Raise {T} _.

(** An exception leaves the statements after it unexecuted. *)
#[global] Instance result_bind : MBind result := λ T U k r,
  match r with
  | Ok v => k v
  | Raise e => Raise e
  end.

(** ** Strings

    A Python [str] is a sequence of code points.  It is held here as the
    bytes of its UTF-8 encoding, in which every code point starts with one
    byte outside the range [0x80..0xBF] and continues with bytes inside
    it; [len] and slices count code points, not bytes. *)

Definition continuation (c : ascii) : bool :=
  let n := nat_of_ascii c in (128 <=? n) && (n <? 192).

(** [len(s)] *)
Fixpoint str_len (s : string) : nat :=
  match s with
  | EmptyString => 0
  | String c s' => if continuation c then str_len s' else S (str_len s')
  end.

(** [s[:n]] *)
Fixpoint str_take (n : nat) (s : string) : string :=
  match s with
  | EmptyString => EmptyString
  | String c s' =>
      if continuation c then String c (str_take n s')
      else match n with
           | 0 => EmptyString
           | S n' => String c (str_take n' s')
           end
  end.

Definition upper (c : ascii) : ascii :=
  let n := nat_of_ascii c in
  if (97 <=? n)%nat && (n <=? 122)%nat then ascii_of_nat (n - 32) else c.

Definition lower (c : ascii) : ascii :=
  let n := nat_of_ascii c in
  if (65 <=? n)%nat && (n <=? 90)%nat then ascii_of_nat (n + 32) else c.

Fixpoint lower_all (s : string) : string :=
  match s with
  | EmptyString => EmptyString
  | String c s' => String (lower c) (lower_all s')
  end.

(** [s.capitalize()], on the ASCII letters. *)
Definition capitalize (s : string) : string :=
  match s with
  | EmptyString => EmptyString
  | String c s' => String (upper c) (lower_all s')
  end.

(** ** The route [export_excel] *)

(** One dictionary appended to [data]. *)
Record excel_row (A : Type) := {
  Date : string;
  Type_ : string;
  Category : string;
  Amount_ : A;
  Description : option string
}.
Arguments Date {A} _.
Arguments Type_ {A} _.
Arguments Category {A} _.
Arguments Amount_ {A} _.
Arguments Description {A} _.

(** A [pd.DataFrame], written to a sheet with [index=False]: a header of
    column labels and the body rows. *)
Record data_frame (R : Type) := { columns : list string; rows : list R }.
Arguments columns {R} _.
Arguments rows {R} _.

(** The workbook, one field per sheet, and the fields of [send_file]. *)
Record excel_file (A : Type) := {
  sheet_Transactions : data_frame (excel_row A);
  sheet_Summary : data_frame (string * A);
  excel_mimetype : string;
  excel_download_name : string
}.
Arguments sheet_Transactions {A} _.
Arguments sheet_Summary {A} _.
Arguments excel_mimetype {A} _.
Arguments excel_download_name {A} _.

Section Excel.
Context {A : Type} `{Amount A}.

(** The loop that fills [data]. *)
Definition excel_data_step (data : list (excel_row A)) (t : transaction A)
  : list (excel_row A) :=
  data ++ [ {| Date := strftime_Ymd (date t);
               Type_ := capitalize (type t);
               Category := category t;
               Amount_ := amount t;
               Description := description t |} ].

Definition excel_data (transactions : list (transaction A)) : list (excel_row A) :=
  fold_left excel_data_step transactions [].

(** [pd.DataFrame(data)] for a list of dictionaries: the labels are the
    keys of the dictionaries, and there is none when the list is empty. *)
Definition data_frame_of_records (data : list (excel_row A))
  : data_frame (excel_row A) :=
  {| columns := match data with
                | [] => []
                | _ => ["Date"; "Type"; "Category"; "Amount"; "Description"]
                end;
     rows := data |}.

(** [pd.DataFrame(summary_data)] for the dictionary of two lists. *)
Definition summary_df (transactions : list (transaction A)) : data_frame (string * A) :=
  let Metric := ["Total Income"; "Total Expense"; "Balance"] in
  let Value :=
    [ py_sum (map amount (List.filter is_income transactions));
      py_sum (map amount (List.filter is_expense transactions));
      sub (py_sum (map amount (List.filter is_income transactions)))
          (py_sum (map amount (List.filter is_expense transactions))) ] in
  {| columns := ["Metric"; "Value"]; rows := zip Metric Value |}.

Definition export_excel (now : datetime) (transactions : list (transaction A))
  : excel_file A :=
  {| sheet_Transactions := data_frame_of_records (excel_data transactions);
     sheet_Summary := summary_df transactions;
     excel_mimetype :=
       "application/vnd.openxmlformats-officedocument.spreadsheetml.sheet";
     excel_download_name := "transactions_" +:+ strftime_compact now +:+ ".xlsx" |}.

End Excel.

(** ** The route [export_pdf] *)

(** What is handed to the layout engine, and the fields of [send_file]. *)
Record pdf_file := {
  pdf_title : string;
  pdf_summary_text : list string;
  pdf_table_data : list (list string);
  pdf_col_widths_tenths_inch : list nat;
  pdf_mimetype : string;
  pdf_download_name : string
}.

Section Pdf.
Context {A : Type} `{Amount A}.

(** [len(x)] of a value that may be [None]. *)
Definition len (x : option string) : result nat :=
  match x with
  | Some s => Ok (str_len s)
  | None => Raise TypeError
  end.

(** [t.description[:30] + '...' if len(t.description) > 30 else t.description]:
    the condition is evaluated first. *)
Definition pdf_description (description : option string) : result string :=
  n ← len description ;
  match description with
  | Some s => if 30 <? n then Ok (str_take 30 s +:+ "...") else Ok s
  | None => Raise TypeError
  end.

Definition pdf_row (t : transaction A) : result (list string) :=
  cell ← pdf_description (description t) ;
  Ok [ strftime_Ymd (date t);
       capitalize (type t);
       category t;
       "$" +:+ money (amount t);
       cell ].

(** The loop that appends one list to [data] per row. *)
Definition pdf_data_step (data : result (list (list string))) (t : transaction A)
  : result (list (list string)) :=
  data ← data ;
  row ← pdf_row t ;
  Ok (data ++ [row]).

Definition pdf_header : list string :=
  ["Date"; "Type"; "Category"; "Amount"; "Description"].

Definition pdf_data (transactions : list (transaction A))
  : result (list (list string)) :=
  fold_left pdf_data_step transactions (Ok [pdf_header]).

(** The lines of [summary_text]. *)
Definition pdf_summary (now : datetime) (transactions : list (transaction A))
  : list string :=
  let total_income := py_sum (map amount (List.filter is_income transactions)) in
  let total_expense := py_sum (map amount (List.filter is_expense transactions)) in
  let balance := sub total_income total_expense in
  [ "<b>Summary:</b><br/>";
    "Total Income: $" +:+ money total_income +:+ "<br/>";
    "Total Expense: $" +:+ money total_expense +:+ "<br/>";
    "Balance: $" +:+ money balance +:+ "<br/>";
    "Report Date: " +:+ strftime_Ymd now ].

Definition export_pdf (user_name : string) (now : datetime)
    (transactions : list (transaction A)) : result pdf_file :=
  let title := "Transaction Report - " +:+ user_name in
  let summary_text := pdf_summary now transactions in
  data ← pdf_data transactions ;
  Ok {| pdf_title := title;
        pdf_summary_text := summary_text;
        pdf_table_data := data;
        pdf_col_widths_tenths_inch := [12; 10; 12; 12; 24];
        pdf_mimetype := "application/pdf";
        pdf_download_name := "transactions_" +:+ strftime_compact now +:+ ".pdf" |}.

(** The rows of the table below its header. *)
Definition pdf_body (f : pdf_file) : list (list string) := tail (pdf_table_data f).

End Pdf.

(** ** What the specification calls a sum

    The sum of the amounts of the rows that satisfy [p], by recursion on the
    list: the reading of "sum of amounts where kind = ..." that does not
    depend on how the code accumulates. *)

Fixpoint sum_where `{Amount A} (p : transaction A → bool) (l : list (transaction A)) : A :=
  match l with
  | [] => zero
  | t :: l' => if p t then add (amount t) (sum_where p l') else sum_where p l'
  end.

Definition kind_is {A : Type} (kind : string) (t : transaction A) : bool :=
  String.eqb (type t) kind.

(** The amounts that the code adds up for a predicate, in input order. *)
Definition amounts_where {A : Type} (p : transaction A → bool) (l : list (transaction A))
  : list A :=
  map amount (List.filter p l).

(** The kinds of the data model: every row is an income or an expense. *)
Definition kinds_valid {A : Type} (l : list (transaction A)) : Prop :=
  ∀ t, t ∈ l → type t = "income" ∨ type t = "expense".

(** Strict order of [str] values, Python's [<]. *)
Definition String_lt (s1 s2 : string) : Prop := (s1 ?= s2)%string = Lt.

(** ** Grouping

    Both loops of [get_summary] group rows under a string key.  The two
    predicates below select the rows that reach one key. *)

(** The expense rows of the category [c]. *)
Definition in_category {A : Type} (c : string) (t : transaction A) : bool :=
  is_expense t && String.eqb (category t) c.

(** The rows of the month [k]. *)
Definition in_month {A : Type} (k : string) (t : transaction A) : bool :=
  String.eqb (month_key t) k.

(** The rows of the month [k] that the second loop adds to [income], and the
    ones it adds to [expense]: all the rows whose type is not ['income']. *)
Definition income_in_month {A : Type} (k : string) (t : transaction A) : bool :=
  is_income t && in_month k t.
Definition other_in_month {A : Type} (k : string) (t : transaction A) : bool :=
  negb (is_income t) && in_month k t.
Definition expense_in_month {A : Type} (k : string) (t : transaction A) : bool :=
  is_expense t && in_month k t.

(** The months present in the data, each once. *)
Definition distinct_months {A : Type} (l : list (transaction A)) : list string :=
  remove_dups (map month_key l).

(** [sum(d.values())] *)
Definition values_sum `{Amount A} (d : gmap string A) : A :=
  py_sum (map snd (map_to_list d)).

(** The sheet row and the table row that one transaction is rendered to. *)
Definition excel_row_of {A : Type} (t : transaction A) : excel_row A :=
  {| Date := strftime_Ymd (date t);
     Type_ := capitalize (type t);
     Category := category t;
     Amount_ := amount t;
     Description := description t |}.

(** ** Sums of binary64 amounts

    Binary64 addition is not associative, so "the sum" of a list of floats
    is the sum in an order.  The reading below takes the rows in the order
    of the list and adds the amount of each row that satisfies [p] to what
    has been added so far, with the IEEE addition. *)

Fixpoint float_sum_from (p : transaction binary64 → bool) (acc : binary64)
    (l : list (transaction binary64)) : binary64 :=
  match l with
  | [] => acc
  | t :: l' => float_sum_from p (if p t then PrimFloat.add acc (amount t) else acc) l'
  end.

Definition float_sum (p : transaction binary64 → bool) (l : list (transaction binary64))
  : binary64 :=
  float_sum_from p PrimFloat.zero l.

(** ** Months

    The month of a row as a pair of numbers, the order of the calendar on
    such pairs, and the text [YYYY-MM] of a pair: four digits, a dash and
    two digits. *)

Definition year_month {A : Type} (t : transaction A) : nat * nat :=
  (year (date t), month (date t)).

Definition earlier (a b : nat * nat) : Prop :=
  a.1 < b.1 ∨ (a.1 = b.1 ∧ a.2 < b.2).

Definition yyyy_mm (ym : nat * nat) : string :=
  String (digit (ym.1 / 1000)) (String (digit (ym.1 / 100)) (String (digit (ym.1 / 10))
    (String (digit ym.1) (String "-" (String (digit (ym.2 / 10))
      (String (digit ym.2) EmptyString)))))).

(** The dates whose year has four digits; every [datetime] has a month
    from 1 to 12 and a year from 1 to 9999. *)
Definition four_digit_year (d : datetime) : Prop :=
  1000 ≤ year d ∧ year d / 1000 ≤ 9 ∧ 1 ≤ month d ≤ 12.

(** The months present in the data as pairs, each once. *)
Definition distinct_year_months {A : Type} (l : list (transaction A)) : list (nat * nat) :=
  remove_dups (map year_month l).

(** ** Worked inputs over exact amounts *)

Module Examples.
Import Exact.

Definition on_day (y m d : nat) : datetime :=
  {| year := y; month := m; day := d; hour := 0; minute := 0; second := 0 |}.

Definition row (ty cat : string) (a : Qc) (desc : option string) (d : datetime)
  : transaction Qc :=
  {| tx_id := 0; user_id := 1; type := ty; category := cat; amount := a;
     description := desc; date := d; created_at := d |}.

(** The input of the example of the specification. *)
Definition three_rows : list (transaction Qc) :=
  [ row "income" "Salary" (whole 1000) (Some "Monthly salary payment") (on_day 2024 1 15);
    row "expense" "Food" (whole 50) (Some "Grocery shopping") (on_day 2024 1 20);
    row "expense" "Food" (whole 30) (Some "Coffee shop") (on_day 2024 2 1) ].

(** The same rows as the store returns them to the exports, latest first. *)
Definition three_rows_desc : list (transaction Qc) := rev three_rows.

(** One expense of an eighth: the amount has three decimals. *)
Definition one_eighth : list (transaction Qc) :=
  [ row "expense" "Food" (frac 1 8) (Some "Coffee shop") (on_day 2024 3 5) ].

(** One income and one expense of 1 in each of thirteen months in a row. *)
Definition month_pair (ym : nat * nat) : list (transaction Qc) :=
  [ row "income" "Salary" (whole 1) (Some "") (on_day ym.1 ym.2 1);
    row "expense" "Bills" (whole 1) (Some "") (on_day ym.1 ym.2 2) ].

Definition thirteen_months : list (transaction Qc) :=
  flat_map month_pair
    [ (2023, 1); (2023, 2); (2023, 3); (2023, 4); (2023, 5); (2023, 6); (2023, 7);
      (2023, 8); (2023, 9); (2023, 10); (2023, 11); (2023, 12); (2024, 1) ].

(** A row stored with a null description. *)
Definition null_description : list (transaction Qc) :=
  [ row "expense" "Food" (whole 50) None (on_day 2024 1 20) ].

Definition a_31 : string := "abcdefghijklmnopqrstuvwxyz01234".
Definition a_30 : string := "abcdefghijklmnopqrstuvwxyz0123".

Definition report_day : datetime := on_day 2024 3 1.

End Examples.

(** ** Worked inputs over binary64 amounts *)

Module FloatExamples.
Import Examples.

Definition row (ty cat : string) (a : binary64) (desc : option string) (d : datetime)
  : transaction binary64 :=
  {| tx_id := 0; user_id := 1; type := ty; category := cat; amount := a;
     description := desc; date := d; created_at := d |}.

(** The input of the example of the specification. *)
Definition three_rows : list (transaction binary64) :=
  [ row "income" "Salary" 1000 (Some "Monthly salary payment") (on_day 2024 1 15);
    row "expense" "Food" 50 (Some "Grocery shopping") (on_day 2024 1 20);
    row "expense" "Food" 30 (Some "Coffee shop") (on_day 2024 2 1) ].

(** Three expenses of 0.1, 0.2 and 0.4, the first and the last in the same
    category and in the same month. *)
Definition tenths : list (transaction binary64) :=
  [ row "expense" "Food" 0.1 (Some "Coffee shop") (on_day 2024 1 5);
    row "expense" "Rent" 0.2 (Some "Internet bill") (on_day 2024 2 1);
    row "expense" "Food" 0.4 (Some "Coffee shop") (on_day 2024 1 20) ].

(** One expense of an eighth, which binary64 holds exactly and which lies
    half way between two cents. *)
Definition one_eighth : list (transaction binary64) :=
  [ row "expense" "Food" 0.125 (Some "Coffee shop") (on_day 2024 3 5) ].

(** An income of 0.015 and an expense of 0.005, as binary64 holds them. *)
Definition half_cents : list (transaction binary64) :=
  [ row "income" "Salary" 0.015 (Some "") (on_day 2024 1 1);
    row "expense" "Food" 0.005 (Some "") (on_day 2024 1 2) ].

(** An income of 0.375 and an expense of 0.25, which binary64 holds exactly;
    their difference lies half way between two cents. *)
Definition three_eighths : list (transaction binary64) :=
  [ row "income" "Salary" 0.375 (Some "") (on_day 2024 1 1);
    row "expense" "Food" 0.25 (Some "") (on_day 2024 1 2) ].

(** A row whose description is sixteen accented letters, and one whose
    description has 31 letters. *)
Definition described : list (transaction binary64) :=
  [ row "expense" "Food" 2.675 (Some "éééééééééééééééé") (on_day 2024 1 5);
    row "income" "Salary" 1000 (Some a_31) (on_day 2024 1 1) ].

(** One income and one expense of 1 in each of thirteen months in a row. *)
Definition month_pair (ym : nat * nat) : list (transaction binary64) :=
  [ row "income" "Salary" 1 (Some "") (on_day ym.1 ym.2 1);
    row "expense" "Bills" 1 (Some "") (on_day ym.1 ym.2 2) ].

Definition thirteen_months : list (transaction binary64) :=
  flat_map month_pair
    [ (2023, 1); (2023, 2); (2023, 3); (2023, 4); (2023, 5); (2023, 6); (2023, 7);
      (2023, 8); (2023, 9); (2023, 10); (2023, 11); (2023, 12); (2024, 1) ].

(** One expense in each month of 2024 and one in June of the year 999. *)
Definition with_year_999 : list (transaction binary64) :=
  row "expense" "Food" 5 (Some "") (on_day 999 6 15)
  :: map (λ m, row "expense" "Food" 1 (Some "") (on_day 2024 m 1))
         [1; 2; 3; 4; 5; 6; 7; 8; 9; 10; 11; 12].

(** Sixteen times the letter e with an acute accent, two bytes each. *)
Definition sixteen_accents : string :=
  "éééééééééééééééé".

End FloatExamples.

(** * The routes around the aggregation

    The remaining routes of [app.py] read a JSON body, look rows up in the
    two tables and commit at most once, at their end.  They are embedded as
    functions from the state of the tables to a reply and a new state. *)

(** ** JSON values

    What [request.get_json()] and [jwt.decode] hand to the code: [json.loads]
    reads a number without fraction or exponent as an [int] of any size and
    every other number as a [float], and an object as a [dict] that keeps the
    last value of a repeated key. *)

#[local] Unset Elimination Schemes.
Inductive json (A : Type) :=
| JNull
| JBool (b : bool)
| JInt (n : Z)
| JFloat (x : A)
| JStr (s : string)
| JArr (l : list (json A))
| JObj (d : gmap string (json A)).
Arguments JNull {A}.
Arguments JBool {A} _.
Arguments JInt {A} _.
Arguments JFloat {A} _.
Arguments JStr {A} _.
Arguments JArr {A} _.
Arguments JObj {A} _.
#[local] Set Elimination Schemes.

(** ** Tables *)

(** A row of the table [users]. *)
Record user := {
  u_id : nat;
  u_name : string;
  u_email : string;
  u_password : string;
  u_profile_picture : string;
  u_created_at : datetime
}.

Record database (A : Type) := {
  users_table : list user;
  transactions_table : list (transaction A)
}.
Arguments users_table {A} _.
Arguments transactions_table {A} _.

(** ** Replies *)

(** An exception that no handler of the application catches; the framework
    answers it with status 500. *)
Inductive uncaught :=
| Builtin (e : exn)
| IndexError
| KeyError
| SQLAlchemyError
| OverflowError
| AttributeError.

(** The JSON documents and files that the routes send. *)
Inductive body (A : Type) :=
| BodyError (error : string)
| BodyMessage (message : string)
| BodyTransaction (message : option string) (t : transaction A)
| BodyTransactions (l : list (transaction A))
| BodyUser (u : user)
| BodySummary (s : summary A)
| BodyExcel (f : excel_file A)
| BodyPdf (f : pdf_file).
Arguments BodyError {A} _.
Arguments BodyMessage {A} _.
Arguments BodyTransaction {A} _ _.
Arguments BodyTransactions {A} _.
Arguments BodyUser {A} _.
Arguments BodySummary {A} _.
Arguments BodyExcel {A} _.
Arguments BodyPdf {A} _.

Inductive reply (A : Type) :=
| Reply (status : nat) (b : body A)
| Uncaught (e : uncaught).
Arguments Reply {A} _ _.
Arguments Uncaught {A} _.

(** The statements of a route up to its commit: they go on with a value, or
    stop at a [return] or at an exception. *)
Inductive step (A T : Type) :=
| Go (v : T)
| Stop (r : reply A).
Arguments Go {A T} _.
Arguments Stop {A T} _.

#[global] Instance step_bind {A : Type} : MBind (step A) := λ T U k s,
  match s with
  | Go v => k v
  | Stop r => Stop r
  end.

(** ** What the libraries and the database do

    The routes call Python builtins, PyJWT and the database driver.  Their
    results are taken as given; the properties of the routes hold for every
    choice of them that satisfies [PlatformLaws]. *)

(** The result of [jwt.decode]: the payload of the token, a [dict], or one
    of the two exceptions that [token_required] catches. *)
Inductive jwt_outcome (A : Type) :=
| Decoded (data : gmap string (json A))
| ExpiredSignatureError
| InvalidTokenError.
Arguments Decoded {A} _.
Arguments ExpiredSignatureError {A}.
Arguments InvalidTokenError {A}.

(** The result of [User.query.get(ident)]. *)
Inductive lookup :=
| Found (u : user)
| NotFound
| LookupRaises (e : uncaught).

Class Platform (A : Type) := {
  (* [float(n)] of an [int]; [None] is [OverflowError] *)
  float_of_int : Z → option A;
  (* [float(s)] of a string; [None] is [ValueError] *)
  float_of_str : string → option A;
  (* [float(b)] of [True] and [False] *)
  float_of_bool : bool → A;
  (* [x <= 0] *)
  le_zero : A → bool;
  (* [datetime.fromisoformat(s)]; [None] is [ValueError] *)
  fromisoformat : string → option datetime;
  (* the value a [String(n)] column takes from a Python value at a commit:
     [None] when the statement fails, [Some None] for NULL *)
  bind_varchar : nat → json A → option (option string);
  (* the same for a [Text] column *)
  bind_text : json A → option (option string);
  (* the same for a [Float] column and a Python [float] *)
  bind_float : A → option (option A);
  (* [order_by(Transaction.date.desc())] applied to the selected rows *)
  order_by_date_desc : list (transaction A) → list (transaction A);
  (* [User.query.get(ident)] on the rows of the table [users] *)
  query_get : json A → list user → lookup;
  (* [jwt.decode(token, key, algorithms=['HS256'])] at a given time *)
  jwt_decode : datetime → string → jwt_outcome A
}.

Class PlatformLaws (A : Type) `{Platform A} : Prop := {
  bind_varchar_str : ∀ (n : nat) (s : string),
    String.length s ≤ n → bind_varchar n (JStr s) = Some (Some s);
  bind_varchar_null : ∀ n : nat, bind_varchar n JNull = Some None;
  bind_text_str : ∀ s : string, bind_text (JStr s) = Some (Some s);
  bind_text_null : bind_text JNull = Some None;
  bind_float_same : ∀ x y : A, bind_float x = Some (Some y) → y = x;
  order_by_date_desc_perm : ∀ l : list (transaction A), order_by_date_desc l ≡ₚ l;
  query_get_int : ∀ (n : nat) (users : list user),
    query_get (JInt (Z.of_nat n)) users
    = match List.find (λ u, Nat.eqb (u_id u) n) users with
      | Some u => Found u
      | None => NotFound
      end;
  query_get_found : ∀ (ident : json A) (users : list user) (u : user),
    query_get ident users = Found u → u ∈ users
}.

(** ** Python on strings and JSON values *)

(** [s.split(' ')] *)
Fixpoint split_space (s : string) : list string :=
  match s with
  | EmptyString => [ EmptyString ]
  | String c s' =>
      if Ascii.eqb c " "
      then EmptyString :: split_space s'
      else match split_space s' with
           | w :: ws => String c w :: ws
           | [] => [ String c EmptyString ]
           end
  end.

(** [s.replace('Z', '+00:00')] *)
Fixpoint replace_Z (s : string) : string :=
  match s with
  | EmptyString => EmptyString
  | String c s' =>
      if Ascii.eqb c "Z"
      then "+00:00" +:+ replace_Z s'
      else String c (replace_Z s')
  end.

(** [key in s] for two strings: [key] occurs in [s]. *)
Fixpoint occurs_in (key s : string) : bool :=
  String.prefix key s
  || match s with
     | EmptyString => false
     | String _ s' => occurs_in key s'
     end.

(** [not token] for the value of a header or of a cookie. *)
Definition falsy (token : option string) : bool :=
  match token with
  | None => true
  | Some s => String.eqb s ""
  end.

(** [v == key] for a JSON value and a string. *)
Definition is_str {A : Type} (key : string) (v : json A) : bool :=
  match v with
  | JStr s => String.eqb s key
  | _ => false
  end.

(** [v in ['income', 'expense']] *)
Definition in_kinds {A : Type} (v : json A) : bool :=
  match v with
  | JStr s => String.eqb s "income" || String.eqb s "expense"
  | _ => false
  end.

(** The four ways [float(v)] ends. *)
Inductive float_result (A : Type) :=
| FloatValue (x : A)
| FloatValueError
| FloatTypeError
| FloatOverflowError.
Arguments FloatValue {A} _.
Arguments FloatValueError {A}.
Arguments FloatTypeError {A}.
Arguments FloatOverflowError {A}.

Section Api.
Context {A : Type} `{Amount A} `{Platform A}.

(** [float(v)]: a float is taken as it is, an [int] is converted unless it
    is too large, a string is parsed, the two booleans are numbers, and
    anything else is a [TypeError]. *)
Definition float (v : json A) : float_result A :=
  match v with
  | JFloat x => FloatValue x
  | JInt n => match float_of_int n with
              | Some x => FloatValue x
              | None => FloatOverflowError
              end
  | JBool b => FloatValue (float_of_bool b)
  | JStr s => match float_of_str s with
              | Some x => FloatValue x
              | None => FloatValueError
              end
  | JNull | JArr _ | JObj _ => FloatTypeError
  end.

(** [return jsonify({'error': message}), status] *)
Definition error {T : Type} (status : nat) (message : string) : step A T :=
  Stop (Reply status (BodyError message)).

Definition raise {T : Type} (e : uncaught) : step A T := Stop (Uncaught e).

(** [key in data]: a key of a [dict], an element of a list, a part of a
    string; [None], a boolean and a number are no containers. *)
Definition contains (data : json A) (key : string) : step A bool :=
  match data with
  | JObj d => Go (bool_decide (is_Some (d !! key)))
  | JArr l => Go (existsb (is_str key) l)
  | JStr s => Go (occurs_in key s)
  | JNull | JBool _ | JInt _ | JFloat _ => raise (Builtin TypeError)
  end.

(** [all(field in data for field in fields)] *)
Fixpoint all_in (data : json A) (fields : list string) : step A bool :=
  match fields with
  | [] => Go true
  | field :: fields' =>
      present ← contains data field ;
      if present : bool then all_in data fields' else Go false
  end.

(** [data[key]] for a string [key]: only a [dict] can be indexed by one. *)
Definition item (data : json A) (key : string) : step A (json A) :=
  match data with
  | JObj d => match d !! key with
              | Some v => Go v
              | None => raise KeyError
              end
  | _ => raise (Builtin TypeError)
  end.

(** [data.get(key, default)] *)
Definition get (data : json A) (key : string) (default_ : json A) : step A (json A) :=
  match data with
  | JObj d => Go (default default_ (d !! key))
  | _ => raise AttributeError
  end.

(** The [try] block around the amount: [ValueError] is caught, [TypeError]
    and [OverflowError] are not. *)
Definition parse_amount (v : json A) : step A A :=
  match float v with
  | FloatValue amount =>
      if le_zero amount then error 400 "Amount must be positive" else Go amount
  | FloatValueError => error 400 "Invalid amount"
  | FloatTypeError => raise (Builtin TypeError)
  | FloatOverflowError => raise OverflowError
  end.

(** The [try] block around the date, with its bare [except]: whatever is
    raised inside it, by the indexing, by a value without the method
    [replace] or by the parser, ends in the same answer. *)
Definition parse_date (v : step A (json A)) : step A datetime :=
  match v with
  | Go (JStr s) =>
      match fromisoformat (replace_Z s) with
      | Some d => Go d
      | None => error 400 "Invalid date format"
      end
  | _ => error 400 "Invalid date format"
  end.

(** A column declared [nullable=False], and one that is not. *)
Definition not_null {T : Type} (c : option (option T)) : step A T :=
  match c with
  | Some (Some s) => Go s
  | _ => raise SQLAlchemyError
  end.

Definition nullable {T : Type} (c : option (option T)) : step A (option T) :=
  match c with
  | Some o => Go o
  | None => raise SQLAlchemyError
  end.

(** [Transaction.query.filter_by(user_id=current_user.id).all()], in the
    order of the table. *)
Definition user_transactions (current_user : user) (db : database A)
  : list (transaction A) :=
  List.filter (λ t, Nat.eqb (user_id t) (u_id current_user)) (transactions_table db).

(** [Transaction.query.filter_by(id=transaction_id, user_id=current_user.id).first()] *)
Definition find_transaction (current_user : user) (transaction_id : nat) (db : database A)
  : option (transaction A) :=
  List.find (λ t, Nat.eqb (tx_id t) transaction_id && Nat.eqb (user_id t) (u_id current_user))
            (transactions_table db).

(** *** [token_required] *)

Record request := {
  header_Authorization : option string;
  cookie_token : option string
}.

Definition route := user → database A → reply A * database A.

(** The token that reaches [jwt.decode]: the header, else the cookie, less
    a leading [Bearer ]. *)
Definition request_token (r : request) : step A string :=
  let token := header_Authorization r in
  let token := if falsy token then cookie_token r else token in
  if falsy token then error 401 "Token is missing" else
  let token := default "" token in
  if String.prefix "Bearer " token
  then match split_space token !! 1 with
       | Some token => Go token
       | None => raise IndexError
       end
  else Go token.

(** The [try] block of the decorator: the two exceptions of PyJWT are
    caught, the [KeyError] of [data['user_id']] and what the query raises
    are not. *)
Definition current_user_of (now : datetime) (token : string) (db : database A)
  : step A user :=
  match jwt_decode now token with
  | Decoded data =>
      match data !! "user_id" with
      | None => raise KeyError
      | Some ident =>
          match query_get ident (users_table db) with
          | Found current_user => Go current_user
          | NotFound => error 401 "User not found"
          | LookupRaises e => raise e
          end
      end
  | ExpiredSignatureError => error 401 "Token has expired"
  | InvalidTokenError => error 401 "Invalid token"
  end.

Definition token_required (f : route) (now : datetime) (r : request) (db : database A)
  : reply A * database A :=
  match token ← request_token r ; current_user_of now token db with
  | Stop reply => (reply, db)
  | Go current_user => f current_user db
  end.

(** *** The transaction routes *)

(** [GET /auth/me] *)
Definition get_current_user : route :=
  λ current_user db, (Reply 200 (BodyUser current_user), db).

(** [GET /transactions] *)
Definition get_transactions : route :=
  λ current_user db,
    (Reply 200 (BodyTransactions (order_by_date_desc (user_transactions current_user db))), db).

Definition required_fields : list string := ["type"; "category"; "amount"; "date"].

(** [POST /transactions].  [data] is what [request.get_json()] returned,
    [new_id] the primary key that the database gives to the row and [now]
    the default of [created_at]; the table changes at the commit only. *)
Definition create_transaction (new_id : nat) (now : datetime) (data : json A) : route :=
  λ current_user db,
    let new_transaction : step A (transaction A) :=
      present ← all_in data required_fields ;
      if negb present then error 400 "Missing required fields" else
      type_ ← item data "type" ;
      if negb (in_kinds type_) then error 400 "Type must be income or expense" else
      amount_ ← item data "amount" ;
      amount ← parse_amount amount_ ;
      transaction_date ← parse_date (item data "date") ;
      category_ ← item data "category" ;
      description_ ← get data "description" (JStr "") ;
      type_column ← not_null (bind_varchar 10 type_) ;
      category_column ← not_null (bind_varchar 50 category_) ;
      amount_column ← not_null (bind_float amount) ;
      description_column ← nullable (bind_text description_) ;
      Go {| tx_id := new_id;
            user_id := u_id current_user;
            type := type_column;
            category := category_column;
            amount := amount_column;
            description := description_column;
            date := transaction_date;
            created_at := now |} in
    match new_transaction with
    | Go t =>
        (Reply 201 (BodyTransaction (Some "Transaction created successfully") t),
         {| users_table := users_table db;
            transactions_table := transactions_table db ++ [t] |})
    | Stop r => (r, db)
    end.

(** [GET /transactions/<id>] *)
Definition get_transaction (transaction_id : nat) : route :=
  λ current_user db,
    match find_transaction current_user transaction_id db with
    | None => (Reply 404 (BodyError "Transaction not found"), db)
    | Some stored => (Reply 200 (BodyTransaction None stored), db)
    end.

(** The [UPDATE] and the [DELETE] of a commit address the row by its
    primary key. *)
Definition update_row (transaction_id : nat) (t' : transaction A)
    (rows : list (transaction A)) : list (transaction A) :=
  map (λ t, if Nat.eqb (tx_id t) transaction_id then t' else t) rows.

Definition delete_row (transaction_id : nat) (rows : list (transaction A))
  : list (transaction A) :=
  List.filter (λ t, negb (Nat.eqb (tx_id t) transaction_id)) rows.

(** [if key in data: ... data[key] ...]: the value that the block reads,
    if the key is there. *)
Definition optional_item (data : json A) (key : string) : step A (option (json A)) :=
  present ← contains data key ;
  if present : bool then v ← item data key ; Go (Some v) else Go None.

(** The block [if 'type' in data]: the value to assign, if any. *)
Definition update_type (data : json A) : step A (option (json A)) :=
  type_ ← optional_item data "type" ;
  match type_ with
  | Some v => if negb (in_kinds v)
              then error 400 "Type must be income or expense"
              else Go (Some v)
  | None => Go None
  end.

(** The block [if 'amount' in data], with its [try]. *)
Definition update_amount (data : json A) : step A (option A) :=
  amount_ ← optional_item data "amount" ;
  match amount_ with
  | Some v => amount ← parse_amount v ; Go (Some amount)
  | None => Go None
  end.

(** The block [if 'date' in data]: the indexing is inside the [try]. *)
Definition update_date (data : json A) : step A (option datetime) :=
  present ← contains data "date" ;
  if present : bool
  then transaction_date ← parse_date (item data "date") ; Go (Some transaction_date)
  else Go None.

(** What the commit leaves in a column: the assigned value as the driver
    binds it, or the stored value when none was assigned. *)
Definition column {V T : Type} (assigned : option V) (bind : V → step A T) (stored : T)
  : step A T :=
  match assigned with
  | Some v => bind v
  | None => Go stored
  end.

(** [PUT /transactions/<id>].  The attributes are assigned in the order of
    the code; a [return] before the commit leaves the table as it was. *)
Definition update_transaction (transaction_id : nat) (data : json A) : route :=
  λ current_user db,
    match find_transaction current_user transaction_id db with
    | None => (Reply 404 (BodyError "Transaction not found"), db)
    | Some stored =>
        let updated : step A (transaction A) :=
          type_ ← update_type data ;
          category_ ← optional_item data "category" ;
          amount_ ← update_amount data ;
          description_ ← optional_item data "description" ;
          date_ ← update_date data ;
          type_column ← column type_ (λ v, not_null (bind_varchar 10 v)) (type stored) ;
          category_column ←
            column category_ (λ v, not_null (bind_varchar 50 v)) (category stored) ;
          amount_column ← column amount_ (λ x, not_null (bind_float x)) (amount stored) ;
          description_column ←
            column description_ (λ v, nullable (bind_text v)) (description stored) ;
          Go {| tx_id := tx_id stored;
                user_id := user_id stored;
                type := type_column;
                category := category_column;
                amount := amount_column;
                description := description_column;
                date := default (date stored) date_;
                created_at := created_at stored |} in
        match updated with
        | Go t =>
            (Reply 200 (BodyTransaction (Some "Transaction updated successfully") t),
             {| users_table := users_table db;
                transactions_table := update_row transaction_id t (transactions_table db) |})
        | Stop r => (r, db)
        end
    end.

(** [DELETE /transactions/<id>] *)
Definition delete_transaction (transaction_id : nat) : route :=
  λ current_user db,
    match find_transaction current_user transaction_id db with
    | None => (Reply 404 (BodyError "Transaction not found"), db)
    | Some stored =>
        (Reply 200 (BodyMessage "Transaction deleted successfully"),
         {| users_table := users_table db;
            transactions_table := delete_row transaction_id (transactions_table db) |})
    end.

(** *** The aggregation and export routes on the tables *)

(** [GET /summary] *)
Definition summary_route : route :=
  λ current_user db,
    (Reply 200 (BodySummary (get_summary (user_transactions current_user db))), db).

(** [GET /export/excel] *)
Definition export_excel_route (now : datetime) : route :=
  λ current_user db,
    let transactions := order_by_date_desc (user_transactions current_user db) in
    (Reply 200 (BodyExcel (export_excel now transactions)), db).

(** [GET /export/pdf] *)
Definition export_pdf_route (now : datetime) : route :=
  λ current_user db,
    let transactions := order_by_date_desc (user_transactions current_user db) in
    match export_pdf (u_name current_user) now transactions with
    | Ok f => (Reply 200 (BodyPdf f), db)
    | Raise e => (Uncaught (Builtin e), db)
    end.

End Api.

(** ** Stand-ins for the libraries

    The functions on which the routes are run in the examples: the formats
    [YYYY-MM-DD] and [YYYY-MM-DDTHH:MM:SS] with an optional [+00:00] for
    [fromisoformat], a driver that stores strings and NULL and refuses
    everything else, a lookup by an [int] key, and tokens that spell the
    number of their user. *)

Module Libraries.

Definition digit_value (c : ascii) : option N :=
  let n := N_of_ascii c in
  if ((48 <=? n) && (n <=? 57))%N then Some (n - 48)%N else None.

Fixpoint digits_value (s : string) (acc : N) : option N :=
  match s with
  | EmptyString => Some acc
  | String c s' =>
      match digit_value c with
      | Some d => digits_value s' (acc * 10 + d)%N
      | None => None
      end
  end.

Definition number_at (s : string) (start len : nat) : option nat :=
  let field := substring start len s in
  if Nat.eqb (String.length field) len
  then N.to_nat <$> digits_value field 0
  else None.

Definition char_at (s : string) (i : nat) (c : string) : bool :=
  String.eqb (substring i 1 s) c.

Definition in_range (lo hi n : nat) : bool := (lo <=? n) && (n <=? hi).

Definition leap_year (y : nat) : bool :=
  (Nat.eqb (y mod 4) 0 && negb (Nat.eqb (y mod 100) 0)) || Nat.eqb (y mod 400) 0.

Definition days_in_month (y m : nat) : nat :=
  match m with
  | 2 => if leap_year y then 29 else 28
  | 4 | 6 | 9 | 11 => 30
  | _ => 31
  end.

Definition date_of_iso (s : string) : option datetime :=
  let n := String.length s in
  let with_time := Nat.eqb n 19 || (Nat.eqb n 25 && String.eqb (substring 19 6 s) "+00:00") in
  if negb (Nat.eqb n 10 || with_time) then None else
  if negb (char_at s 4 "-" && char_at s 7 "-") then None else
  if with_time && negb (char_at s 10 "T" && char_at s 13 ":" && char_at s 16 ":")
  then None else
  match number_at s 0 4, number_at s 5 2, number_at s 8 2 with
  | Some y, Some m, Some d =>
      let h := if with_time then number_at s 11 2 else Some 0 in
      let mi := if with_time then number_at s 14 2 else Some 0 in
      let se := if with_time then number_at s 17 2 else Some 0 in
      match h, mi, se with
      | Some h, Some mi, Some se =>
          if (1 <=? y) && in_range 1 12 m && in_range 1 (days_in_month y m) d
             && in_range 0 23 h && in_range 0 59 mi && in_range 0 59 se
          then Some {| year := y; month := m; day := d;
                       hour := h; minute := mi; second := se |}
          else None
      | _, _, _ => None
      end
  | _, _, _ => None
  end.

Definition store_string {A : Type} (limit : option nat) (v : json A)
  : option (option string) :=
  match v with
  | JStr s =>
      match limit with
      | Some n => if String.length s <=? n then Some (Some s) else None
      | None => Some (Some s)
      end
  | JNull => Some None
  | _ => None
  end.

Definition date_number (d : datetime) : N :=
  let n := N.of_nat in
  (((((n (year d) * 100 + n (month d)) * 100 + n (day d)) * 100 + n (hour d)) * 100
    + n (minute d)) * 100 + n (second d))%N.

(** Later dates first. *)
Definition not_before {A : Type} (t1 t2 : transaction A) : Prop :=
  (date_number (date t2) ≤ date_number (date t1))%N.

#[global] Instance not_before_dec {A : Type} : RelDecision (not_before (A:=A)).
Proof. intros t1 t2. unfold not_before. apply _. Defined.

(** The row whose primary key is the [int] of the identity; an identity of
    another type is refused by this driver. *)
Definition user_by_id {A : Type} (ident : json A) (users : list user) : lookup :=
  match ident with
  | JInt n =>
      match List.find (λ u, Z.eqb (Z.of_nat (u_id u)) n) users with
      | Some u => Found u
      | None => NotFound
      end
  | JNull => NotFound
  | _ => LookupRaises SQLAlchemyError
  end.

(** A token that spells a number carries the payload of [generate_token]
    for that user; the token [anonymous] carries a payload without
    [user_id]. *)
Definition token_payload {A : Type} (now : datetime) (token : string) : jwt_outcome A :=
  if String.eqb token "" then InvalidTokenError else
  if String.eqb token "expired" then ExpiredSignatureError else
  if String.eqb token "anonymous" then Decoded {[ "exp" := JInt 1735689600 ]} else
  match digits_value token 0 with
  | Some n => Decoded {[ "user_id" := JInt (Z.of_N n); "exp" := JInt 1735689600 ]}
  | None => InvalidTokenError
  end.

End Libraries.

(** ** A platform over exact amounts *)

Module ExactPlatform.
Import Exact Libraries.

(** The digits before the first dot and the ones after it. *)
Fixpoint split_dot (s : string) : string * option string :=
  match s with
  | EmptyString => (EmptyString, None)
  | String c s' =>
      if Ascii.eqb c "."
      then (EmptyString, Some s')
      else let '(i, f) := split_dot s' in (String c i, f)
  end.

(** Plain decimals: digits, with an optional dot and more digits. *)
Definition decimal_of_str (s : string) : option Qc :=
  let '(i, f) := split_dot s in
  let f := default EmptyString f in
  if String.eqb i "" then None else
  match digits_value i 0, digits_value f 0 with
  | Some n, Some m =>
      let scale := (10 ^ N.of_nat (String.length f))%N in
      Some (Q2Qc (Qmake (Z.of_N (n * scale + m)) (N.succ_pos (N.pred scale))))
  | _, _ => None
  end.

#[global] Instance Qc_platform : Platform Qc := {|
  float_of_int := λ n, Some (whole n);
  float_of_str := decimal_of_str;
  float_of_bool := λ b, if b then whole 1 else whole 0;
  le_zero := λ x, Qle_bool (this x) (Qmake 0 1);
  fromisoformat := date_of_iso;
  bind_varchar := λ n, store_string (Some n);
  bind_text := store_string None;
  bind_float := λ x, Some (Some x);
  order_by_date_desc := merge_sort not_before;
  query_get := user_by_id;
  jwt_decode := token_payload
|}.

End ExactPlatform.

(** ** The platform of the code

    Binary64 amounts with CPython's conversions and an SQLite database:
    [float] of an [int] is the nearest binary64 value and an
    [OverflowError] beyond the range, [float] of a string follows the
    grammar of the builtin on ASCII text, and a NaN bound to a column is
    stored as NULL. *)

Module FloatPlatform.
Import SpecFloat FloatOps Libraries.

(** [float(n)] of an [int] *)
Definition from_int (n : Z) : option binary64 :=
  match Binary64.nearest n 1 with
  | S754_infinity _ => None
  | x => Some (SF2Prim x)
  end.

(** The white space that [float] strips from both ends. *)
Definition is_space (c : ascii) : bool :=
  let n := nat_of_ascii c in
  ((9 <=? n) && (n <=? 13)) || ((28 <=? n) && (n <=? 32)).

Fixpoint lstrip (s : string) : string :=
  match s with
  | EmptyString => EmptyString
  | String c s' => if is_space c then lstrip s' else s
  end.

Definition reverse (s : string) : string :=
  string_of_list_ascii (rev (list_ascii_of_string s)).

Definition strip (s : string) : string := reverse (lstrip (reverse (lstrip s))).

(** The rest of a [digitpart] after its first digit: digits, each after at
    most one underscore.  [acc] is the number read so far and [k] the count
    of its digits. *)
Fixpoint digitpart_rest (s : string) (acc : N) (k : nat) : N * nat * string :=
  match s with
  | EmptyString => (acc, k, EmptyString)
  | String c s' =>
      match digit_value c with
      | Some d => digitpart_rest s' (acc * 10 + d)%N (S k)
      | None =>
          if Ascii.eqb c "_"
          then match s' with
               | String c' s'' =>
                   match digit_value c' with
                   | Some d => digitpart_rest s'' (acc * 10 + d)%N (S k)
                   | None => (acc, k, s)
                   end
               | EmptyString => (acc, k, s)
               end
          else (acc, k, s)
      end
  end.

Definition digitpart (s : string) : option (N * nat * string) :=
  match s with
  | EmptyString => None
  | String c s' =>
      match digit_value c with
      | Some d => Some (digitpart_rest s' d 1)
      | None => None
      end
  end.

(** An optional sign. *)
Definition signed (s : string) : bool * string :=
  match s with
  | String "-"%char s' => (true, s')
  | String "+"%char s' => (false, s')
  | _ => (false, s)
  end.

(** [number]: the digits of the literal as one integer, and how many of
    them stand after the point. *)
Definition number (s : string) : option (N * nat * string) :=
  match digitpart s with
  | Some (i, _, String "."%char s') =>
      match digitpart s' with
      | Some (f, k, s'') => Some ((i * 10 ^ N.of_nat k + f)%N, k, s'')
      | None => Some (i, 0, s')
      end
  | Some (i, _, s') => Some (i, 0, s')
  | None =>
      match s with
      | String "."%char s' =>
          match digitpart s' with
          | Some (f, k, s'') => Some (f, k, s'')
          | None => None
          end
      | _ => None
      end
  end.

(** [exponent], when there is one. *)
Definition exponent (s : string) : option (Z * string) :=
  match s with
  | String c s' =>
      if Ascii.eqb c "e" || Ascii.eqb c "E"
      then let '(neg, s'') := signed s' in
           match digitpart s'' with
           | Some (e, _, rest) => Some (if neg then (- Z.of_N e)%Z else Z.of_N e, rest)
           | None => None
           end
      else Some (0%Z, s)
  | EmptyString => Some (0%Z, s)
  end.

(** The binary64 value nearest to [m * 10^e]. *)
Definition scaled (neg : bool) (m : N) (e : Z) : binary64 :=
  let digits := Z.of_nat (String.length (pretty m)) in
  let zero := if neg then neg_zero else PrimFloat.zero in
  let m := if neg then (- Z.of_N m)%Z else Z.of_N m in
  if (m =? 0)%Z then zero
  else if (309 <=? digits - 1 + e)%Z then (if neg then neg_infinity else infinity)
  else if (digits + e <=? -324)%Z then zero
  else match e with
       | Z.neg p => SF2Prim (Binary64.nearest m (10 ^ p))
       | _ => SF2Prim (Binary64.nearest (m * 10 ^ e) 1)
       end.

(** [float(s)] *)
Definition from_str (s : string) : option binary64 :=
  let '(neg, s) := signed (strip s) in
  let word := lower_all s in
  if String.eqb word "inf" || String.eqb word "infinity"
  then Some (if neg then neg_infinity else infinity)
  else if String.eqb word "nan" then Some nan
  else match number s with
       | Some (m, k, rest) =>
           match exponent rest with
           | Some (e, EmptyString) => Some (scaled neg m (e - Z.of_nat k))
           | _ => None
           end
       | None => None
       end.

(** SQLite has no NaN: it stores NULL in its place. *)
Definition store_float (x : binary64) : option (option binary64) :=
  if is_nan x then Some None else Some (Some x).

#[global] Instance binary64_platform : Platform binary64 := {|
  float_of_int := from_int;
  float_of_str := from_str;
  float_of_bool := λ b, if b then PrimFloat.one else PrimFloat.zero;
  le_zero := λ x, PrimFloat.leb x PrimFloat.zero;
  fromisoformat := date_of_iso;
  bind_varchar := λ n, store_string (Some n);
  bind_text := store_string None;
  bind_float := store_float;
  order_by_date_desc := merge_sort not_before;
  query_get := user_by_id;
  jwt_decode := token_payload
|}.

End FloatPlatform.

(** ** Worked requests *)

Module Requests.
Import Exact Examples ExactPlatform.

Definition alice : user :=
  {| u_id := 1; u_name := "Alice"; u_email := "alice@example.com";
     u_password := "$2b$12$hash-of-alice"; u_profile_picture := "default.png";
     u_created_at := on_day 2024 1 1 |}.

Definition bob : user :=
  {| u_id := 2; u_name := "Bob"; u_email := "bob@example.com";
     u_password := "$2b$12$hash-of-bob"; u_profile_picture := "default.png";
     u_created_at := on_day 2024 1 2 |}.

Definition owned {A : Type} (u : user) (i : nat) (ty cat : string) (a : A)
    (desc : option string) (d : datetime) : transaction A :=
  {| tx_id := i; user_id := u_id u; type := ty; category := cat; amount := a;
     description := desc; date := d; created_at := d |}.

(** Two rows of Alice and one of Bob. *)
Definition two_users : database Qc :=
  {| users_table := [alice; bob];
     transactions_table :=
       [ owned alice 1 "income" "Salary" (whole 1000) (Some "Monthly salary payment")
               (on_day 2024 1 15);
         owned bob 2 "expense" "Bills" (whole 70) (Some "Internet bill") (on_day 2024 1 18);
         owned alice 3 "expense" "Food" (whole 50) (Some "Grocery shopping")
               (on_day 2024 1 20) ] |}.

(** The body of a request that records an expense of 30 for Food. *)
Definition food_30 : json Qc :=
  JObj {[ "type" := JStr "expense"; "category" := JStr "Food";
          "amount" := JInt 30; "date" := JStr "2024-02-01" ]}.

Definition bearer (token : string) : request :=
  {| header_Authorization := Some ("Bearer " +:+ token); cookie_token := None |}.

(** The row that the request [food_30] makes when the database gives it the
    key 4 on the report day, with the description [o]. *)
Definition food_30_row (o : option string) : transaction Qc :=
  {| tx_id := 4; user_id := 1; type := "expense"; category := "Food";
     amount := whole 30; description := o; date := on_day 2024 2 1;
     created_at := report_day |}.

(** The tables after the first request has been served. *)
Definition first_row : database Qc :=
  (create_transaction 1 report_day food_30 alice
     {| users_table := [alice; bob]; transactions_table := [] |}).2.

End Requests.

(** ** Worked requests on the platform of the code *)

Module FloatRequests.
Import Examples Requests FloatPlatform.

(** Two rows of Alice and one of Bob. *)
Definition two_users : database binary64 :=
  {| users_table := [alice; bob];
     transactions_table :=
       [ owned alice 1 "income" "Salary" 1000%float (Some "Monthly salary payment")
               (on_day 2024 1 15);
         owned bob 2 "expense" "Bills" 70%float (Some "Internet bill") (on_day 2024 1 18);
         owned alice 3 "expense" "Food" 50%float (Some "Grocery shopping")
               (on_day 2024 1 20) ] |}.

(** The fields of a body that records an expense for Food, with the given
    amount. *)
Definition food (amount_ : json binary64) : gmap string (json binary64) :=
  {[ "type" := JStr "expense"; "category" := JStr "Food";
     "amount" := amount_; "date" := JStr "2024-02-01" ]}.

(** The row that such a request makes when the database gives it the key 4
    on the report day. *)
Definition food_row (a : binary64) (o : option string) : transaction binary64 :=
  {| tx_id := 4; user_id := 1; type := "expense"; category := "Food";
     amount := a; description := o; date := on_day 2024 2 1;
     created_at := report_day |}.

(** The answer 201 and the tables with the row [t] appended. *)
Definition created (t : transaction binary64) (db : database binary64)
  : reply binary64 * database binary64 :=
  (Reply 201 (BodyTransaction (Some "Transaction created successfully") t),
   {| users_table := users_table db;
      transactions_table := transactions_table db ++ [t] |}).

End FloatRequests.

(** ** Readings used in the statements about the routes *)

(** The characters of [s] before its first space. *)
Fixpoint before_space (s : string) : string :=
  match s with
  | EmptyString => EmptyString
  | String c s' => if Ascii.eqb c " " then EmptyString else String c (before_space s')
  end.

(** The header when it holds a non-empty value, else the cookie. *)
Definition raw_token (r : request) : option string :=
  if falsy (header_Authorization r) then cookie_token r else header_Authorization r.

(** The four answers of [token_required] itself. *)
Definition refusals : list string :=
  ["Token is missing"; "Token has expired"; "Invalid token"; "User not found"].

(** What the validation of the transaction routes lets through: one of the
    two kinds, and an amount for which [amount <= 0] is false. *)
Definition valid_row `{Platform A} (t : transaction A) : Prop :=
  (type t = "income" ∨ type t = "expense") ∧ le_zero (amount t) = false.

(** The primary key of the table [transactions]. *)
Definition primary_key {A : Type} (db : database A) : Prop :=
  NoDup (map tx_id (transactions_table db)).

(** The replies of a route that writes when it does not write: an answer
    400, or one of the exceptions that nothing in the route catches. *)
Definition refused {A : Type} (r : reply A) : Prop :=
  (∃ message, r = Reply 400 (BodyError message))
  ∨ r = Uncaught (Builtin TypeError)
  ∨ r = Uncaught OverflowError
  ∨ r = Uncaught SQLAlchemyError.

(** The bodies that are no container: [None], a boolean, a number.  And the
    ones that are a container but no [dict]: a string and a list. *)
Definition scalar {A : Type} (data : json A) : bool :=
  match data with
  | JNull | JBool _ | JInt _ | JFloat _ => true
  | JStr _ | JArr _ | JObj _ => false
  end.

Definition sequence {A : Type} (data : json A) : bool :=
  match data with
  | JStr _ | JArr _ => true
  | JNull | JBool _ | JInt _ | JFloat _ | JObj _ => false
  end.

(** The value under [key] when the body is an object that has the key. *)
Definition field {A : Type} (data : json A) (key : string) : option (json A) :=
  match data with
  | JObj d => d !! key
  | _ => None
  end.

(** What [create_transaction] read from the body for the row it stored. *)
Definition created_from `{Platform A} (new_id : nat) (now : datetime)
    (data : json A) (u : user) (t : transaction A) : Prop :=
  (∃ d, data = JObj d)
  ∧ tx_id t = new_id ∧ user_id t = u_id u ∧ created_at t = now
  ∧ (∃ v, field data "type" = Some v ∧ in_kinds v = true
          ∧ bind_varchar 10 v = Some (Some (type t)))
  ∧ (∃ v x, field data "amount" = Some v ∧ float v = FloatValue x
            ∧ le_zero x = false ∧ bind_float x = Some (Some (amount t)))
  ∧ (∃ s, field data "date" = Some (JStr s)
          ∧ fromisoformat (replace_Z s) = Some (date t))
  ∧ (∃ v, field data "category" = Some v ∧ bind_varchar 50 v = Some (Some (category t)))
  ∧ bind_text (default (JStr "") (field data "description")) = Some (description t).

(** What [update_transaction] did to the stored row [t0] to make [t]: a
    field named in the body is read from it, every other one is kept. *)
Definition updated_from `{Platform A} (data : json A)
    (t0 t : transaction A) : Prop :=
  tx_id t = tx_id t0 ∧ user_id t = user_id t0 ∧ created_at t = created_at t0
  ∧ match field data "type" with
    | Some v => in_kinds v = true ∧ bind_varchar 10 v = Some (Some (type t))
    | None => type t = type t0
    end
  ∧ match field data "category" with
    | Some v => bind_varchar 50 v = Some (Some (category t))
    | None => category t = category t0
    end
  ∧ match field data "amount" with
    | Some v => ∃ x, float v = FloatValue x ∧ le_zero x = false
                     ∧ bind_float x = Some (Some (amount t))
    | None => amount t = amount t0
    end
  ∧ match field data "description" with
    | Some v => bind_text v = Some (description t)
    | None => description t = description t0
    end
  ∧ match field data "date" with
    | Some v => ∃ s, v = JStr s ∧ fromisoformat (replace_Z s) = Some (date t)
    | None => date t = date t0
    end.

(** The states of the tables that the three writing routes can reach from
    an empty table of transactions; the database hands each new row a
    primary key that is not in use. *)
Inductive reachable `{Amount A} `{Platform A} : database A → Prop :=
| reach_empty (users : list user) :
    reachable {| users_table := users; transactions_table := [] |}
| reach_create (db : database A) (new_id : nat) (now : datetime)
    (data : json A) (u : user) :
    reachable db →
    new_id ∉ map tx_id (transactions_table db) →
    reachable (create_transaction new_id now data u db).2
| reach_update (db : database A) (i : nat) (data : json A) (u : user) :
    reachable db → reachable (update_transaction i data u db).2
| reach_delete (db : database A) (i : nat) (u : user) :
    reachable db → reachable (delete_transaction i u db).2.

(** The cents that [round(x, 2)] keeps of a finite binary64 value, with
    their sign. *)
Definition float_cents (x : binary64) : option Z :=
  match FloatOps.Prim2SF x with
  | SpecFloat.S754_zero _ => Some 0%Z
  | SpecFloat.S754_finite s m e =>
      Some (if s then (- Binary64.cents m e)%Z else Binary64.cents m e)
  | _ => None
  end.

(** How far a hundred times [q] is from the integer [c]. *)
Definition distance_to_cents (q : Q) (c : Z) : Q :=
  Qabs (Qminus (Qmult q (Qmake 100 1)) (inject_Z c)).


(** The cell that the table of the PDF shows for the description [d]. *)
Definition description_cell (d cell : string) : Prop :=
  (str_len d ≤ 30 ∧ cell = d)
  ∨ (30 < str_len d ∧ cell = str_take 30 d +:+ "...").

(** The table row that a transaction is rendered to. *)
Definition rendered `{Amount A} (t : transaction A) (row : list string) : Prop :=
  ∃ d cell, description t = Some d
    ∧ description_cell d cell
    ∧ str_len cell ≤ 33
    ∧ row = [ strftime_Ymd (date t); capitalize (type t); category t;
              "$" +:+ money (amount t); cell ].
(** * Properties *)

(** ** Exact amounts are exact *)

#[global] Instance Qc_exact : ExactAmount Qc.
Proof.
  split.
  - apply Qcplus_comm.
  - apply Qcplus_assoc.
  - apply Qcplus_0_l.
  - apply Qc_is_canon. reflexivity.
  - apply Qc_is_canon. reflexivity.
Qed.


(** The rounding of the exact carrier returns a nearest integer, and the
    even one of the two when the value lies half way. *)
Lemma round_half_even_nearest (q : Q) :
  (Qabs (q - inject_Z (round_half_even q)) <= 1 # 2)%Q.
Proof.
  destruct q as [n d]. unfold round_half_even. cbn [Qnum Qden].
  pose proof (Z.div_mod n (Z.pos d) ltac:(lia)) as Hdm.
  pose proof (Z.mod_pos_bound n (Z.pos d) ltac:(lia)) as Hr.
  set (f := (n / Z.pos d)%Z) in *. set (r := (n mod Z.pos d)%Z) in *.
  apply Qabs_Qle_condition.
  destruct (Z.compare_spec (2 * r) (Z.pos d)) as [He|Hl|Hg];
    [destruct (Z.even f)|..];
    unfold Qle, Qminus, Qplus, Qopp, inject_Z; cbn [Qnum Qden]; split; nia.
Qed.

Lemma round_half_even_tie (q : Q) :
  (2 * (Qnum q mod Z.pos (Qden q)) = Z.pos (Qden q))%Z →
  Z.even (round_half_even q) = true.
Proof.
  intros Htie. unfold round_half_even. rewrite Htie, Z.compare_refl.
  destruct (Z.even (Qnum q / Z.pos (Qden q))) eqn:He; [done|].
  by rewrite Z.add_1_r, Z.even_succ, <- Z.negb_even, He.
Qed.

(** ** The builtin [sum] *)

Section PySum.
Context {A : Type} `{Amount A}.

Lemma py_sum_nil : py_sum [] = zero.
Proof. reflexivity. Qed.

Lemma py_sum_snoc (xs : list A) (x : A) : py_sum (xs ++ [x]) = add (py_sum xs) x.
Proof. unfold py_sum. by rewrite fold_left_app. Qed.

Lemma amounts_where_nil (p : transaction A → bool) : amounts_where p [] = [].
Proof. reflexivity. Qed.

Lemma amounts_where_snoc (p : transaction A → bool) l t :
  amounts_where p (l ++ [t]) =
  if p t then amounts_where p l ++ [amount t] else amounts_where p l.
Proof.
  unfold amounts_where. rewrite List.filter_app. simpl.
  destruct (p t); simpl; [by rewrite map_app | by rewrite app_nil_r].
Qed.

Context `{!ExactAmount A}.

Lemma add_zero_r (x : A) : add x zero = x.
Proof. by rewrite add_comm, add_zero_l. Qed.

Lemma fold_add_shift (xs : list A) (a x : A) :
  fold_left add xs (add a x) = add a (fold_left add xs x).
Proof.
  revert x. induction xs as [|y xs IH]; intros x; simpl; [done|].
  by rewrite <- add_assoc, IH.
Qed.

Lemma py_sum_cons (x : A) (xs : list A) : py_sum (x :: xs) = add x (py_sum xs).
Proof.
  unfold py_sum. simpl. rewrite (add_comm zero x). apply fold_add_shift.
Qed.

Lemma py_sum_app (xs ys : list A) : py_sum (xs ++ ys) = add (py_sum xs) (py_sum ys).
Proof.
  induction xs as [|x xs IH]; simpl.
  - by rewrite py_sum_nil, add_zero_l.
  - by rewrite !py_sum_cons, IH, add_assoc.
Qed.

Lemma py_sum_perm (xs ys : list A) : xs ≡ₚ ys → py_sum xs = py_sum ys.
Proof.
  induction 1 as [|x xs ys _ IH|x y xs|xs ys zs _ IH1 _ IH2].
  - done.
  - by rewrite !py_sum_cons, IH.
  - rewrite !py_sum_cons, !add_assoc. f_equal. apply add_comm.
  - by rewrite IH1.
Qed.

(** The accumulation of the code computes the sum of the specification. *)
Lemma py_sum_amounts_where (p : transaction A → bool) l :
  py_sum (amounts_where p l) = sum_where p l.
Proof.
  induction l as [|t l IH]; [done|].
  unfold amounts_where in *. simpl. destruct (p t); simpl; [|done].
  by rewrite py_sum_cons, IH.
Qed.

End PySum.
(** ** Binary64 sums and cents *)

Section Binary64Facts.
Import SpecFloat FloatOps.

(** The builtin [sum] over the amounts that the code selects is the sum in
    the order of the rows. *)
Lemma float_sum_from_fold (p : transaction binary64 → bool) (acc : binary64)
    (l : list (transaction binary64)) :
  float_sum_from p acc l = fold_left PrimFloat.add (amounts_where p l) acc.
Proof.
  revert acc. induction l as [|t l IH]; intros acc; [done|].
  unfold amounts_where in *. simpl. destruct (p t); simpl; apply IH.
Qed.

Lemma py_sum_float_sum (p : transaction binary64 → bool) (l : list (transaction binary64)) :
  py_sum (amounts_where p l) = float_sum p l.
Proof. unfold float_sum. by rewrite float_sum_from_fold. Qed.

Lemma round_half_even_half (q : Q) :
  Qeq (Qabs (q - inject_Z (round_half_even q))%Q) (1 # 2)%Q →
  Z.even (round_half_even q) = true.
Proof.
  intros Hhalf. apply round_half_even_tie.
  destruct q as [n d]. unfold round_half_even in Hhalf. cbn [Qnum Qden] in *.
  pose proof (Z.div_mod n (Z.pos d) ltac:(lia)) as Hdm.
  pose proof (Z.mod_pos_bound n (Z.pos d) ltac:(lia)) as Hr.
  set (f := (n / Z.pos d)%Z) in *. set (r := (n mod Z.pos d)%Z) in *.
  destruct (Z.compare_spec (2 * r) (Z.pos d)) as [He|Hl|Hg]; [done|exfalso..].
  - assert (Qlt (Qabs ((n # d) - inject_Z f)%Q) (1 # 2)) as Hlt; [|rewrite Hhalf in Hlt; done].
    apply Qabs_Qlt_condition.
    unfold Qlt, Qminus, Qplus, Qopp, inject_Z; cbn [Qnum Qden]; split; nia.
  - assert (Qlt (Qabs ((n # d) - inject_Z (f + 1))%Q) (1 # 2)) as Hlt;
      [|rewrite Hhalf in Hlt; done].
    apply Qabs_Qlt_condition.
    unfold Qlt, Qminus, Qplus, Qopp, inject_Z; cbn [Qnum Qden]; split; nia.
Qed.

(** The cents of a finite value are a nearest integer to a hundred times
    the value, and the even one of two nearest. *)
Lemma float_cents_nearest (x : binary64) (q : Q) (c : Z) :
  Binary64.value x = Some q → float_cents x = Some c →
  (distance_to_cents q c <= 1 # 2)%Q
  ∧ (Qeq (distance_to_cents q c) (1 # 2)%Q → Z.even c = true).
Proof.
  unfold Binary64.value, float_cents, distance_to_cents.
  destruct (Prim2SF x) as [s|s| |s m e]; try done.
  - intros [= <-] [= <-]. split; [done|]. intros Hq. done.
  - intros [= <-] [= <-]. unfold Binary64.cents.
    set (v := Binary64.magnitude m e).
    pose proof (round_half_even_nearest (v * (100 # 1))%Q) as Hn.
    pose proof (round_half_even_half (v * (100 # 1))%Q) as He.
    destruct s; [|done].
    assert (Qeq (- v * (100 # 1) - inject_Z (- round_half_even (v * (100 # 1))))%Q
                (- (v * (100 # 1) - inject_Z (round_half_even (v * (100 # 1)))))%Q) as ->.
    { rewrite inject_Z_opp. ring. }
    rewrite Qabs_opp, Z.even_opp. done.
Qed.

Lemma float_cents_is_Some (x : binary64) (q : Q) :
  Binary64.value x = Some q → is_Some (float_cents x).
Proof.
  unfold Binary64.value, float_cents. destruct (Prim2SF x); try done; by eexists.
Qed.

(** [round(x, 2)] of a finite value is the binary64 value nearest to its
    cents, and a zero when there is no cent. *)
Lemma round2_float_cents (x : binary64) (c : Z) :
  float_cents x = Some c →
  (c ≠ 0%Z → Binary64.round2_float x = SF2Prim (Binary64.nearest c 100))
  ∧ (c = 0%Z → Binary64.value (Binary64.round2_float x) = Some (0 # 1)%Q).
Proof.
  unfold float_cents, Binary64.round2_float, Binary64.value.
  destruct (Prim2SF x) as [s|s| |s m e] eqn:Hx; try done.
  - intros [= <-]. split; [done|]. intros _. by rewrite Hx.
  - intros [= <-]. split.
    + intros Hc. destruct (Binary64.cents m e) eqn:Hce; [by destruct s|done..].
    + intros Hc. assert (Binary64.cents m e = 0%Z) as -> by (destruct s; lia).
      by destruct s.
Qed.

End Binary64Facts.

(** ** Totals *)

Section Totals.
Context {A : Type} `{Amount A} `{!ExactAmount A}.

Lemma total_income_spec (l : list (transaction A)) :
  total_income l = sum_where (kind_is "income") l.
Proof. apply (py_sum_amounts_where is_income). Qed.

Lemma total_expense_spec (l : list (transaction A)) :
  total_expense l = sum_where (kind_is "expense") l.
Proof. apply (py_sum_amounts_where is_expense). Qed.

End Totals.

(** C1.  On the binary64 amounts of the code: the total income is the sum,
    in the order of the rows, of the amounts of the income rows, and the
    total expense that of the expense rows; the balance before rounding is
    the IEEE difference of the two; the response carries each of the three
    rounded to two decimals, so the reported balance is the rounding of
    that difference; on the empty list the three reported totals are zero
    and the count is 0.  Rounding to two decimals takes a finite value to
    the binary64 value nearest to its nearest cent, the even cent of two
    nearest: 0.125 becomes 0.12 and 2.675, which binary64 holds a little
    below, becomes 2.67.  On the example of the specification the totals
    are 1000, 80 and 920. *)
Theorem summary_totals :
  (∀ transactions : list (transaction binary64),
     let income_sum := float_sum (kind_is "income") transactions in
     let expense_sum := float_sum (kind_is "expense") transactions in
     let report := get_summary transactions in
     total_income transactions = income_sum
     ∧ total_expense transactions = expense_sum
     ∧ balance transactions = PrimFloat.sub income_sum expense_sum
     ∧ total_income_field report = Binary64.round2_float income_sum
     ∧ total_expense_field report = Binary64.round2_float expense_sum
     ∧ balance_field report
       = Binary64.round2_float (PrimFloat.sub income_sum expense_sum)
     ∧ transaction_count report = length transactions
     ∧ (transactions = [] →
        total_income_field report = PrimFloat.zero
        ∧ total_expense_field report = PrimFloat.zero
        ∧ balance_field report = PrimFloat.zero
        ∧ transaction_count report = 0))
  ∧ (∀ (x : binary64) (q : Q), Binary64.value x = Some q →
       ∃ c : Z,
         (distance_to_cents q c <= 1 # 2)%Q
         ∧ (Qeq (distance_to_cents q c) (1 # 2)%Q → Z.even c = true)
         ∧ (c ≠ 0%Z →
            Binary64.round2_float x = FloatOps.SF2Prim (Binary64.nearest c 100))
         ∧ (c = 0%Z → Binary64.value (Binary64.round2_float x) = Some (0 # 1)%Q))
  ∧ (let report := get_summary FloatExamples.three_rows in
     total_income_field report = 1000%float
     ∧ total_expense_field report = 80%float
     ∧ balance_field report = 920%float)
  ∧ (Binary64.round2_float 0.125 = 0.12%float
     ∧ Binary64.round2_float 2.675 = 2.67%float
     ∧ Binary64.round2_float 1234.5678 = 1234.57%float
     ∧ Binary64.round2_float (-0.375) = (-0.38)%float
     ∧ PrimFloat.sub 1000 80 = 920%float).
Proof.
  split; [|split; [|split]].
  - intros transactions. cbv zeta.
    unfold balance, total_income, total_expense.
    rewrite <- !py_sum_float_sum.
    do 7 (split; [done|]).
    intros ->. vm_compute. done.
  - intros x q Hq. destruct (float_cents_is_Some x q Hq) as [c Hc].
    exists c. destruct (float_cents_nearest x q c Hq Hc) as [Hn He].
    destruct (round2_float_cents x c Hc) as [Hr Hz]. done.
  - vm_compute. done.
  - vm_compute. done.
Qed.

(** ** The two loops *)

Section Loops.
Context {A : Type} `{Amount A}.

Lemma existsb_snoc {B : Type} (p : B → bool) l x :
  existsb p (l ++ [x]) = existsb p l || p x.
Proof. rewrite existsb_app. simpl. by rewrite orb_false_r. Qed.

Lemma amounts_where_none (p : transaction A → bool) l :
  existsb p l = false → amounts_where p l = [].
Proof.
  induction l as [|t l IH]; [done|]. simpl.
  intros [Ht Hl]%orb_false_iff. unfold amounts_where in *. simpl.
  rewrite Ht. auto.
Qed.

Lemma category_spending_snoc l t :
  category_spending (l ++ [t]) = category_step (category_spending l) t.
Proof. unfold category_spending. by rewrite fold_left_app. Qed.

(** The dictionary after the first loop: a category is a key exactly when
    an expense row carries it, and its value is the accumulation, in input
    order and from [0], of the amounts of those rows. *)
Lemma category_spending_lookup l c :
  category_spending l !! c =
  if existsb (in_category c) l
  then Some (py_sum (amounts_where (in_category c) l))
  else None.
Proof.
  induction l as [|t l IH] using rev_ind; [done|].
  rewrite category_spending_snoc, existsb_snoc, amounts_where_snoc.
  unfold category_step.
  destruct (in_category c t) eqn:Hin.
  - apply andb_true_iff in Hin as [Ht Hc]. apply String.eqb_eq in Hc. subst c.
    rewrite Ht, orb_true_r, lookup_insert_eq, py_sum_snoc, IH.
    destruct (existsb _ l) eqn:Hex; simpl; [done|].
    by rewrite (amounts_where_none _ _ Hex).
  - rewrite orb_false_r, <- IH.
    destruct (is_expense t) eqn:Ht; [|done].
    apply lookup_insert_ne. intros Hc.
    unfold in_category in Hin. by rewrite Ht, Hc, String.eqb_refl in Hin.
Qed.

Lemma monthly_data_snoc l t :
  monthly_data (l ++ [t]) = monthly_step (monthly_data l) t.
Proof. unfold monthly_data. by rewrite fold_left_app. Qed.

Lemma monthly_step_lookup (m : gmap string (month_totals A)) t k :
  monthly_step m t !! k =
  if decide (month_key t = k)
  then let entry := default {| income := zero; expense := zero |} (m !! k) in
       Some (if is_income t
             then {| income := add (income entry) (amount t); expense := expense entry |}
             else {| income := income entry; expense := add (expense entry) (amount t) |})
  else m !! k.
Proof.
  unfold monthly_step. case_decide as Hk.
  - subst k. destruct (m !! month_key t) eqn:Hm; simpl;
      destruct (is_income t); rewrite ?Hm, ?lookup_insert_eq; simpl; done.
  - destruct (m !! month_key t) eqn:Hm; simpl;
      destruct (is_income t); rewrite !lookup_insert_ne by done; done.
Qed.

(** The dictionary after the second loop. *)
Lemma monthly_data_lookup l k :
  monthly_data l !! k =
  if existsb (in_month k) l
  then Some {| income := py_sum (amounts_where (income_in_month k) l);
               expense := py_sum (amounts_where (other_in_month k) l) |}
  else None.
Proof.
  induction l as [|t l IH] using rev_ind; [done|].
  rewrite monthly_data_snoc, existsb_snoc, !amounts_where_snoc, monthly_step_lookup.
  unfold income_in_month at 1, other_in_month at 1.
  destruct (in_month k t) eqn:Hin.
  - rewrite orb_true_r, !andb_true_r.
    apply String.eqb_eq in Hin. rewrite decide_True by done. rewrite IH.
    destruct (existsb (in_month k) l) eqn:Hex; simpl.
    + destruct (is_income t); simpl; by rewrite py_sum_snoc.
    + assert (existsb (income_in_month k) l = false) as Hi.
      { apply not_true_is_false. intros (x & Hx & Hp)%existsb_exists.
        apply andb_true_iff in Hp as [_ Hp].
        assert (existsb (in_month k) l = true); [|congruence].
        apply existsb_exists; eauto. }
      assert (existsb (other_in_month k) l = false) as Ho.
      { apply not_true_is_false. intros (x & Hx & Hp)%existsb_exists.
        apply andb_true_iff in Hp as [_ Hp].
        assert (existsb (in_month k) l = true); [|congruence].
        apply existsb_exists; eauto. }
      rewrite (amounts_where_none _ _ Hi), (amounts_where_none _ _ Ho).
      destruct (is_income t); done.
  - rewrite orb_false_r, !andb_false_r.
    apply String.eqb_neq in Hin. rewrite decide_False by done. apply IH.
Qed.

Lemma existsb_in_month (l : list (transaction A)) k :
  existsb (in_month k) l = true ↔ k ∈ map month_key l.
Proof.
  rewrite existsb_exists, list_elem_of_In, in_map_iff. unfold in_month.
  split; intros (t & H1 & H2).
  - apply String.eqb_eq in H2. eauto.
  - exists t. split; [done|]. by apply String.eqb_eq.
Qed.

Lemma monthly_data_keys (l : list (transaction A)) :
  map fst (map_to_list (monthly_data l)) ≡ₚ distinct_months l.
Proof.
  apply NoDup_Permutation.
  - apply NoDup_fst_map_to_list.
  - apply NoDup_remove_dups.
  - intros k. unfold distinct_months. rewrite elem_of_remove_dups, <- existsb_in_month.
    split.
    + intros ([k' v] & -> & Hkv%elem_of_map_to_list)%list_elem_of_fmap. simpl in *.
      rewrite monthly_data_lookup in Hkv. by destruct (existsb _ l).
    + intros Hex. apply list_elem_of_fmap.
      eexists (k, _). split; [done|]. apply elem_of_map_to_list.
      rewrite monthly_data_lookup, Hex. done.
Qed.

End Loops.

(** ** Sorting and the slice of the last twelve *)

Section Sorting.

Lemma String_le_lt s1 s2 : String.le s1 s2 → s1 ≠ s2 → String_lt s1 s2.
Proof.
  unfold String.le, String.leb, String_lt. intros Hle Hne.
  destruct (s1 ?= s2)%string eqn:Hc; [|done|done].
  by apply String.compare_eq_iff in Hc.
Qed.

Lemma String_lt_le s1 s2 : String_lt s1 s2 → String.le s1 s2 ∧ s1 ≠ s2.
Proof.
  unfold String.le, String.leb, String_lt. intros Hc. rewrite Hc. split; [done|].
  intros ->. assert (String.le s2 s2) as Hr by done.
  unfold String.le, String.leb in Hr.
  pose proof (String.compare_antisym s2 s2) as Ha. rewrite Hc in Ha. done.
Qed.

Lemma sorted_perm ks : sorted ks ≡ₚ ks.
Proof. apply merge_sort_Permutation. Qed.

Lemma sorted_ascending ks : StronglySorted String.le (sorted ks).
Proof. apply StronglySorted_merge_sort; apply _. Qed.

(** The result of [sorted] depends on the elements only, not on the order
    in which they are handed in. *)
Lemma sorted_ext ks1 ks2 : ks1 ≡ₚ ks2 → sorted ks1 = sorted ks2.
Proof.
  intros Hp. apply (Sorted_unique String.le).
  - apply Sorted_merge_sort; apply _.
  - apply Sorted_merge_sort; apply _.
  - by rewrite !sorted_perm.
Qed.

Lemma strictly_ascending ks :
  NoDup ks → StronglySorted String.le ks → StronglySorted String_lt ks.
Proof.
  induction 2 as [|k ks Hs IH Hk]; [constructor|].
  apply NoDup_cons in H as [Hnk Hnd].
  constructor; [auto|].
  rewrite Forall_forall in *. intros k' Hin.
  apply String_le_lt; [by apply Hk|]. intros ->. by apply Hnk, list_elem_of_In.
Qed.

Lemma sorted_strictly_ascending ks : NoDup ks → StronglySorted String_lt (sorted ks).
Proof.
  intros Hnd. apply strictly_ascending; [|apply sorted_ascending].
  by rewrite sorted_perm.
Qed.

Lemma last12_length {B : Type} (l : list B) : length (last12 l) ≤ 12.
Proof. unfold last12. rewrite length_drop. lia. Qed.

Lemma last12_short {B : Type} (l : list B) : length l ≤ 12 → last12 l = l.
Proof. unfold last12. intros Hl. by replace (length l - 12) with 0 by lia. Qed.

Lemma last12_suffix {B : Type} (l : list B) :
  l = take (length l - 12) l ++ last12 l.
Proof. unfold last12. by rewrite take_drop. Qed.

Lemma last12_sorted {B : Type} (R : relation B) (l : list B) :
  StronglySorted R l → StronglySorted R (last12 l).
Proof.
  intros Hs. rewrite (last12_suffix l) in Hs. by apply StronglySorted_app_1_r in Hs.
Qed.

Lemma last12_elem_of {B : Type} (l : list B) x : x ∈ last12 l → x ∈ l.
Proof. intros Hx. rewrite (last12_suffix l). apply elem_of_app. by right. Qed.

End Sorting.
(** ** The text of a month *)

Section MonthText.

Lemma digit_compare (a b : nat) :
  Ascii.compare (digit a) (digit b) = Nat.compare (a mod 10) (b mod 10).
Proof.
  unfold digit.
  pose proof (Nat.mod_upper_bound a 10 ltac:(lia)) as Ha.
  pose proof (Nat.mod_upper_bound b 10 ltac:(lia)) as Hb.
  set (x := a mod 10) in *. set (y := b mod 10) in *. clearbody x y.
  do 10 (destruct x as [|x];
         [do 10 (destruct y as [|y]; [reflexivity|]); lia|]).
  lia.
Qed.

(** The four digits of a number below ten thousand. *)
Lemma four_digits (y : nat) :
  y / 1000 ≤ 9 →
  (y / 1000) mod 10 = y / 1000
  ∧ y = 1000 * (y / 1000) + 100 * ((y / 100) mod 10) + 10 * ((y / 10) mod 10) + y mod 10.
Proof.
  intros Hy.
  pose proof (Nat.div_mod_eq y 10) as H0.
  pose proof (Nat.div_mod_eq (y / 10) 10) as H1.
  pose proof (Nat.div_mod_eq (y / 100) 10) as H2.
  rewrite (Nat.Div0.div_div y 10 10) in H1.
  rewrite (Nat.Div0.div_div y 100 10) in H2.
  change (10 * 10) with 100 in H1. change (100 * 10) with 1000 in H2.
  split; [apply Nat.mod_small; lia|]. lia.
Qed.

Lemma two_digits (m : nat) :
  m / 10 ≤ 9 → (m / 10) mod 10 = m / 10 ∧ m = 10 * (m / 10) + m mod 10.
Proof.
  intros Hm. pose proof (Nat.div_mod_eq m 10) as H0.
  split; [apply Nat.mod_small; lia|]. lia.
Qed.

(** The decimal of a year from 1000 to 9999 is its four digits. *)
Lemma year_text (y : nat) :
  1000 ≤ y → y / 1000 ≤ 9 →
  pretty y = String (digit (y / 1000)) (String (digit (y / 100))
               (String (digit (y / 10)) (String (digit y) EmptyString))).
Proof.
  intros Hlo Hhi.
  assert (forallb (λ y, String.eqb (pretty y)
            (String (digit (y / 1000)) (String (digit (y / 100))
               (String (digit (y / 10)) (String (digit y) EmptyString)))))
            (seq 1000 (9 * 1000)) = true) as Hall by (vm_compute; reflexivity).
  rewrite forallb_forall in Hall. apply String.eqb_eq, Hall, in_seq.
  destruct (four_digits y Hhi) as [_ Hy]. 
  pose proof (Nat.mod_upper_bound (y / 100) 10 ltac:(lia)).
  pose proof (Nat.mod_upper_bound (y / 10) 10 ltac:(lia)).
  pose proof (Nat.mod_upper_bound y 10 ltac:(lia)).
  lia.
Qed.

(** From the year 1000 on, the key of a date is the text [YYYY-MM] of its
    year and month. *)
Lemma strftime_Ym_four_digits (d : datetime) :
  four_digit_year d → strftime_Ym d = yyyy_mm (year d, month d).
Proof.
  intros (Hlo & Hhi & _). unfold strftime_Ym, strftime_Y, yyyy_mm.
  by rewrite (year_text (year d) Hlo Hhi).
Qed.

(** The texts [YYYY-MM] compare as their months do in the calendar. *)
Lemma yyyy_mm_compare (a b : nat * nat) :
  a.1 / 1000 ≤ 9 → b.1 / 1000 ≤ 9 → a.2 / 10 ≤ 9 → b.2 / 10 ≤ 9 →
  (yyyy_mm a ?= yyyy_mm b)%string
  = match Nat.compare a.1 b.1 with
    | Eq => Nat.compare a.2 b.2
    | c => c
    end.
Proof.
  destruct a as [y1 m1], b as [y2 m2]. cbn [fst snd]. intros Hy1 Hy2 Hm1 Hm2.
  unfold yyyy_mm. cbn [fst snd String.compare]. rewrite !digit_compare.
  destruct (four_digits y1 Hy1) as [-> Hd1], (four_digits y2 Hy2) as [-> Hd2].
  destruct (two_digits m1 Hm1) as [-> He1], (two_digits m2 Hm2) as [-> He2].
  change (Ascii.compare "-" "-") with Eq. cbv iota.
  pose proof (Nat.mod_upper_bound (y1 / 100) 10 ltac:(lia)).
  pose proof (Nat.mod_upper_bound (y1 / 10) 10 ltac:(lia)).
  pose proof (Nat.mod_upper_bound y1 10 ltac:(lia)).
  pose proof (Nat.mod_upper_bound (y2 / 100) 10 ltac:(lia)).
  pose proof (Nat.mod_upper_bound (y2 / 10) 10 ltac:(lia)).
  pose proof (Nat.mod_upper_bound y2 10 ltac:(lia)).
  pose proof (Nat.mod_upper_bound m1 10 ltac:(lia)).
  pose proof (Nat.mod_upper_bound m2 10 ltac:(lia)).
  set (a3 := y1 / 1000) in *. set (a2 := (y1 / 100) mod 10) in *.
  set (a1 := (y1 / 10) mod 10) in *. set (a0 := y1 mod 10) in *.
  set (b3 := y2 / 1000) in *. set (b2 := (y2 / 100) mod 10) in *.
  set (b1 := (y2 / 10) mod 10) in *. set (b0 := y2 mod 10) in *.
  set (c1 := m1 / 10) in *. set (c0 := m1 mod 10) in *.
  set (e1 := m2 / 10) in *. set (e0 := m2 mod 10) in *.
  clearbody a3 a2 a1 a0 b3 b2 b1 b0 c1 c0 e1 e0. subst y1 y2 m1 m2.
  repeat match goal with
    | |- context [match (?x ?= ?y) with _ => _ end] =>
        destruct (Nat.compare_spec x y); try subst
    end;
  try reflexivity; try lia;
  repeat match goal with
    | |- context [(?x ?= ?y)] => destruct (Nat.compare_spec x y)
    end; try reflexivity; lia.
Qed.

Lemma yyyy_mm_lt (a b : nat * nat) :
  a.1 / 1000 ≤ 9 → b.1 / 1000 ≤ 9 → a.2 / 10 ≤ 9 → b.2 / 10 ≤ 9 →
  String_lt (yyyy_mm a) (yyyy_mm b) ↔ earlier a b.
Proof.
  intros Ha Hb Hma Hmb. unfold String_lt, earlier.
  rewrite yyyy_mm_compare by done.
  destruct (Nat.compare_spec a.1 b.1) as [Heq|Hlt|Hgt].
  - rewrite Nat.compare_lt_iff. split; [by right|]. intros [?|[_ ?]]; [lia|done].
  - split; [by left|done].
  - split; [done|]. intros [?|[? _]]; lia.
Qed.

Lemma string_compare_refl (s : string) : (s ?= s)%string = Eq.
Proof.
  induction s as [|c s IH]; [done|]. cbn [String.compare].
  unfold Ascii.compare. by rewrite N.compare_refl.
Qed.

Lemma yyyy_mm_inj (a b : nat * nat) :
  a.1 / 1000 ≤ 9 → b.1 / 1000 ≤ 9 → a.2 / 10 ≤ 9 → b.2 / 10 ≤ 9 →
  yyyy_mm a = yyyy_mm b → a = b.
Proof.
  intros Ha Hb Hma Hmb Heq.
  pose proof (yyyy_mm_compare a b Ha Hb Hma Hmb) as Hc.
  rewrite Heq in Hc.
  rewrite string_compare_refl in Hc.
  destruct a as [y1 m1], b as [y2 m2]. cbn [fst snd] in *.
  destruct (Nat.compare_spec y1 y2); [|done..].
  symmetry in Hc. apply Nat.compare_eq in Hc. congruence.
Qed.

Lemma four_digit_year_bounds (d : datetime) :
  four_digit_year d → year d / 1000 ≤ 9 ∧ month d / 10 ≤ 9.
Proof.
  intros (_ & Hy & _ & Hm). split; [done|].
  pose proof (Nat.div_mod_eq (month d) 10). lia.
Qed.

End MonthText.

(** ** The monthly series *)

Section Series.
Context {A : Type} `{Amount A}.

Lemma sorted_months_spec (l : list (transaction A)) :
  sorted_months (monthly_data l) = last12 (sorted (distinct_months l)).
Proof. unfold sorted_months. f_equal. apply sorted_ext, monthly_data_keys. Qed.

Lemma monthly_summary_months (l : list (transaction A)) :
  map row_month (monthly_summary l) = last12 (sorted (distinct_months l)).
Proof.
  unfold monthly_summary. rewrite map_map. simpl. rewrite map_id.
  apply sorted_months_spec.
Qed.

Lemma distinct_months_elem_of (l : list (transaction A)) k :
  k ∈ sorted (distinct_months l) ↔ ∃ t, t ∈ l ∧ month_key t = k.
Proof.
  rewrite sorted_perm. unfold distinct_months.
  rewrite elem_of_remove_dups, list_elem_of_In, in_map_iff.
  split; intros (t & H1 & H2).
  - exists t. by rewrite list_elem_of_In.
  - exists t. by rewrite <- list_elem_of_In.
Qed.

(** Every row of the series carries the accumulations of its month. *)
Lemma monthly_summary_rows (l : list (transaction A)) r :
  r ∈ monthly_summary l →
  row_income r = py_sum (amounts_where (income_in_month (row_month r)) l)
  ∧ row_expense r = py_sum (amounts_where (other_in_month (row_month r)) l).
Proof.
  unfold monthly_summary.
  intros (k & -> & Hk)%list_elem_of_fmap. simpl.
  rewrite sorted_months_spec in Hk.
  apply last12_elem_of, distinct_months_elem_of in Hk as (t & Ht & Hk).
  rewrite monthly_data_lookup.
  assert (existsb (in_month k) l = true) as ->; [|done].
  apply existsb_exists. exists t. split; [by apply list_elem_of_In|].
  by apply String.eqb_eq.
Qed.

(** With the kinds of the data model, the rows that are not incomes are
    the expenses. *)
Lemma other_is_expense (l : list (transaction A)) k :
  kinds_valid l →
  amounts_where (other_in_month k) l = amounts_where (expense_in_month k) l.
Proof.
  unfold amounts_where. intros Hv. f_equal.
  induction l as [|t l IH]; [done|]. simpl.
  assert (other_in_month k t = expense_in_month k t) as ->.
  { unfold other_in_month, expense_in_month, is_income, is_expense.
    destruct (Hv t) as [-> | ->]; [left|done..]. }
  rewrite IH; [done|]. intros t' Ht'. apply Hv. by right.
Qed.
(** The key of a row is a function of its year and month, so there are no
    more keys than months. *)
Lemma month_key_year_month (t : transaction A) :
  month_key t = (λ ym : nat * nat, pretty ym.1 +:+ "-" +:+ pad2 ym.2) (year_month t).
Proof. reflexivity. Qed.

Lemma remove_dups_fmap_length {B C : Type} `{EqDecision B} `{EqDecision C}
    (f : B → C) (l : list B) :
  length (remove_dups (f <$> l)) ≤ length (remove_dups l).
Proof.
  rewrite <- (length_fmap f (remove_dups l)).
  apply submseteq_length, NoDup_submseteq; [apply NoDup_remove_dups|].
  intros y. rewrite elem_of_remove_dups.
  intros (x & -> & Hx)%list_elem_of_fmap.
  apply list_elem_of_fmap. exists x. by rewrite elem_of_remove_dups.
Qed.

Lemma distinct_months_length (l : list (transaction A)) :
  length (distinct_months l) ≤ length (distinct_year_months l).
Proof.
  unfold distinct_months, distinct_year_months.
  assert (map month_key l
          = (λ ym : nat * nat, pretty ym.1 +:+ "-" +:+ pad2 ym.2) <$> map year_month l)
    as -> by (by rewrite <- list_fmap_compose).
  apply remove_dups_fmap_length.
Qed.

(** When every year has four digits, the keys are the texts [YYYY-MM] of
    the months present, one key per month. *)
Lemma distinct_months_four_digits (l : list (transaction A)) :
  (∀ t, t ∈ l → four_digit_year (date t)) →
  distinct_months l ≡ₚ yyyy_mm <$> distinct_year_months l.
Proof.
  intros Hl. unfold distinct_months, distinct_year_months.
  apply NoDup_Permutation.
  - apply NoDup_remove_dups.
  - apply NoDup_fmap_2_strong; [|apply NoDup_remove_dups].
    intros a b (ta & -> & Hta)%elem_of_remove_dups%list_elem_of_fmap
               (tb & -> & Htb)%elem_of_remove_dups%list_elem_of_fmap.
    destruct (four_digit_year_bounds _ (Hl ta Hta)), (four_digit_year_bounds _ (Hl tb Htb)).
    by apply yyyy_mm_inj.
  - intros k. rewrite elem_of_remove_dups, !list_elem_of_fmap. split.
    + intros (t & -> & Ht). exists (year_month t). split.
      * apply strftime_Ym_four_digits; auto.
      * rewrite elem_of_remove_dups. by apply (list_elem_of_fmap_2 year_month).
    + intros (ym & -> & (t & -> & Ht)%elem_of_remove_dups%list_elem_of_fmap).
      exists t. split; [|done]. symmetry. apply strftime_Ym_four_digits; auto.
Qed.

End Series.

(** C2.  The months of the series are the last twelve of the distinct keys
    of the rows, sorted ascending as strings; the sorted keys are exactly
    the keys present and strictly ascending; each entry carries the income
    accumulated under its key and the accumulation of every other row of
    that key, which are the expenses when all kinds are income or expense;
    the series has at most twelve entries and its months are strictly
    ascending.  The key of a row is the text [YYYY-MM] of its date when the
    year has four digits.  It is not for an earlier year: the key of June
    999 is [999-06], it sorts after every month of 2024, and with one row
    in each month of 2024 and one in June 999 the series leaves out January
    2024 and ends with [999-06]. *)
Theorem monthly_series :
  (∀ (A : Type) (H : Amount A) (transactions : list (transaction A)),
     let series := monthly_summary_field (get_summary transactions) in
     let keys := sorted (distinct_months transactions) in
     (∀ k, k ∈ keys ↔ ∃ t, t ∈ transactions ∧ strftime_Ym (date t) = k)
     ∧ (∀ t, t ∈ transactions → four_digit_year (date t) →
          strftime_Ym (date t) = yyyy_mm (year_month t))
     ∧ StronglySorted String_lt keys
     ∧ map row_month series = drop (length keys - 12) keys
     ∧ (∀ r, r ∈ series →
          row_income r =
            py_sum (amounts_where (income_in_month (row_month r)) transactions)
          ∧ row_expense r =
            py_sum (amounts_where (other_in_month (row_month r)) transactions)
          ∧ (kinds_valid transactions →
             row_expense r =
               py_sum (amounts_where (expense_in_month (row_month r)) transactions)))
     ∧ length series ≤ 12
     ∧ StronglySorted String_lt (map row_month series))
  ∧ (yyyy_mm (2024, 1) = "2024-01" ∧ yyyy_mm (2023, 12) = "2023-12"
     ∧ yyyy_mm (999, 6) = "0999-06")
  ∧ (strftime_Ym (Examples.on_day 999 6 15) = "999-06"
     ∧ String_lt "2024-12" "999-06"
     ∧ map row_month (monthly_summary_field (get_summary FloatExamples.with_year_999))
       = [ "2024-02"; "2024-03"; "2024-04"; "2024-05"; "2024-06"; "2024-07";
           "2024-08"; "2024-09"; "2024-10"; "2024-11"; "2024-12"; "999-06" ]).
Proof.
  split; [|split].
  - intros A H transactions. cbv zeta. unfold get_summary. cbn [monthly_summary_field].
    assert (StronglySorted String_lt (sorted (distinct_months transactions))) as Hs.
    { apply sorted_strictly_ascending, NoDup_remove_dups. }
    split; [apply distinct_months_elem_of|].
    split; [intros t _ Hd; by apply strftime_Ym_four_digits|].
    split; [done|].
    split; [apply monthly_summary_months|].
    split.
    { intros r Hr. destruct (monthly_summary_rows _ _ Hr) as [Hi He].
      repeat split; [done..|]. intros Hv. by rewrite <- other_is_expense. }
    split.
    + rewrite <- (length_map row_month), monthly_summary_months. apply last12_length.
    + rewrite monthly_summary_months. by apply last12_sorted.
  - repeat split; reflexivity.
  - split; [vm_compute; reflexivity|]. split; [reflexivity|].
    vm_compute. reflexivity.
Qed.

(** ** Regrouping sums

    With exact addition, the sums taken key by key add up to the sum over
    all the rows, and no result depends on the order of the rows. *)

Section Regrouping.
Context {A : Type} `{Amount A} `{!ExactAmount A}.

Lemma py_sum_zeros {B : Type} (ks : list B) : py_sum (map (λ _, zero) ks) = zero.
Proof.
  induction ks as [|k ks IH]; [done|]. simpl.
  by rewrite py_sum_cons, IH, add_zero_l.
Qed.

(** Adding [a] under one key of a duplicate-free list adds [a] to the sum
    over the keys. *)
Lemma py_sum_pick (f : string → A) (a : A) (k0 : string) (ks : list string) :
  NoDup ks → k0 ∈ ks →
  py_sum (map (λ k, if String.eqb k0 k then add a (f k) else f k) ks)
  = add a (py_sum (map f ks)).
Proof.
  induction 1 as [|k ks Hk Hnd IH]; intros Hin; [by apply elem_of_nil in Hin|].
  simpl. rewrite !py_sum_cons.
  destruct (String.eqb k0 k) eqn:Hkk.
  - apply String.eqb_eq in Hkk. subst k0.
    rewrite <- add_assoc. do 2 f_equal. apply (f_equal py_sum).
    apply map_ext_in. intros k' Hk'.
    destruct (String.eqb k k') eqn:E; [|done].
    apply String.eqb_eq in E. subst k'. by apply list_elem_of_In in Hk'.
  - apply elem_of_cons in Hin as [->|Hin]; [by rewrite String.eqb_refl in Hkk|].
    rewrite IH by done.
    rewrite !add_assoc. f_equal. apply add_comm.
Qed.

Lemma grouped_sum (key : transaction A → string) (p : transaction A → bool)
    (l : list (transaction A)) (ks : list string) :
  NoDup ks →
  (∀ t, t ∈ l → p t = true → key t ∈ ks) →
  py_sum (map (λ k, sum_where (λ t, p t && String.eqb (key t) k) l) ks)
  = sum_where p l.
Proof.
  intros Hnd. induction l as [|t l IH]; intros Hks; simpl.
  - apply py_sum_zeros.
  - assert (∀ t', t' ∈ l → p t' = true → key t' ∈ ks) as Hks'.
    { intros t' Ht'. apply Hks. by right. }
    destruct (p t) eqn:Hp; simpl.
    + rewrite <- (IH Hks').
      apply (py_sum_pick (λ k, sum_where (λ t0, p t0 && String.eqb (key t0) k) l));
        [done|]. apply Hks; [left|done].
    + auto.
Qed.

Lemma amounts_where_perm (p : transaction A → bool) l l' :
  l ≡ₚ l' → amounts_where p l ≡ₚ amounts_where p l'.
Proof.
  unfold amounts_where.
  induction 1 as [|x l l' _ IH|x y l|l1 l2 l3 _ IH1 _ IH2]; simpl.
  - done.
  - destruct (p x); simpl; by rewrite IH.
  - destruct (p x), (p y); simpl; try done. apply perm_swap.
  - by rewrite IH1.
Qed.

Lemma existsb_perm {B : Type} (p : B → bool) l l' :
  l ≡ₚ l' → existsb p l = existsb p l'.
Proof.
  induction 1 as [|x l l' _ IH|x y l|l1 l2 l3 _ IH1 _ IH2]; simpl.
  - done.
  - by rewrite IH.
  - by rewrite !orb_assoc, (orb_comm (p y)).
  - by rewrite IH1.
Qed.

Lemma category_spending_perm (l l' : list (transaction A)) :
  l ≡ₚ l' → category_spending l = category_spending l'.
Proof.
  intros Hp. apply map_eq. intros c. rewrite !category_spending_lookup.
  rewrite (existsb_perm _ _ _ Hp).
  by rewrite (py_sum_perm _ _ (amounts_where_perm (in_category c) _ _ Hp)).
Qed.

Lemma monthly_data_perm (l l' : list (transaction A)) :
  l ≡ₚ l' → monthly_data l = monthly_data l'.
Proof.
  intros Hp. apply map_eq. intros k. rewrite !monthly_data_lookup.
  rewrite (existsb_perm _ _ _ Hp).
  rewrite (py_sum_perm _ _ (amounts_where_perm (income_in_month k) _ _ Hp)).
  by rewrite (py_sum_perm _ _ (amounts_where_perm (other_in_month k) _ _ Hp)).
Qed.

(** C9.  Two lists with the same rows in a different order give the same
    response: the same three totals, the same category dictionary, the
    same monthly series and the same count. *)
Theorem get_summary_permutation (transactions transactions' : list (transaction A)) :
  transactions ≡ₚ transactions' →
  get_summary transactions = get_summary transactions'.
Proof.
  intros Hp. unfold get_summary, balance, total_income, total_expense, monthly_summary.
  fold (amounts_where is_income transactions) (amounts_where is_income transactions').
  fold (amounts_where is_expense transactions) (amounts_where is_expense transactions').
  rewrite (py_sum_perm _ _ (amounts_where_perm is_income _ _ Hp)).
  rewrite (py_sum_perm _ _ (amounts_where_perm is_expense _ _ Hp)).
  rewrite (category_spending_perm _ _ Hp), (monthly_data_perm _ _ Hp).
  by rewrite (Permutation_length Hp).
Qed.

End Regrouping.
(** ** The category breakdown and the sums of the series *)

Section Breakdown.
Context {A : Type} `{Amount A} `{!ExactAmount A}.

Lemma sum_where_ext_in (p q : transaction A → bool) l :
  (∀ t, t ∈ l → p t = q t) → sum_where p l = sum_where q l.
Proof.
  induction l as [|t l IH]; intros Hpq; [done|]. simpl.
  rewrite (Hpq t) by left. rewrite IH; [done|].
  intros t' Ht'. apply Hpq. by right.
Qed.

Lemma filter_filter_sub {B : Type} (p q : B → bool) l :
  (∀ x, p x = true → q x = true) →
  List.filter p (List.filter q l) = List.filter p l.
Proof.
  intros Hpq. induction l as [|x l IH]; [done|]. simpl.
  destruct (q x) eqn:Hq; simpl.
  - by rewrite IH.
  - rewrite IH. destruct (p x) eqn:Hp; [|done].
    apply Hpq in Hp. congruence.
Qed.

Lemma existsb_filter_sub {B : Type} (p q : B → bool) l :
  (∀ x, p x = true → q x = true) →
  existsb p (List.filter q l) = existsb p l.
Proof.
  intros Hpq. induction l as [|x l IH]; [done|]. simpl.
  destruct (q x) eqn:Hq; simpl.
  - by rewrite IH.
  - rewrite IH. destruct (p x) eqn:Hp; [|done].
    apply Hpq in Hp. congruence.
Qed.

Lemma in_category_not_income c (t : transaction A) :
  in_category c t = true → negb (kind_is "income" t) = true.
Proof.
  unfold in_category, is_expense, kind_is.
  intros [Ht _]%andb_true_iff. apply String.eqb_eq in Ht. by rewrite Ht.
Qed.

Lemma category_spending_is_Some (l : list (transaction A)) c :
  is_Some (category_spending l !! c) ↔
  ∃ t, t ∈ l ∧ type t = "expense" ∧ category t = c.
Proof.
  rewrite category_spending_lookup.
  destruct (existsb (in_category c) l) eqn:Hex.
  - split; [intros _|by eauto].
    apply existsb_exists in Hex as (t & Ht & Hin).
    apply andb_true_iff in Hin as [H1 H2].
    exists t. rewrite list_elem_of_In.
    by apply String.eqb_eq in H1, H2.
  - split; [by intros [? ?]|]. intros (t & Ht & H1 & H2).
    assert (existsb (in_category c) l = true); [|congruence].
    apply existsb_exists. exists t. split; [by apply list_elem_of_In|].
    unfold in_category, is_expense. by rewrite H1, H2, !String.eqb_refl.
Qed.

Lemma values_sum_category_spending (l : list (transaction A)) :
  values_sum (category_spending l) = sum_where (kind_is "expense") l.
Proof.
  unfold values_sum.
  set (m := category_spending l).
  assert (map snd (map_to_list m)
          = map (λ c, sum_where (λ t, is_expense t && String.eqb (category t) c) l)
                (map fst (map_to_list m))) as ->.
  { rewrite map_map. apply map_ext_in. intros [c v] Hcv. simpl.
    apply list_elem_of_In, elem_of_map_to_list in Hcv. subst m.
    rewrite category_spending_lookup in Hcv.
    destruct (existsb _ l); [|done]. injection Hcv as <-.
    apply (py_sum_amounts_where (in_category c)). }
  apply (grouped_sum category is_expense).
  - apply NoDup_fst_map_to_list.
  - intros t Ht Hexp.
    assert (is_Some (m !! category t)) as [v Hv].
    { apply category_spending_is_Some. exists t.
      split; [done|]. split; [|done]. by apply String.eqb_eq. }
    apply list_elem_of_fmap. exists (category t, v).
    split; [done|]. by apply elem_of_map_to_list.
Qed.

(** Under exact arithmetic the accumulation under a category is the sum
    of the amounts of its expense rows in any order. *)
Lemma category_spending_sum (l : list (transaction A)) (t : transaction A) :
  t ∈ l → type t = "expense" →
  category_spending l !! category t =
  Some (sum_where (λ t', kind_is "expense" t' && String.eqb (category t') (category t)) l).
Proof.
  intros Ht Hexp.
  assert (is_Some (category_spending l !! category t)) as [v Hv].
  { apply category_spending_is_Some. eauto. }
  rewrite Hv. rewrite category_spending_lookup in Hv.
  destruct (existsb _ l); [|done]. injection Hv as <-.
  f_equal. apply (py_sum_amounts_where (in_category (category t))).
Qed.

Lemma monthly_data_sums (l : list (transaction A)) k :
  k ∈ sorted (distinct_months l) →
  monthly_data l !! k =
  Some {| income := sum_where (λ t, is_income t && String.eqb (month_key t) k) l;
          expense := sum_where (λ t, negb (is_income t) && String.eqb (month_key t) k) l |}.
Proof.
  intros (t & Ht & Hk)%distinct_months_elem_of.
  rewrite monthly_data_lookup.
  assert (existsb (in_month k) l = true) as ->.
  { apply existsb_exists. exists t. split; [by apply list_elem_of_In|].
    by apply String.eqb_eq. }
  by rewrite (py_sum_amounts_where (income_in_month k)),
             (py_sum_amounts_where (other_in_month k)).
Qed.

(** When the data has at most twelve months the series keeps them all, and
    its columns add up to the totals. *)
Lemma monthly_sums_total (l : list (transaction A)) :
  kinds_valid l →
  length (distinct_year_months l) ≤ 12 →
  py_sum (map row_income (monthly_summary l)) = total_income l
  ∧ py_sum (map row_expense (monthly_summary l)) = total_expense l.
Proof.
  intros Hv Hlen.
  assert (sorted_months (monthly_data l) = sorted (distinct_months l)) as Hks.
  { rewrite sorted_months_spec. apply last12_short.
    rewrite (Permutation_length (sorted_perm _)).
    pose proof (distinct_months_length l). lia. }
  assert (NoDup (sorted (distinct_months l))) as Hnd.
  { rewrite sorted_perm. apply NoDup_remove_dups. }
  assert (∀ t, t ∈ l → month_key t ∈ sorted (distinct_months l)) as Hin.
  { intros t Ht. apply distinct_months_elem_of. eauto. }
  unfold monthly_summary. rewrite Hks, !map_map. simpl.
  rewrite total_income_spec, total_expense_spec. split.
  - rewrite <- (grouped_sum month_key is_income l _ Hnd) by auto.
    apply (f_equal py_sum), map_ext_in. intros k Hk%list_elem_of_In.
    by rewrite (monthly_data_sums _ _ Hk).
  - rewrite (sum_where_ext_in (kind_is "expense") (λ t, negb (is_income t))).
    + rewrite <- (grouped_sum month_key (λ t, negb (is_income t)) l _ Hnd) by auto.
      apply (f_equal py_sum), map_ext_in. intros k Hk%list_elem_of_In.
      by rewrite (monthly_data_sums _ _ Hk).
    + intros t Ht. unfold kind_is, is_income.
      by destruct (Hv t Ht) as [-> | ->].
Qed.

End Breakdown.

(** C3.  On every carrier, binary64 included, the breakdown maps the
    category of every expense row to the sum, in the order of the rows, of
    the amounts of the expense rows of that category, and has no other key;
    leaving out the income rows does not change it: three expenses of 0.1,
    0.2 and 0.4 under Food, Rent and Food give Food 0.5 and Rent 0.2.
    Under exact arithmetic the order of the rows does not matter to these
    sums, and the values of the breakdown add up to the unrounded total
    expense. *)
Theorem category_breakdown :
  (∀ (A : Type) (H : Amount A) (transactions : list (transaction A)),
     let breakdown := category_spending_field (get_summary transactions) in
     (∀ t, t ∈ transactions → type t = "expense" →
        breakdown !! category t =
        Some (py_sum (amounts_where
                        (λ t', kind_is "expense" t' && String.eqb (category t') (category t))
                        transactions)))
     ∧ (∀ c, is_Some (breakdown !! c) ↔
             ∃ t, t ∈ transactions ∧ type t = "expense" ∧ category t = c)
     ∧ breakdown =
         category_spending (List.filter (λ t, negb (kind_is "income" t)) transactions))
  ∧ category_spending_field (get_summary FloatExamples.tenths)
    = {[ "Food" := 0.5%float; "Rent" := 0.2%float ]}
  ∧ (∀ (A : Type) (H : Amount A), ExactAmount A →
     ∀ transactions : list (transaction A),
       let breakdown := category_spending_field (get_summary transactions) in
       (∀ t, t ∈ transactions → type t = "expense" →
          breakdown !! category t =
          Some (sum_where
                  (λ t', kind_is "expense" t' && String.eqb (category t') (category t))
                  transactions))
       ∧ values_sum breakdown = sum_where (kind_is "expense") transactions
       ∧ values_sum breakdown = total_expense transactions).
Proof.
  split; [|split].
  - intros A H transactions. cbv zeta. unfold get_summary. cbn [category_spending_field].
    split; [|split].
    + intros t Ht Hexp.
      assert (is_Some (category_spending transactions !! category t)) as [v Hv].
      { apply category_spending_is_Some. eauto. }
      rewrite Hv. rewrite category_spending_lookup in Hv.
      destruct (existsb _ transactions); [|done]. by injection Hv as <-.
    + apply category_spending_is_Some.
    + apply map_eq. intros c. rewrite !category_spending_lookup. unfold amounts_where.
      rewrite (existsb_filter_sub _ _ _ (in_category_not_income c)).
      by rewrite (filter_filter_sub _ _ _ (in_category_not_income c)).
  - vm_compute. reflexivity.
  - intros A H HE transactions. cbv zeta. unfold get_summary.
    cbn [category_spending_field]. split; [|split].
    + intros t Ht Hexp. by apply category_spending_sum.
    + apply values_sum_category_spending.
    + rewrite total_expense_spec. apply values_sum_category_spending.
Qed.
(** ** The exports *)

Section Exports.
Context {A : Type} `{Amount A}.

Lemma excel_data_map (l : list (transaction A)) : excel_data l = map excel_row_of l.
Proof.
  induction l as [|t l IH] using rev_ind; [done|].
  unfold excel_data in *. by rewrite fold_left_app, map_app, IH.
Qed.

Lemma pdf_description_short d :
  str_len d ≤ 30 → pdf_description (Some d) = Ok d.
Proof.
  intros Hd. unfold pdf_description. simpl.
  by rewrite (proj2 (Nat.ltb_ge 30 (str_len d)) Hd).
Qed.

Lemma pdf_description_long d :
  30 < str_len d →
  pdf_description (Some d) = Ok (str_take 30 d +:+ "...").
Proof.
  intros Hd. unfold pdf_description. simpl.
  by rewrite (proj2 (Nat.ltb_lt 30 (str_len d)) Hd).
Qed.

Lemma pdf_description_None : pdf_description None = Raise TypeError.
Proof. reflexivity. Qed.

Lemma pdf_row_Some (t : transaction A) :
  description t ≠ None → ∃ row, pdf_row t = Ok row.
Proof.
  unfold pdf_row, pdf_description. destruct (description t) as [d|]; [|done].
  intros _. simpl. destruct (30 <? str_len d); simpl; eauto.
Qed.

Lemma pdf_row_None (t : transaction A) :
  description t = None → pdf_row t = Raise TypeError.
Proof. unfold pdf_row. by intros ->. Qed.

Lemma pdf_data_snoc (l : list (transaction A)) t :
  pdf_data (l ++ [t]) = pdf_data_step (pdf_data l) t.
Proof. unfold pdf_data. by rewrite fold_left_app. Qed.

(** Without a null description the loop appends one row per transaction,
    in order, below the header. *)
Lemma pdf_data_ok (l : list (transaction A)) :
  (∀ t, t ∈ l → description t ≠ None) →
  ∃ body, pdf_data l = Ok (pdf_header :: body)
          ∧ Forall2 (λ t row, pdf_row t = Ok row) l body.
Proof.
  induction l as [|t l IH] using rev_ind; intros Hd.
  - exists []. split; [done|constructor].
  - destruct IH as (body & Hbody & Hrows).
    { intros t' Ht'. apply Hd, elem_of_app. by left. }
    destruct (pdf_row_Some t) as [row Hrow].
    { apply Hd, elem_of_app. right. by left. }
    exists (body ++ [row]). split.
    + rewrite pdf_data_snoc, Hbody. unfold pdf_data_step. simpl. by rewrite Hrow.
    + apply Forall2_app; [done|]. by repeat constructor.
Qed.

(** One null description makes the loop raise. *)
Lemma pdf_data_raise (l : list (transaction A)) :
  (∃ t, t ∈ l ∧ description t = None) → pdf_data l = Raise TypeError.
Proof.
  induction l as [|t l IH] using rev_ind; intros (t0 & Hin & Hnone).
  - by apply elem_of_nil in Hin.
  - rewrite pdf_data_snoc.
    apply elem_of_app in Hin as [Hin|Hin].
    + rewrite IH by eauto. done.
    + apply list_elem_of_singleton in Hin. subst t0.
      unfold pdf_data_step. destruct (pdf_data l) as [data|[]]; simpl; [|done].
      by rewrite (pdf_row_None _ Hnone).
Qed.

(** C4.  The Description cell of the row of a transaction is the
    description itself when it has at most 30 characters, and its first 30
    characters followed by three dots when it is longer, a character being
    a code point; for a null description the code builds no cell: it raises
    [TypeError], and so does the export of any list that holds such a
    row. *)
Theorem pdf_description_cell (t : transaction A) :
  (∀ d, description t = Some d → str_len d ≤ 30 →
     pdf_row t = Ok [ strftime_Ymd (date t); capitalize (type t); category t;
                      "$" +:+ money (amount t); d ])
  ∧ (∀ d, description t = Some d → 30 < str_len d →
     pdf_row t = Ok [ strftime_Ymd (date t); capitalize (type t); category t;
                      "$" +:+ money (amount t); str_take 30 d +:+ "..." ])
  ∧ (description t = None →
     pdf_description (description t) = Raise TypeError
     ∧ pdf_row t = Raise TypeError
     ∧ ∀ user_name now l, t ∈ l → export_pdf user_name now l = Raise TypeError).
Proof.
  split; [|split].
  - intros d Hd Hlen. unfold pdf_row. by rewrite Hd, pdf_description_short.
  - intros d Hd Hlen. unfold pdf_row. by rewrite Hd, pdf_description_long.
  - intros Hnone. split; [by rewrite Hnone|]. split; [by apply pdf_row_None|].
    intros user_name now l Hin. unfold export_pdf.
    rewrite pdf_data_raise; [done|]. eauto.
Qed.

Context `{!ExactAmount A}.

(** C7.  The Transactions sheet holds the rows of the transactions, one
    each and in input order, whatever the list; the table of the PDF does
    so when no description is null, and for a list with a null description
    the PDF export raises [TypeError] and produces no document; for the
    empty list both exports succeed with no body row and zero totals. *)
Theorem export_row_counts (user_name : string) (now : datetime)
    (transactions : list (transaction A)) :
  let sheet := sheet_Transactions (export_excel now transactions) in
  rows sheet = map excel_row_of transactions
  ∧ length (rows sheet) = length transactions
  ∧ ((∀ t, t ∈ transactions → description t ≠ None) →
     ∃ f, export_pdf user_name now transactions = Ok f
          ∧ pdf_table_data f = pdf_header :: pdf_body f
          ∧ Forall2 (λ t row, pdf_row t = Ok row) transactions (pdf_body f)
          ∧ length (pdf_body f) = length transactions)
  ∧ ((∃ t, t ∈ transactions ∧ description t = None) →
     export_pdf user_name now transactions = Raise TypeError)
  ∧ (transactions = [] →
     rows sheet = []
     ∧ rows (sheet_Summary (export_excel now transactions))
       = [("Total Income", zero); ("Total Expense", zero); ("Balance", zero)]
     ∧ ∃ f, export_pdf user_name now transactions = Ok f
            ∧ pdf_body f = []
            ∧ pdf_summary_text f
              = [ "<b>Summary:</b><br/>";
                  "Total Income: $" +:+ money zero +:+ "<br/>";
                  "Total Expense: $" +:+ money zero +:+ "<br/>";
                  "Balance: $" +:+ money zero +:+ "<br/>";
                  "Report Date: " +:+ strftime_Ymd now ]).
Proof.
  simpl. split; [apply excel_data_map|].
  split; [by rewrite excel_data_map, length_map|].
  split; [|split].
  - intros Hd. destruct (pdf_data_ok _ Hd) as (body & Hbody & Hrows).
    unfold export_pdf. rewrite Hbody. simpl. eexists. split; [done|].
    unfold pdf_body. simpl. split; [done|]. split; [done|].
    symmetry. by eapply Forall2_length.
  - intros Hnone. unfold export_pdf. by rewrite pdf_data_raise.
  - intros ->. split; [done|]. simpl. rewrite py_sum_nil, sub_zero_zero.
    split; [done|]. unfold export_pdf, pdf_summary. simpl.
    rewrite py_sum_nil, sub_zero_zero. eexists. split; [done|]. done.
Qed.

(** The values of the Summary sheet are the unrounded totals of the
    aggregator, recomputed. *)
Lemma summary_sheet (now : datetime) (l : list (transaction A)) :
  sheet_Summary (export_excel now l) =
  {| columns := ["Metric"; "Value"];
     rows := [ ("Total Income", sum_where (kind_is "income") l);
               ("Total Expense", sum_where (kind_is "expense") l);
               ("Balance", sub (sum_where (kind_is "income") l)
                               (sum_where (kind_is "expense") l)) ] |}.
Proof.
  unfold export_excel, summary_df. simpl.
  fold (amounts_where is_income l) (amounts_where is_expense l).
  by rewrite (py_sum_amounts_where is_income), (py_sum_amounts_where is_expense).
Qed.

End Exports.

Lemma kinds_valid_check {A : Type} (l : list (transaction A)) :
  forallb (λ t, is_income t || is_expense t) l = true → kinds_valid l.
Proof.
  intros Hall t Ht. rewrite forallb_forall in Hall.
  apply list_elem_of_In, Hall, orb_true_iff in Ht as [Ht|Ht];
    apply String.eqb_eq in Ht; auto.
Qed.
(** ** The response on concrete inputs *)

Section Responses.
Import Exact Examples.

(** C8.  An income of 1000 on 2024-01-15 and two expenses of category
    Food, 50 on 2024-01-20 and 30 on 2024-02-01, whatever their other
    columns hold: the totals are 1000, 80 and 920, the breakdown maps Food
    to 80, and the series is 2024-01 with income 1000 and expense 50, then
    2024-02 with income 0 and expense 30; so it is over exact amounts and
    over the binary64 amounts of the code. *)
Theorem summary_example
    (i1 i2 i3 u1 u2 u3 : nat) (c1 : string) (d1 d2 d3 : option string)
    (h1 m1 s1 h2 m2 s2 h3 m3 s3 : nat) (cr1 cr2 cr3 : datetime) :
  let input (A : Type) (a1 a2 a3 : A) : list (transaction A) :=
    [ {| tx_id := i1; user_id := u1; type := "income"; category := c1;
         amount := a1; description := d1;
         date := {| year := 2024; month := 1; day := 15;
                    hour := h1; minute := m1; second := s1 |};
         created_at := cr1 |};
      {| tx_id := i2; user_id := u2; type := "expense"; category := "Food";
         amount := a2; description := d2;
         date := {| year := 2024; month := 1; day := 20;
                    hour := h2; minute := m2; second := s2 |};
         created_at := cr2 |};
      {| tx_id := i3; user_id := u3; type := "expense"; category := "Food";
         amount := a3; description := d3;
         date := {| year := 2024; month := 2; day := 1;
                    hour := h3; minute := m3; second := s3 |};
         created_at := cr3 |} ] in
  (let report := get_summary (input Qc (whole 1000) (whole 50) (whole 30)) in
   total_income_field report = whole 1000
   ∧ total_expense_field report = whole 80
   ∧ balance_field report = whole 920
   ∧ category_spending_field report = {[ "Food" := whole 80 ]}
   ∧ monthly_summary_field report =
       [ {| row_month := "2024-01"; row_income := whole 1000; row_expense := whole 50 |};
         {| row_month := "2024-02"; row_income := whole 0; row_expense := whole 30 |} ]
   ∧ transaction_count report = 3)
  ∧ (let report := get_summary (input binary64 1000%float 50%float 30%float) in
     total_income_field report = 1000%float
     ∧ total_expense_field report = 80%float
     ∧ balance_field report = 920%float
     ∧ category_spending_field report = {[ "Food" := 80%float ]}
     ∧ monthly_summary_field report =
         [ {| row_month := "2024-01"; row_income := 1000%float; row_expense := 50%float |};
           {| row_month := "2024-02"; row_income := 0%float; row_expense := 30%float |} ]
     ∧ transaction_count report = 3).
Proof.
  intros input. split.
  - intros report. split; [|split; [|split; [|split; [|split]]]].
    + apply Qc_is_canon. vm_compute. reflexivity.
    + apply Qc_is_canon. vm_compute. reflexivity.
    + apply Qc_is_canon. vm_compute. reflexivity.
    + vm_compute. reflexivity.
    + vm_compute. reflexivity.
    + reflexivity.
  - intros report. repeat split; vm_compute; reflexivity.
Qed.

End Responses.
(** ** Where the response is rounded, and where it is not *)

Section Rounding.
Import Exact Examples.

(** C5.  The response rounds its three totals to two decimals and nothing
    else: each value of the category breakdown and each income and expense
    value of the series is the plain sum, in the order of the rows, of the
    amounts that were added under its key; on binary64 amounts that sum is
    taken with the IEEE addition and the totals go through [round(x, 2)].
    An expense of 0.125 is reported as 0.125 in the breakdown and in the
    series, next to a total expense of 0.12 and a balance of -0.12. *)
Theorem rounding_boundary :
  (∀ (A : Type) (H : Amount A) (transactions : list (transaction A)),
     let report := get_summary transactions in
     total_income_field report = round2 (total_income transactions)
     ∧ total_expense_field report = round2 (total_expense transactions)
     ∧ balance_field report = round2 (balance transactions)
     ∧ (∀ c v, category_spending_field report !! c = Some v →
          v = py_sum (amounts_where (in_category c) transactions))
     ∧ (∀ r, r ∈ monthly_summary_field report →
          row_income r =
            py_sum (amounts_where (income_in_month (row_month r)) transactions)
          ∧ row_expense r =
            py_sum (amounts_where (other_in_month (row_month r)) transactions)))
  ∧ (∀ transactions : list (transaction binary64),
       let report := get_summary transactions in
       total_income_field report
       = Binary64.round2_float (float_sum (kind_is "income") transactions)
       ∧ total_expense_field report
         = Binary64.round2_float (float_sum (kind_is "expense") transactions)
       ∧ balance_field report
         = Binary64.round2_float
             (PrimFloat.sub (float_sum (kind_is "income") transactions)
                            (float_sum (kind_is "expense") transactions))
       ∧ (∀ c v, category_spending_field report !! c = Some v →
            v = float_sum (in_category c) transactions)
       ∧ (∀ r, r ∈ monthly_summary_field report →
            row_income r = float_sum (income_in_month (row_month r)) transactions
            ∧ row_expense r = float_sum (other_in_month (row_month r)) transactions))
  ∧ (let report := get_summary FloatExamples.one_eighth in
     category_spending_field report = {[ "Food" := 0.125%float ]}
     ∧ monthly_summary_field report
       = [ {| row_month := "2024-03"; row_income := 0%float;
              row_expense := 0.125%float |} ]
     ∧ total_income_field report = 0%float
     ∧ total_expense_field report = 0.12%float
     ∧ balance_field report = (-0.12)%float).
Proof.
  assert (∀ (A : Type) (H : Amount A) (transactions : list (transaction A)),
     let report := get_summary transactions in
     total_income_field report = round2 (total_income transactions)
     ∧ total_expense_field report = round2 (total_expense transactions)
     ∧ balance_field report = round2 (balance transactions)
     ∧ (∀ c v, category_spending_field report !! c = Some v →
          v = py_sum (amounts_where (in_category c) transactions))
     ∧ (∀ r, r ∈ monthly_summary_field report →
          row_income r =
            py_sum (amounts_where (income_in_month (row_month r)) transactions)
          ∧ row_expense r =
            py_sum (amounts_where (other_in_month (row_month r)) transactions)))
    as Hany.
  { intros A H transactions. simpl. do 3 (split; [done|]). split.
    + intros c v Hv. rewrite category_spending_lookup in Hv.
      destruct (existsb _ transactions); [|done]. by injection Hv as <-.
    + apply monthly_summary_rows. }
  split; [exact Hany|]. split.
  - intros transactions. specialize (Hany binary64 _ transactions). cbv zeta in *.
    destruct Hany as (Hi & He & Hb & Hc & Hm).
    unfold balance, total_income, total_expense in *.
    fold (amounts_where is_income transactions) in *.
    fold (amounts_where is_expense transactions) in *.
    rewrite !py_sum_float_sum in *.
    split; [exact Hi|]. split; [exact He|]. split; [exact Hb|]. split.
    + intros c v Hv. rewrite <- py_sum_float_sum. by apply Hc.
    + intros r Hr. rewrite <- !py_sum_float_sum. by apply Hm.
  - vm_compute. done.
Qed.

(** C6.  The Summary sheet has the columns Metric and Value and the three
    rows Total Income, Total Expense and Balance; their values are the sum
    of the income amounts, the sum of the expense amounts and the
    difference of the two, the unrounded totals of the aggregator and not
    the rounded ones of its response: an expense of 0.125 is written as
    0.125 where the response says 0.12.  On the binary64 amounts of the
    code the sums are taken in the order of the rows. *)
Theorem excel_summary_sheet :
  (∀ (A : Type) (H : Amount A), ExactAmount A →
   ∀ (now : datetime) (transactions : list (transaction A)),
     sheet_Summary (export_excel now transactions) =
     {| columns := ["Metric"; "Value"];
        rows := [ ("Total Income", sum_where (kind_is "income") transactions);
                  ("Total Expense", sum_where (kind_is "expense") transactions);
                  ("Balance", sub (sum_where (kind_is "income") transactions)
                                  (sum_where (kind_is "expense") transactions)) ] |}
     ∧ map snd (rows (sheet_Summary (export_excel now transactions)))
       = [ total_income transactions; total_expense transactions;
           balance transactions ])
  ∧ (∃ (now : datetime) (transactions : list (transaction Qc)),
       let report := get_summary transactions in
       map snd (rows (sheet_Summary (export_excel now transactions)))
       = [ whole 0; frac 1 8; frac (-1) 8 ]
       ∧ [ total_income_field report; total_expense_field report; balance_field report ]
       = [ whole 0; frac 3 25; frac (-3) 25 ])
  ∧ (∀ (now : datetime) (transactions : list (transaction binary64)),
       sheet_Summary (export_excel now transactions) =
       {| columns := ["Metric"; "Value"];
          rows := [ ("Total Income", float_sum (kind_is "income") transactions);
                    ("Total Expense", float_sum (kind_is "expense") transactions);
                    ("Balance", PrimFloat.sub (float_sum (kind_is "income") transactions)
                                              (float_sum (kind_is "expense") transactions)) ] |})
  ∧ (let report := get_summary FloatExamples.one_eighth in
     map snd (rows (sheet_Summary (export_excel report_day FloatExamples.one_eighth)))
     = [ 0%float; 0.125%float; (-0.125)%float ]
     ∧ [ total_income_field report; total_expense_field report; balance_field report ]
     = [ 0%float; 0.12%float; (-0.12)%float ]).
Proof.
  split; [|split; [|split]].
  - intros A H HE now transactions. split; [apply summary_sheet|done].
  - exists report_day, one_eighth. cbv zeta. split.
    + vm_compute. reflexivity.
    + unfold get_summary; cbn [total_income_field total_expense_field balance_field].
      repeat f_equal; apply Qc_is_canon; vm_compute; reflexivity.
  - intros now transactions. unfold export_excel, summary_df. cbn [sheet_Summary zip zip_with].
    by rewrite <- !py_sum_float_sum.
  - vm_compute. done.
Qed.

(** C10.  Under exact arithmetic, when every kind is income or expense and
    the dates span at most twelve year-months, the income values of the
    series add up to the unrounded total income and its expense values to
    the unrounded total expense.  With thirteen months the slice drops the
    earliest one and both sums of the series are strictly below the totals,
    on binary64 amounts too: 12 against 13. *)
Theorem series_sums :
  (∀ (A : Type) (H : Amount A), ExactAmount A →
   ∀ transactions : list (transaction A),
     kinds_valid transactions →
     length (distinct_year_months transactions) ≤ 12 →
     let series := monthly_summary_field (get_summary transactions) in
     py_sum (map row_income series) = total_income transactions
     ∧ py_sum (map row_expense series) = total_expense transactions)
  ∧ (∃ transactions : list (transaction binary64),
       let series := monthly_summary_field (get_summary transactions) in
       kinds_valid transactions
       ∧ length (distinct_year_months transactions) = 13
       ∧ py_sum (map row_income series) = 12%float
       ∧ total_income transactions = 13%float
       ∧ py_sum (map row_expense series) = 12%float
       ∧ total_expense transactions = 13%float
       ∧ PrimFloat.ltb 12 13 = true).
Proof.
  split.
  - intros A H HE transactions Hv Hlen. apply monthly_sums_total; done.
  - exists FloatExamples.thirteen_months. cbv zeta. split; [|split].
    + apply kinds_valid_check. vm_compute. reflexivity.
    + vm_compute. reflexivity.
    + vm_compute. done.
Qed.

End Rounding.
(** ** The theorems at concrete rows *)

Section Instances.
Import Exact Examples.

Lemma monthly_series_witness :
  length (monthly_summary_field (get_summary thirteen_months)) ≤ 12
  ∧ StronglySorted String_lt
      (map row_month (monthly_summary_field (get_summary thirteen_months))).
Proof.
  pose proof (proj1 monthly_series Qc _ thirteen_months) as Hs. cbv zeta in Hs.
  exact (proj2 (proj2 (proj2 (proj2 (proj2 Hs))))).
Defined.

Lemma category_breakdown_witness :
  category_spending_field (get_summary three_rows) !! "Food"
  = Some (sum_where (λ t', kind_is "expense" t' && String.eqb (category t') "Food")
                    three_rows)
  ∧ values_sum (category_spending_field (get_summary three_rows))
    = total_expense three_rows.
Proof.
  pose proof (proj2 (proj2 category_breakdown) Qc _ _ three_rows) as Hc.
  cbv zeta in Hc. destruct Hc as (Hfood & _ & Hsum). split; [|exact Hsum].
  apply (Hfood (row "expense" "Food" (whole 50) (Some "Grocery shopping")
                    (on_day 2024 1 20))); [|reflexivity].
  right. left.
Defined.

(** Three expenses of 0.1, 0.2 and 0.4 in binary64: the values of the
    breakdown, 0.5 and 0.2, add up to 0.7, and the total expense is
    0.7000000000000001. *)
Lemma category_breakdown_counterexample :
  let l := FloatExamples.tenths in
  let breakdown := category_spending_field (get_summary l) in
  breakdown = {[ "Food" := 0.5%float; "Rent" := 0.2%float ]}
  ∧ values_sum breakdown = 0.7%float
  ∧ PrimFloat.add 0.5 0.2 = 0.7%float
  ∧ PrimFloat.add 0.2 0.5 = 0.7%float
  ∧ total_expense l = 0.7000000000000001%float
  ∧ PrimFloat.eqb (values_sum breakdown) (total_expense l) = false
  ∧ values_sum breakdown ≠ total_expense l.
Proof.
  cbv zeta. do 6 (split; [vm_compute; reflexivity|]).
  vm_compute. intros Heq. discriminate Heq.
Qed.

Lemma pdf_description_cell_witness :
  pdf_row (row "expense" "Food" (whole 50) (Some a_30) (on_day 2024 1 20))
  = Ok ["2024-01-20"; "Expense"; "Food"; "$50.00"; a_30]
  ∧ pdf_row (row "expense" "Food" (whole 50) (Some a_31) (on_day 2024 1 20))
    = Ok ["2024-01-20"; "Expense"; "Food"; "$50.00"; a_30 +:+ "..."]
  ∧ export_pdf "Demo User" report_day null_description = Raise TypeError.
Proof.
  assert (str_len a_30 ≤ 30) as H30 by (vm_compute; lia).
  assert (30 < str_len a_31) as H31 by (vm_compute; lia).
  split; [|split].
  - exact (proj1 (pdf_description_cell
                    (row "expense" "Food" (whole 50) (Some a_30) (on_day 2024 1 20)))
                 a_30 eq_refl H30).
  - exact (proj1 (proj2 (pdf_description_cell
                    (row "expense" "Food" (whole 50) (Some a_31) (on_day 2024 1 20))))
                 a_31 eq_refl H31).
  - refine (proj2 (proj2 (proj2 (proj2 (pdf_description_cell
                    (row "expense" "Food" (whole 50) None (on_day 2024 1 20))))
                 eq_refl)) "Demo User" report_day null_description _).
    left.
Defined.

Lemma excel_summary_sheet_witness :
  map snd (rows (sheet_Summary (export_excel report_day three_rows_desc)))
  = [ total_income three_rows_desc; total_expense three_rows_desc;
      balance three_rows_desc ].
Proof. exact (proj2 (proj1 excel_summary_sheet Qc _ _ report_day three_rows_desc)). Defined.

Lemma export_row_counts_witness :
  length (rows (sheet_Transactions (export_excel report_day three_rows_desc))) = 3
  ∧ (∃ f, export_pdf "Demo User" report_day three_rows_desc = Ok f
          ∧ pdf_table_data f = pdf_header :: pdf_body f
          ∧ Forall2 (λ t row, pdf_row t = Ok row) three_rows_desc (pdf_body f)
          ∧ length (pdf_body f) = length three_rows_desc)
  ∧ export_pdf "Demo User" report_day null_description = Raise TypeError.
Proof.
  pose proof (export_row_counts "Demo User" report_day three_rows_desc) as Hok.
  pose proof (export_row_counts "Demo User" report_day null_description) as Hbad.
  cbv zeta in Hok, Hbad.
  destruct Hok as (_ & Hlen & Hpdf & _). destruct Hbad as (_ & _ & _ & Hraise & _).
  split; [exact Hlen|]. split.
  - apply Hpdf. intros t Ht.
    repeat (apply elem_of_cons in Ht as [->|Ht]; [discriminate|]).
    by apply elem_of_nil in Ht.
  - apply Hraise. eexists. split; [left|reflexivity].
Defined.

Lemma get_summary_permutation_witness :
  three_rows ≡ₚ three_rows_desc
  ∧ get_summary three_rows = get_summary three_rows_desc.
Proof.
  assert (three_rows ≡ₚ three_rows_desc) as Hp by apply Permutation_rev.
  exact (conj Hp (get_summary_permutation three_rows three_rows_desc Hp)).
Defined.

Lemma series_sums_witness :
  kinds_valid three_rows
  ∧ length (distinct_year_months three_rows) ≤ 12
  ∧ py_sum (map row_income (monthly_summary_field (get_summary three_rows)))
    = total_income three_rows
  ∧ py_sum (map row_expense (monthly_summary_field (get_summary three_rows)))
    = total_expense three_rows.
Proof.
  assert (kinds_valid three_rows) as Hv.
  { apply kinds_valid_check. reflexivity. }
  assert (length (distinct_year_months three_rows) ≤ 12) as Hlen.
  { vm_compute. lia. }
  exact (conj Hv (conj Hlen (proj1 series_sums Qc _ _ three_rows Hv Hlen))).
Defined.

(** The three expenses of 0.1, 0.2 and 0.4 lie in two months and have valid
    kinds; the expense values of the series, 0.5 and 0.2, add up to 0.7 and
    the total expense is 0.7000000000000001. *)
Lemma series_sums_counterexample :
  let l := FloatExamples.tenths in
  let series := monthly_summary_field (get_summary l) in
  forallb (λ t, is_income t || is_expense t) l = true
  ∧ length (distinct_year_months l) = 2
  ∧ map row_expense series = [ 0.5%float; 0.2%float ]
  ∧ py_sum (map row_expense series) = 0.7%float
  ∧ total_expense l = 0.7000000000000001%float
  ∧ PrimFloat.eqb (py_sum (map row_expense series)) (total_expense l) = false
  ∧ py_sum (map row_expense series) ≠ total_expense l.
Proof.
  cbv zeta. do 6 (split; [vm_compute; reflexivity|]).
  vm_compute. intros Heq. discriminate Heq.
Qed.

(** The PDF export of a list that holds a row with a null description. *)
Lemma export_pdf_null_description :
  export_pdf "Demo User" report_day null_description = Raise TypeError
  ∧ rows (sheet_Transactions (export_excel report_day null_description))
    = [ {| Date := "2024-01-20"; Type_ := "Expense"; Category := "Food";
           Amount_ := whole 50; Description := None |} ].
Proof. split; vm_compute; reflexivity. Qed.

(** A row whose type is neither literal is left out of the totals and of
    the breakdown, and counted under [expense] in its month. *)
Lemma other_kind_counts_as_expense :
  let l := [ row "refund" "Misc" (whole 5) (Some "") (on_day 2024 1 3) ] in
  map row_expense (monthly_summary l) = [ whole 5 ]
  ∧ total_expense l = whole 0
  ∧ category_spending l = ∅.
Proof. repeat split; vm_compute; reflexivity. Qed.

(** The cells of the two descriptions of the specification's example. *)
Lemma pdf_description_31_30 :
  pdf_description (Some a_31) = Ok "abcdefghijklmnopqrstuvwxyz0123..."
  ∧ pdf_description (Some a_30) = Ok a_30.
Proof. split; reflexivity. Qed.

(** Sixteen accented letters are sixteen characters in 32 bytes: the cell
    is the description as it is. *)
Lemma pdf_description_accents :
  String.length FloatExamples.sixteen_accents = 32
  ∧ str_len FloatExamples.sixteen_accents = 16
  ∧ pdf_description (Some FloatExamples.sixteen_accents)
    = Ok FloatExamples.sixteen_accents
  ∧ str_take 2 "éa€b" = "éa".
Proof. repeat split; vm_compute; reflexivity. Qed.

(** The example of the specification on binary64 amounts. *)
Lemma summary_example_binary64 :
  get_summary FloatExamples.three_rows
  = {| total_income_field := 1000%float;
       total_expense_field := 80%float;
       balance_field := 920%float;
       category_spending_field := {[ "Food" := 80%float ]};
       monthly_summary_field :=
         [ {| row_month := "2024-01"; row_income := 1000%float; row_expense := 50%float |};
           {| row_month := "2024-02"; row_income := 0%float; row_expense := 30%float |} ];
       transaction_count := 3 |}.
Proof. vm_compute. reflexivity. Qed.

End Instances.
(** * Properties of the routes *)

(** ** The two platforms keep the laws *)

Section LibraryFacts.
Context {A : Type}.

Lemma store_string_str (n : nat) (s : string) :
  String.length s ≤ n → Libraries.store_string (A:=A) (Some n) (JStr s) = Some (Some s).
Proof.
  intros Hs. unfold Libraries.store_string. by rewrite (proj2 (Nat.leb_le _ _) Hs).
Qed.

Lemma user_by_id_int (n : nat) (users : list user) :
  Libraries.user_by_id (A:=A) (JInt (Z.of_nat n)) users
  = match List.find (λ u, Nat.eqb (u_id u) n) users with
    | Some u => Found u
    | None => NotFound
    end.
Proof.
  unfold Libraries.user_by_id.
  assert (List.find (λ u, Z.eqb (Z.of_nat (u_id u)) (Z.of_nat n)) users
          = List.find (λ u, Nat.eqb (u_id u) n) users) as ->; [|done].
  induction users as [|u users IH]; [done|]. simpl. rewrite IH.
  destruct (Nat.eqb_spec (u_id u) n) as [->|Hne].
  - by rewrite Z.eqb_refl.
  - assert ((Z.of_nat (u_id u) =? Z.of_nat n)%Z = false) as ->; [|done].
    apply Z.eqb_neq. lia.
Qed.

Lemma user_by_id_found (ident : json A) (users : list user) (u : user) :
  Libraries.user_by_id ident users = Found u → u ∈ users.
Proof.
  unfold Libraries.user_by_id. destruct ident; try done.
  destruct (List.find _ users) as [u'|] eqn:Hf; [|done].
  intros [= <-]. apply find_some in Hf as [Hin _]. by apply list_elem_of_In.
Qed.

End LibraryFacts.

#[global] Instance Qc_platform_laws : PlatformLaws Qc.
Proof.
  split.
  - apply (store_string_str (A:=Qc)).
  - done.
  - done.
  - done.
  - by intros x y [= <-].
  - intros l. apply merge_sort_Permutation.
  - apply (user_by_id_int (A:=Qc)).
  - apply (user_by_id_found (A:=Qc)).
Qed.

#[global] Instance binary64_platform_laws : PlatformLaws binary64.
Proof.
  split.
  - apply (store_string_str (A:=binary64)).
  - done.
  - done.
  - done.
  - intros x y. simpl. unfold FloatPlatform.store_float.
    destruct (is_nan x); [done|]. by intros [= <-].
  - intros l. apply merge_sort_Permutation.
  - apply (user_by_id_int (A:=binary64)).
  - apply (user_by_id_found (A:=binary64)).
Qed.

(** ** [token_required] *)

Section TokenRequired.
Context {A : Type} `{Amount A} `{Platform A}.

Lemma split_space_Bearer (t : string) :
  split_space ("Bearer " +:+ t) = "Bearer" :: split_space t.
Proof.
  change ("Bearer " +:+ t) with
    (String "B" (String "e" (String "a" (String "r" (String "e" (String "r"
      (String " " t))))))).
  cbn [split_space Ascii.eqb Bool.eqb]. by destruct (split_space t).
Qed.

Lemma split_space_head (t : string) :
  ∃ ws, split_space t = before_space t :: ws.
Proof.
  induction t as [|c t [ws IH]]; simpl; [by eexists|].
  destruct (Ascii.eqb c " "); [by eexists|]. rewrite IH. by eexists.
Qed.

Lemma prefix_cons (a : ascii) (s1 s2 : string) :
  String.prefix (String a s1) s2 = true →
  ∃ s2', s2 = String a s2' ∧ String.prefix s1 s2' = true.
Proof.
  destruct s2 as [|b s2]; [done|]. cbn [String.prefix].
  destruct (Ascii.ascii_dec a b) as [<-|]; [|done]. eauto.
Qed.

Lemma prefix_Bearer (token : string) :
  String.prefix "Bearer " token = true → ∃ t, token = "Bearer " +:+ t.
Proof.
  intros Hp.
  do 7 (apply prefix_cons in Hp as (? & -> & Hp)).
  eauto.
Qed.

Lemma prefix_same (a : ascii) (s1 s2 : string) :
  String.prefix (String a s1) (String a s2) = String.prefix s1 s2.
Proof. cbn [String.prefix]. by destruct (Ascii.ascii_dec a a). Qed.

Lemma prefix_Bearer_true (t : string) :
  String.prefix "Bearer " ("Bearer " +:+ t) = true.
Proof.
  change ("Bearer " +:+ t) with
    (String "B" (String "e" (String "a" (String "r" (String "e" (String "r"
      (String " " t))))))).
  rewrite !prefix_same. by destruct t.
Qed.

Lemma before_space_id (t : string) :
  " "%char ∉ list_ascii_of_string t → before_space t = t.
Proof.
  induction t as [|c t IH]; [done|]. simpl. intros Hc.
  destruct (Ascii.eqb c " ") eqn:Heq.
  - apply Ascii.eqb_eq in Heq. subst c. exfalso. apply Hc. left.
  - rewrite IH; [done|]. intros Hin. apply Hc. by right.
Qed.

Lemma falsy_false (o : option string) :
  falsy o = false → ∃ token, o = Some token ∧ token ≠ "".
Proof.
  destruct o as [token|]; [|done]. simpl. intros Hne%String.eqb_neq. eauto.
Qed.

Lemma request_token_cases (r : request) :
  ((raw_token r = None ∨ raw_token r = Some "")
   ∧ request_token (A:=A) r = error 401 "Token is missing")
  ∨ (∃ t, raw_token r = Some ("Bearer " +:+ t)
          ∧ request_token (A:=A) r = Go (before_space t))
  ∨ (∃ token, raw_token r = Some token ∧ token ≠ ""
              ∧ String.prefix "Bearer " token = false
              ∧ request_token (A:=A) r = Go token).
Proof.
  unfold request_token. fold (raw_token r).
  destruct (raw_token r) as [token|]; cbn [falsy default from_option id]; [|left; auto].
  destruct (String.eqb token "") eqn:He.
  { apply String.eqb_eq in He. subst. left. auto. }
  apply String.eqb_neq in He. right.
  destruct (String.prefix "Bearer " token) eqn:Hp.
  - left. destruct (prefix_Bearer _ Hp) as [t ->]. exists t. split; [done|].
    rewrite split_space_Bearer. by destruct (split_space_head t) as [ws ->].
  - right. by exists token.
Qed.

(** X1.  The token handed to [jwt.decode] is the Authorization header, or
    the cookie when the header is absent or empty; with neither the answer
    is 401.  After a leading [Bearer ] the token is what follows up to the
    next space, which is all of it when it holds no space; the index [1] of
    the split always exists, so this step raises nothing. *)
Theorem request_token_spec (r : request) :
  (raw_token r = None ∨ raw_token r = Some "" ↔
     request_token (A:=A) r = error 401 "Token is missing")
  ∧ (∀ t, raw_token r = Some ("Bearer " +:+ t) →
       request_token (A:=A) r = Go (before_space t))
  ∧ (∀ t, " "%char ∉ list_ascii_of_string t → before_space t = t)
  ∧ (∀ token, raw_token r = Some token → token ≠ "" →
       String.prefix "Bearer " token = false →
       request_token (A:=A) r = Go token)
  ∧ (∀ e, request_token (A:=A) r ≠ raise e).
Proof.
  destruct (request_token_cases r)
    as [[Hraw Hreq]|[(t & Hraw & Hreq)|(token & Hraw & Hne & Hp & Hreq)]];
    rewrite Hreq; clear Hreq.
  - split; [done|].
    split; [intros t Ht; destruct Hraw as [Hr|Hr]; rewrite Hr in Ht; [done|];
            injection Ht as Ht; discriminate Ht|].
    split; [apply before_space_id|].
    split; [|done]. intros token Htok Hne. destruct Hraw; congruence.
  - rewrite Hraw.
    split; [split; [by intros [|[=]]|done]|].
    split; [by intros ? [= <-%(inj _)]|].
    split; [apply before_space_id|]. split; [|done].
    intros token [= <-] _. by rewrite prefix_Bearer_true.
  - rewrite Hraw.
    split; [split; [intros [|[=]]; congruence|done]|].
    split; [intros t [= ->]; by rewrite prefix_Bearer_true in Hp|].
    split; [apply before_space_id|]. split; [|done]. by intros ? [= <-].
Qed.

(** X2.  A route wrapped in [token_required] runs only for a user of the
    table [users] that the lookup found for the [user_id] of the payload
    that [jwt.decode] read from the token of the request, the user with
    that id when the payload holds an [int].  Otherwise the tables are as
    before and the answer is 401 with one of four messages, or one of two
    exceptions that nothing catches: the [KeyError] of a payload without
    [user_id], and what the lookup raises. *)
Theorem token_required_gate `{!PlatformLaws A}
    (f : route) (now : datetime) (r : request) (db : database A) :
  ((token_required f now r db).2 = db
   ∧ ∃ message, message ∈ refusals
       ∧ (token_required f now r db).1 = Reply 401 (BodyError message))
  ∨ ((token_required f now r db).2 = db
     ∧ ∃ token data,
         request_token (A:=A) r = Go token
         ∧ jwt_decode now token = Decoded data
         ∧ ((data !! "user_id" = None
             ∧ (token_required f now r db).1 = Uncaught KeyError)
            ∨ (∃ ident e,
                 data !! "user_id" = Some ident
                 ∧ query_get ident (users_table db) = LookupRaises e
                 ∧ (token_required f now r db).1 = Uncaught e)))
  ∨ (∃ token data ident current_user,
       request_token (A:=A) r = Go token
       ∧ jwt_decode now token = Decoded data
       ∧ data !! "user_id" = Some ident
       ∧ query_get ident (users_table db) = Found current_user
       ∧ current_user ∈ users_table db
       ∧ (∀ n : nat, ident = JInt (Z.of_nat n) → u_id current_user = n)
       ∧ token_required f now r db = f current_user db).
Proof.
  unfold token_required, current_user_of.
  destruct (request_token r) as [token|reply] eqn:Hreq; cbn [mbind step_bind].
  - destruct (jwt_decode now token) as [data| |] eqn:Hjwt.
    + destruct (data !! "user_id") as [ident|] eqn:Hid.
      * destruct (query_get ident (users_table db)) as [u| |e] eqn:Hq.
        -- right. right. exists token, data, ident, u.
           do 4 (split; [done|]).
           split; [by apply (query_get_found ident)|]. split; [|done].
           intros n ->. rewrite query_get_int in Hq.
           destruct (List.find _ _) as [u'|] eqn:Hf; [|done]. injection Hq as <-.
           apply find_some in Hf as [_ Hn]. by apply Nat.eqb_eq.
        -- left. split; [done|]. exists "User not found".
           split; [|done]. unfold refusals. set_solver.
        -- right. left. split; [done|]. exists token, data.
           do 2 (split; [done|]). right. by exists ident, e.
      * right. left. split; [done|]. exists token, data.
        do 2 (split; [done|]). by left.
    + left. split; [done|]. exists "Token has expired".
      split; [|done]. unfold refusals. set_solver.
    + left. split; [done|]. exists "Invalid token".
      split; [|done]. unfold refusals. set_solver.
  - left. split; [done|]. exists "Token is missing".
    split; [unfold refusals; set_solver|].
    destruct (request_token_cases r)
      as [[_ Hr]|[(t & _ & Hr)|(token & _ & _ & _ & Hr)]]; rewrite Hr in Hreq;
      [|done..].
    by injection Hreq as <-.
Qed.

End TokenRequired.

(** ** The transaction routes *)

Section Transactions.
Context {A : Type} `{Amount A} `{Platform A}.

Lemma find_transaction_Some (u : user) (i : nat) (db : database A) t :
  find_transaction u i db = Some t →
  t ∈ transactions_table db ∧ tx_id t = i ∧ user_id t = u_id u.
Proof.
  unfold find_transaction. intros [Hin Hp]%find_some.
  apply andb_true_iff in Hp as [H1%Nat.eqb_eq H2%Nat.eqb_eq].
  split; [by apply list_elem_of_In|done].
Qed.

Lemma find_transaction_None (u : user) (i : nat) (db : database A) :
  find_transaction u i db = None ↔
  ∀ t, t ∈ transactions_table db → ¬ (tx_id t = i ∧ user_id t = u_id u).
Proof.
  unfold find_transaction. split.
  - intros Hnone t Hin [H1 H2].
    apply list_elem_of_In in Hin. pose proof (find_none _ _ Hnone _ Hin) as Hf.
    simpl in Hf. rewrite H1, H2, !Nat.eqb_refl in Hf. done.
  - intros Hall. destruct (find _ _) as [t|] eqn:Hf; [|done].
    apply find_some in Hf as [Hin Hp].
    apply andb_true_iff in Hp as [H1%Nat.eqb_eq H2%Nat.eqb_eq].
    destruct (Hall t); [by apply list_elem_of_In|done].
Qed.

Lemma in_kinds_true (v : json A) :
  in_kinds v = true → ∃ k, v = JStr k ∧ (k = "income" ∨ k = "expense").
Proof.
  destruct v as [| | | |s| |]; try done. simpl.
  intros [Hk%String.eqb_eq|Hk%String.eqb_eq]%orb_true_iff; eauto.
Qed.

(** *** The body as a container *)

Lemma contains_obj (d : gmap string (json A)) (key : string) :
  contains (JObj d) key = Go (match d !! key with Some _ => true | None => false end).
Proof. unfold contains. f_equal. by destruct (d !! key). Qed.

Lemma all_in_obj (d : gmap string (json A)) (fields : list string) :
  all_in (JObj d) fields
  = Go (forallb (λ field, bool_decide (is_Some (d !! field))) fields).
Proof.
  induction fields as [|field fields IH]; [done|].
  cbn [all_in contains forallb mbind step_bind].
  destruct (bool_decide (is_Some (d !! field))); [exact IH|done].
Qed.

Lemma optional_item_obj (d : gmap string (json A)) (key : string) :
  optional_item (JObj d) key = Go (d !! key).
Proof.
  unfold optional_item. rewrite contains_obj. cbn [mbind step_bind item].
  by destruct (d !! key).
Qed.

Lemma contains_scalar (data : json A) (key : string) :
  scalar data = true → contains data key = raise (Builtin TypeError).
Proof. by destruct data. Qed.

Lemma contains_sequence (data : json A) (key : string) :
  sequence data = true →
  ∃ b, contains data key = Go b ∧ item data key = raise (Builtin TypeError).
Proof. destruct data; try done; intros _; by eexists. Qed.

Lemma all_in_sequence (data : json A) (fields : list string) :
  sequence data = true →
  ∃ b, all_in data fields = Go b
       ∧ (b = true ↔ ∀ field, field ∈ fields → contains data field = Go true).
Proof.
  intros Hs. induction fields as [|field fields (b & IH & Hb)].
  - exists true. split; [done|]. split; [|done]. by intros _ ? ?%elem_of_nil.
  - cbn [all_in]. destruct (contains_sequence data field Hs) as (b0 & Hc & _).
    rewrite Hc. cbn [mbind step_bind]. destruct b0.
    + exists b. split; [done|]. rewrite Hb. split.
      * intros Hall f [->|Hf]%elem_of_cons; auto.
      * intros Hall f Hf. apply Hall. by right.
    + exists false. split; [done|]. split; [done|].
      intros Hall. specialize (Hall field ltac:(left)). congruence.
Qed.

Lemma required_present (d : gmap string (json A)) :
  forallb (λ field, bool_decide (is_Some (d !! field))) required_fields = true →
  is_Some (d !! "type") ∧ is_Some (d !! "category")
  ∧ is_Some (d !! "amount") ∧ is_Some (d !! "date").
Proof.
  unfold required_fields. simpl. rewrite !andb_true_iff, !bool_decide_eq_true.
  tauto.
Qed.

(** *** The checks *)

Lemma parse_amount_Go (v : json A) x :
  parse_amount v = Go x → float v = FloatValue x ∧ le_zero x = false.
Proof.
  unfold parse_amount. destruct (float v) as [y| | |]; [|done..].
  destruct (le_zero y) eqn:Hle; [done|]. by intros [= <-].
Qed.

Lemma parse_amount_Stop (v : json A) r :
  parse_amount v = Stop r →
  (∃ message, r = Reply 400 (BodyError message))
  ∨ r = Uncaught (Builtin TypeError) ∨ r = Uncaught OverflowError.
Proof.
  unfold parse_amount, error, raise. destruct (float v) as [y| | |].
  - destruct (le_zero y); [|done]. intros [= <-]. eauto.
  - intros [= <-]. eauto.
  - intros [= <-]. eauto.
  - intros [= <-]. eauto.
Qed.

Lemma parse_date_Go (v : step A (json A)) d :
  parse_date v = Go d → ∃ s, v = Go (JStr s) ∧ fromisoformat (replace_Z s) = Some d.
Proof.
  unfold parse_date. destruct v as [[| | | |s| |]|]; try done.
  destruct (fromisoformat _) as [d'|] eqn:Hd; [|done]. intros [= <-]. eauto.
Qed.

Lemma parse_date_Stop (v : step A (json A)) r :
  parse_date v = Stop r → r = Reply 400 (BodyError "Invalid date format").
Proof.
  unfold parse_date, error. destruct v as [[| | | |s| |]|]; try (by intros [= <-]).
  destruct (fromisoformat _); [done|]. by intros [= <-].
Qed.

Lemma not_null_Go {T : Type} (c : option (option T)) s :
  not_null (A:=A) c = Go s → c = Some (Some s).
Proof. destruct c as [[?|]|]; [|done..]. by intros [= <-]. Qed.

Lemma not_null_Stop {T : Type} (c : option (option T)) r :
  not_null (A:=A) c = Stop r → r = Uncaught SQLAlchemyError.
Proof. destruct c as [[?|]|]; [done|..]; by intros [= <-]. Qed.

Lemma nullable_Go {T : Type} (c : option (option T)) o :
  nullable (A:=A) c = Go o → c = Some o.
Proof. destruct c as [?|]; [|done]. by intros [= <-]. Qed.

Lemma nullable_Stop {T : Type} (c : option (option T)) r :
  nullable (A:=A) c = Stop r → r = Uncaught SQLAlchemyError.
Proof. destruct c as [?|]; [done|]. by intros [= <-]. Qed.

(** One case per way through the statements of a route. *)
Ltac route_cases :=
  repeat (cbn [mbind step_bind negb];
    match goal with
    | |- context [negb (in_kinds ?v)] => destruct (in_kinds v) eqn:?
    | |- context [parse_amount ?v] => destruct (parse_amount v) eqn:?
    | |- context [parse_date ?v] => destruct (parse_date v) eqn:?
    | |- context [not_null ?c] => destruct (not_null c) eqn:?
    | |- context [nullable ?c] => destruct (nullable c) eqn:?
    end);
  repeat match goal with
    | H : parse_amount _ = Go _ |- _ => apply parse_amount_Go in H as [? ?]
    | H : parse_amount _ = Stop _ |- _ => apply parse_amount_Stop in H as [[? ->]|[->| ->]]
    | H : parse_date _ = Go _ |- _ => apply parse_date_Go in H as (? & ? & ?)
    | H : parse_date _ = Stop _ |- _ => apply parse_date_Stop in H as ->
    | H : not_null _ = Go _ |- _ => apply not_null_Go in H
    | H : not_null _ = Stop _ |- _ => apply not_null_Stop in H as ->
    | H : nullable _ = Go _ |- _ => apply nullable_Go in H
    | H : nullable _ = Stop _ |- _ => apply nullable_Stop in H as ->
    end.

Lemma create_transaction_cases (new_id : nat) (now : datetime)
    (data : json A) (u : user) (db : database A) :
  (refused (create_transaction new_id now data u db).1
   ∧ (create_transaction new_id now data u db).2 = db)
  ∨ (∃ t, create_transaction new_id now data u db
          = (Reply 201 (BodyTransaction (Some "Transaction created successfully") t),
             {| users_table := users_table db;
                transactions_table := transactions_table db ++ [t] |})
          ∧ created_from new_id now data u t).
Proof.
  unfold create_transaction, refused.
  destruct (scalar data) eqn:Hscalar.
  { left. cbn [all_in required_fields].
    rewrite (contains_scalar data "type" Hscalar). cbn. eauto. }
  destruct (sequence data) eqn:Hseq.
  { destruct (all_in_sequence data required_fields Hseq) as (b & -> & _).
    destruct (contains_sequence data "type" Hseq) as (_ & _ & ->).
    left. destruct b; cbn; eauto. }
  destruct data as [| | | | | |d]; try done. clear Hscalar Hseq.
  rewrite all_in_obj. cbn [mbind step_bind].
  destruct (forallb _ required_fields) eqn:Hreq; cbn [negb]; [|left; eauto].
  apply required_present in Hreq as ([ty Hty] & [ca Hca] & [am Ham] & [da Hda]).
  unfold item, get. rewrite Hty, Hca, Ham, Hda. cbn [mbind step_bind].
  destruct (in_kinds ty) eqn:Hk; cbn [negb]; [|left; eauto].
  destruct (parse_amount am) as [x|r] eqn:Hx; cbn [mbind step_bind];
    [|left; apply parse_amount_Stop in Hx as [[m ->]|[->| ->]]; eauto 6].
  destruct (parse_date (Go da)) as [dt|r] eqn:Hd; cbn [mbind step_bind];
    [|left; apply parse_date_Stop in Hd as ->; eauto].
  destruct (not_null (bind_varchar 10 ty)) as [tc|r] eqn:Htc; cbn [mbind step_bind];
    [|left; apply not_null_Stop in Htc as ->; eauto 6].
  destruct (not_null (bind_varchar 50 ca)) as [cc|r] eqn:Hcc; cbn [mbind step_bind];
    [|left; apply not_null_Stop in Hcc as ->; eauto 6].
  destruct (not_null (bind_float x)) as [ac|r] eqn:Hac; cbn [mbind step_bind];
    [|left; apply not_null_Stop in Hac as ->; eauto 6].
  destruct (nullable (bind_text _)) as [dc|r] eqn:Hdc; cbn [mbind step_bind];
    [|left; apply nullable_Stop in Hdc as ->; eauto 6].
  right. eexists. split; [done|].
  apply parse_amount_Go in Hx as [Hf Hle].
  apply parse_date_Go in Hd as (s & [= ->] & Hs).
  apply not_null_Go in Htc, Hcc, Hac. apply nullable_Go in Hdc.
  unfold created_from, field. cbn. rewrite Hty, Ham, Hca, Hda.
  repeat split; eauto 10.
Qed.

(** *** The blocks of [update_transaction] *)

Lemma optional_item_Go (data : json A) (key : string) (o : option (json A)) :
  optional_item data key = Go o → o = field data key.
Proof.
  unfold optional_item. destruct data as [| | | |s|l|d]; try done.
  - cbn. by destruct (occurs_in key s); [|intros [= <-]].
  - cbn. by destruct (existsb _ l); [|intros [= <-]].
  - rewrite contains_obj. cbn. by destruct (d !! key); intros [= <-].
Qed.

Lemma optional_item_Stop (data : json A) (key : string) (r : reply A) :
  optional_item data key = Stop r → r = Uncaught (Builtin TypeError).
Proof.
  unfold optional_item. destruct data as [| | | |s|l|d]; try (by intros [= <-]).
  - cbn. by destruct (occurs_in key s); [intros [= <-]|].
  - cbn. by destruct (existsb _ l); [intros [= <-]|].
  - rewrite contains_obj. cbn. by destruct (d !! key).
Qed.

Lemma update_type_Go (data : json A) (o : option (json A)) :
  update_type data = Go o →
  o = field data "type" ∧ ∀ v, o = Some v → in_kinds v = true.
Proof.
  unfold update_type.
  destruct (optional_item data "type") as [o'|] eqn:Ho; [|done].
  apply optional_item_Go in Ho as ->. cbn [mbind step_bind].
  destruct (field data "type") as [v|]; [|by intros [= <-]].
  destruct (in_kinds v) eqn:Hk; [|done]. intros [= <-].
  split; [done|]. by intros ? [= <-].
Qed.

Lemma update_type_Stop (data : json A) (r : reply A) :
  update_type data = Stop r → refused r.
Proof.
  unfold update_type, refused.
  destruct (optional_item data "type") as [o'|] eqn:Ho.
  - cbn [mbind step_bind]. destruct o' as [v|]; [|done].
    destruct (in_kinds v); [done|]. intros [= <-]. eauto.
  - apply optional_item_Stop in Ho as ->. intros [= <-]. eauto.
Qed.

Lemma update_amount_Go (data : json A) (o : option A) :
  update_amount data = Go o →
  match field data "amount" with
  | Some v => ∃ x, o = Some x ∧ float v = FloatValue x ∧ le_zero x = false
  | None => o = None
  end.
Proof.
  unfold update_amount.
  destruct (optional_item data "amount") as [o'|] eqn:Ho; [|done].
  apply optional_item_Go in Ho as ->. cbn [mbind step_bind].
  destruct (field data "amount") as [v|]; [|by intros [= <-]].
  destruct (parse_amount v) as [x|] eqn:Hx; [|done].
  apply parse_amount_Go in Hx as [? ?]. intros [= <-]. eauto.
Qed.

Lemma update_amount_Stop (data : json A) (r : reply A) :
  update_amount data = Stop r → refused r.
Proof.
  unfold update_amount, refused.
  destruct (optional_item data "amount") as [o'|] eqn:Ho.
  - cbn [mbind step_bind]. destruct o' as [v|]; [|done].
    destruct (parse_amount v) as [x|r'] eqn:Hx; [done|].
    apply parse_amount_Stop in Hx as [[m ->]|[->| ->]]; intros [= <-]; eauto.
  - apply optional_item_Stop in Ho as ->. intros [= <-]. eauto.
Qed.

Lemma update_date_Go (data : json A) (o : option datetime) :
  update_date data = Go o →
  match field data "date" with
  | Some v => ∃ s d, v = JStr s ∧ fromisoformat (replace_Z s) = Some d ∧ o = Some d
  | None => o = None
  end.
Proof.
  unfold update_date. destruct data as [| | | |s|l|d]; try done.
  - cbn. destruct (occurs_in "date" s); [done|]. by intros [= <-].
  - cbn. destruct (existsb _ l); [done|]. by intros [= <-].
  - rewrite contains_obj. cbn. destruct (d !! "date") as [v|]; [|by intros [= <-]].
    cbn [mbind step_bind]. destruct (parse_date (Go v)) as [dt|] eqn:Hd; [|done].
    apply parse_date_Go in Hd as (s & [= ->] & Hs). intros [= <-]. eauto.
Qed.

Lemma update_date_Stop (data : json A) (r : reply A) :
  update_date data = Stop r → refused r.
Proof.
  unfold update_date, refused.
  destruct (contains data "date") as [[|]|r'] eqn:Hc; cbn [mbind step_bind].
  - destruct (parse_date (item data "date")) as [dt|r''] eqn:Hd; [done|].
    apply parse_date_Stop in Hd as ->. intros [= <-]. eauto.
  - done.
  - intros [= <-]. destruct data; try done; cbn in Hc; injection Hc as <-; eauto.
Qed.

Lemma update_transaction_cases (i : nat) (data : json A)
    (u : user) (db : database A) :
  (find_transaction u i db = None
   ∧ update_transaction i data u db
     = (Reply 404 (BodyError "Transaction not found"), db))
  ∨ (is_Some (find_transaction u i db)
     ∧ refused (update_transaction i data u db).1
     ∧ (update_transaction i data u db).2 = db)
  ∨ (∃ t0 t, find_transaction u i db = Some t0
       ∧ update_transaction i data u db
         = (Reply 200 (BodyTransaction (Some "Transaction updated successfully") t),
            {| users_table := users_table db;
               transactions_table := update_row i t (transactions_table db) |})
       ∧ updated_from data t0 t).
Proof.
  unfold update_transaction.
  destruct (find_transaction u i db) as [t0|] eqn:Hfind; [right|left; done].
  assert (refused (A:=A) (Uncaught SQLAlchemyError)) as Hdb by (unfold refused; eauto).
  assert (refused (A:=A) (Uncaught (Builtin TypeError))) as Hte by (unfold refused; eauto).
  destruct (update_type data) as [ty|r] eqn:Hty; cbn [mbind step_bind];
    [|left; split; [by eauto|]; split; [by apply (update_type_Stop data)|done]].
  destruct (optional_item data "category") as [ca|r] eqn:Hca; cbn [mbind step_bind];
    [|left; split; [by eauto|]; split; [|done];
      by apply optional_item_Stop in Hca as ->].
  destruct (update_amount data) as [am|r] eqn:Ham; cbn [mbind step_bind];
    [|left; split; [by eauto|]; split; [by apply (update_amount_Stop data)|done]].
  destruct (optional_item data "description") as [de|r] eqn:Hde; cbn [mbind step_bind];
    [|left; split; [by eauto|]; split; [|done];
      by apply optional_item_Stop in Hde as ->].
  destruct (update_date data) as [da|r] eqn:Hda; cbn [mbind step_bind];
    [|left; split; [by eauto|]; split; [by apply (update_date_Stop data)|done]].
  destruct (column ty _ (type t0)) as [tc|r] eqn:Htc; cbn [mbind step_bind].
  2: { left. split; [by eauto|]. split; [|done]. cbn [fst].
       destruct ty; [|done]. by apply not_null_Stop in Htc as ->. }
  destruct (column ca _ (category t0)) as [cc|r] eqn:Hcc; cbn [mbind step_bind].
  2: { left. split; [by eauto|]. split; [|done]. cbn [fst].
       destruct ca; [|done]. by apply not_null_Stop in Hcc as ->. }
  destruct (column am _ (amount t0)) as [ac|r] eqn:Hac; cbn [mbind step_bind].
  2: { left. split; [by eauto|]. split; [|done]. cbn [fst].
       destruct am; [|done]. by apply not_null_Stop in Hac as ->. }
  destruct (column de _ (description t0)) as [dc|r] eqn:Hdc; cbn [mbind step_bind].
  2: { left. split; [by eauto|]. split; [|done]. cbn [fst].
       destruct de; [|done]. by apply nullable_Stop in Hdc as ->. }
  right. exists t0. eexists. split; [done|]. split; [done|].
  apply update_type_Go in Hty as [-> Hkind].
  apply optional_item_Go in Hca as ->. apply optional_item_Go in Hde as ->.
  apply update_amount_Go in Ham. apply update_date_Go in Hda.
  unfold updated_from, column in *. cbn.
  do 3 (split; [done|]). split; [|split; [|split; [|split]]].
  - destruct (field data "type") as [v|]; [|by injection Htc as <-].
    apply not_null_Go in Htc. auto.
  - destruct (field data "category") as [v|]; [|by injection Hcc as <-].
    by apply not_null_Go in Hcc.
  - destruct (field data "amount") as [v|].
    + destruct Ham as (x & -> & Hf & Hle). apply not_null_Go in Hac. eauto.
    + subst am. by injection Hac as <-.
  - destruct (field data "description") as [v|]; [|by injection Hdc as <-].
    by apply nullable_Go in Hdc.
  - destruct (field data "date") as [v|].
    + destruct Hda as (s & d & -> & Hs & ->). eauto.
    + by subst da.
Qed.

(** X3.  [create_transaction] answers in the order of its checks, for
    whatever [request.get_json()] returned.  A body that is [None], a
    boolean or a number is a [TypeError] that nothing catches.  A string or
    a list that does not hold the four names is refused for its missing
    fields, and one that holds them is a [TypeError].  An object that lacks
    one of type, category, amount and date is refused as such; then a type
    other than the two kinds; then the amount, where a null, a list or an
    object is a [TypeError] and an [int] beyond the range of a float an
    [OverflowError], both uncaught, a string that is no number is "Invalid
    amount" and a number with [amount <= 0] is "Amount must be positive";
    then a date that is no string or does not parse.  None of these touches
    the tables. *)
Theorem create_transaction_validation (new_id : nat) (now : datetime)
    (data : json A) (u : user) (db : database A) :
  let answer := create_transaction new_id now data u db in
  let refuse message := (Reply 400 (BodyError message), db) in
  let raises e := (@Uncaught A e, db) in
  (scalar data = true → answer = raises (Builtin TypeError))
  ∧ (sequence data = true →
     ((∃ key, key ∈ required_fields ∧ contains data key = Go false) →
        answer = refuse "Missing required fields")
     ∧ ((∀ key, key ∈ required_fields → contains data key = Go true) →
        answer = raises (Builtin TypeError)))
  ∧ (∀ d, data = JObj d →
     ((∃ key, key ∈ required_fields ∧ d !! key = None) →
        answer = refuse "Missing required fields")
     ∧ (∀ ty ca am da,
          d !! "type" = Some ty → d !! "category" = Some ca →
          d !! "amount" = Some am → d !! "date" = Some da →
          (in_kinds ty = false → answer = refuse "Type must be income or expense")
          ∧ (in_kinds ty = true →
             (am = JNull ∨ (∃ l, am = JArr l) ∨ (∃ o, am = JObj o) →
                answer = raises (Builtin TypeError))
             ∧ (∀ n, am = JInt n → float_of_int n = None →
                  answer = raises OverflowError)
             ∧ (∀ s, am = JStr s → float_of_str s = None →
                  answer = refuse "Invalid amount")
             ∧ (∀ x, float am = FloatValue x →
                  (le_zero x = true → answer = refuse "Amount must be positive")
                  ∧ (le_zero x = false →
                     (∀ s, da ≠ JStr s)
                     ∨ (∃ s, da = JStr s ∧ fromisoformat (replace_Z s) = None) →
                     answer = refuse "Invalid date format"))))).
Proof.
  cbv zeta. unfold create_transaction. split; [|split].
  - intros Hscalar. cbn [all_in required_fields].
    by rewrite (contains_scalar data "type" Hscalar).
  - intros Hseq.
    destruct (all_in_sequence data required_fields Hseq) as (b & -> & Hb).
    destruct (contains_sequence data "type" Hseq) as (_ & _ & ->).
    cbn [mbind step_bind]. split.
    + intros (key & Hin & Hkey). destruct b; [|done].
      rewrite (proj1 Hb eq_refl key Hin) in Hkey. done.
    + intros Hall. apply Hb in Hall as ->. done.
  - intros d ->. rewrite all_in_obj. cbn [mbind step_bind]. split.
    + intros (key & Hin & Hnone).
      assert (forallb (λ field, bool_decide (is_Some (d !! field))) required_fields
              = false) as ->; [|done].
      apply not_true_is_false. intros Hall. rewrite forallb_forall in Hall.
      apply list_elem_of_In, Hall, bool_decide_eq_true in Hin.
      rewrite Hnone in Hin. by destruct Hin.
    + intros ty ca am da Hty Hca Ham Hda.
      assert (forallb (λ field, bool_decide (is_Some (d !! field))) required_fields
              = true) as ->.
      { unfold required_fields. simpl. by rewrite Hty, Hca, Ham, Hda. }
      unfold item, get. rewrite Hty, Hca, Ham, Hda. cbn [negb mbind step_bind].
      split; [by intros ->|]. intros ->. cbn [negb mbind step_bind].
      split; [|split; [|split]].
      * intros [->|[[l ->]|[o ->]]]; done.
      * intros n -> Hn. unfold parse_amount. simpl. by rewrite Hn.
      * intros s -> Hs. unfold parse_amount. simpl. by rewrite Hs.
      * intros x Hx. unfold parse_amount. rewrite Hx. split.
        -- by intros ->.
        -- intros ->. cbn [mbind step_bind]. intros [Hns|(s & -> & Hs)].
           ++ destruct da as [| | | |s| |]; try done. by destruct (Hns s).
           ++ simpl. by rewrite Hs.
Qed.

Context `{!PlatformLaws A}.

Lemma bind_kind (v : json A) (k : string) :
  in_kinds v = true → bind_varchar 10 v = Some (Some k) →
  v = JStr k ∧ (k = "income" ∨ k = "expense").
Proof.
  intros (k' & -> & Hk)%in_kinds_true Hb.
  rewrite bind_varchar_str in Hb; [by injection Hb as <-|].
  destruct Hk as [-> | ->]; simpl; lia.
Qed.

Lemma created_from_valid (new_id : nat) (now : datetime) (data : json A)
    (u : user) (t : transaction A) :
  created_from new_id now data u t →
  valid_row t ∧ field data "type" = Some (JStr (type t)).
Proof.
  intros (_ & _ & _ & _ & (v & Hv & Hk & Hb) & (a & x & _ & _ & Hle & Hx) & _).
  destruct (bind_kind _ _ Hk Hb) as [-> Hkind].
  apply bind_float_same in Hx. split; [|done]. split; [done|]. by rewrite Hx.
Qed.

Lemma updated_from_valid (data : json A) (t0 t : transaction A) :
  updated_from data t0 t → valid_row t0 → valid_row t.
Proof.
  intros (_ & _ & _ & Hty & _ & Ham & _) [Hk0 Hle0]. split.
  - destruct (field data "type") as [v|].
    + destruct Hty as [Hk Hb]. by destruct (bind_kind _ _ Hk Hb).
    + by rewrite Hty.
  - destruct (field data "amount") as [v|].
    + destruct Ham as (x & _ & Hle & Hx). apply bind_float_same in Hx. by rewrite Hx.
    + by rewrite Ham.
Qed.

(** X4.  [create_transaction] either refuses, with an answer 400 or with
    one of three exceptions that nothing catches ([TypeError],
    [OverflowError], an error of the database), and then the tables are as
    before; or it appends one row and changes nothing else: the body is an
    object, and the row has the key the database gave it, the requesting
    user as its owner, one of the two kinds as its type, read from the
    body, and as its amount the float of the amount of the body, for which
    [amount <= 0] is false. *)
Theorem create_transaction_outcome (new_id : nat) (now : datetime)
    (data : json A) (u : user) (db : database A) :
  (refused (create_transaction new_id now data u db).1
   ∧ (create_transaction new_id now data u db).2 = db)
  ∨ (∃ t, create_transaction new_id now data u db
          = (Reply 201 (BodyTransaction (Some "Transaction created successfully") t),
             {| users_table := users_table db;
                transactions_table := transactions_table db ++ [t] |})
          ∧ (∃ d, data = JObj d)
          ∧ tx_id t = new_id ∧ user_id t = u_id u ∧ created_at t = now
          ∧ valid_row t
          ∧ field data "type" = Some (JStr (type t))
          ∧ ∃ v, field data "amount" = Some v ∧ float v = FloatValue (amount t)).
Proof.
  destruct (create_transaction_cases new_id now data u db) as [Hr|(t & Heq & Hfrom)];
    [by left|right].
  exists t. split; [done|].
  destruct (created_from_valid _ _ _ _ _ Hfrom) as [Hvalid Hty].
  destruct Hfrom as (? & ? & ? & ? & _ & (v & x & ? & ? & _ & Hx) & _).
  apply bind_float_same in Hx. rewrite <- Hx in *. eauto 10.
Qed.


Lemma user_transactions_app (u : user) (db : database A) (t : transaction A) :
  user_transactions u {| users_table := users_table db;
                         transactions_table := transactions_table db ++ [t] |}
  = user_transactions u db
    ++ (if Nat.eqb (user_id t) (u_id u) then [t] else []).
Proof. unfold user_transactions. simpl. by rewrite List.filter_app. Qed.


Lemma row_unique (rows : list (transaction A)) (t1 t2 : transaction A) :
  NoDup (map tx_id rows) → t1 ∈ rows → t2 ∈ rows → tx_id t1 = tx_id t2 → t1 = t2.
Proof.
  induction rows as [|t rows IH]; [by intros _ ?%elem_of_nil|].
  simpl. intros [Hnin Hnd]%NoDup_cons H1 H2 Heq.
  apply elem_of_cons in H1 as [->|H1], H2 as [->|H2]; [done|..|by apply IH].
  - destruct Hnin. rewrite Heq. by apply (list_elem_of_fmap_2 tx_id).
  - destruct Hnin. rewrite <- Heq. by apply (list_elem_of_fmap_2 tx_id).
Qed.

Lemma update_row_ids (i : nat) (t : transaction A) (rows : list (transaction A)) :
  tx_id t = i → map tx_id (update_row i t rows) = map tx_id rows.
Proof.
  intros Ht. unfold update_row. rewrite map_map. apply map_ext. intros t'.
  destruct (Nat.eqb (tx_id t') i) eqn:He; [|done]. apply Nat.eqb_eq in He. congruence.
Qed.

Lemma update_row_same (i : nat) (t0 : transaction A) (rows : list (transaction A)) :
  NoDup (map tx_id rows) → t0 ∈ rows → tx_id t0 = i → update_row i t0 rows = rows.
Proof.
  intros Hnd Hin Hi. unfold update_row. rewrite <- (map_id rows) at 2.
  apply map_ext_in. intros t Ht%list_elem_of_In.
  destruct (Nat.eqb (tx_id t) i) eqn:He; [|done]. apply Nat.eqb_eq in He.
  apply (row_unique rows); congruence.
Qed.

Lemma updated_from_empty (data : json A) (t0 t : transaction A) :
  (∀ key, field data key = None) → updated_from data t0 t → t = t0.
Proof.
  intros Hnone. unfold updated_from. rewrite !Hnone.
  destruct t, t0. simpl. intros (-> & -> & -> & -> & -> & -> & -> & ->). done.
Qed.

(** X6.  [update_transaction] answers 404 when the user owns no row with
    that id, and changes nothing when it refuses, with an answer 400 or
    with a [TypeError], an [OverflowError] or an error of the database that
    nothing catches.  A successful update rewrites the row of that id only:
    its id, owner and creation time stay, each field named in the body is
    read from it and every other field keeps its value, a row that had a
    valid kind and amount still has them, and with a body that names no
    field the tables are left as they were. *)
Theorem update_transaction_outcome (i : nat) (data : json A)
    (u : user) (db : database A) :
  (find_transaction u i db = None
   ∧ update_transaction i data u db
     = (Reply 404 (BodyError "Transaction not found"), db))
  ∨ (is_Some (find_transaction u i db)
     ∧ refused (update_transaction i data u db).1
     ∧ (update_transaction i data u db).2 = db)
  ∨ (∃ t0 t, find_transaction u i db = Some t0
       ∧ update_transaction i data u db
         = (Reply 200 (BodyTransaction (Some "Transaction updated successfully") t),
            {| users_table := users_table db;
               transactions_table := update_row i t (transactions_table db) |})
       ∧ tx_id t = i ∧ user_id t = u_id u
       ∧ updated_from data t0 t
       ∧ (valid_row t0 → valid_row t)
       ∧ ((∀ key, field data key = None) → primary_key db →
          (update_transaction i data u db).2 = db)).
Proof.
  destruct (update_transaction_cases i data u db)
    as [?|[?|(t0 & t & Hfind & Heq & Hfrom)]]; [by left|by right; left|].
  right. right. exists t0, t.
  destruct (find_transaction_Some _ _ _ _ Hfind) as (Hin & Hid & Hown).
  pose proof Hfrom as (Hi & Hu & _).
  split; [done|]. split; [done|]. split; [congruence|]. split; [congruence|].
  split; [done|]. split; [by apply (updated_from_valid data)|].
  intros Hnone Hpk. rewrite Heq. cbn [snd].
  apply (updated_from_empty data) in Hfrom as ->; [|done].
  rewrite update_row_same by done. by destruct db.
Qed.

Lemma delete_row_elem_of (i : nat) (rows : list (transaction A)) (t : transaction A) :
  t ∈ delete_row i rows ↔ t ∈ rows ∧ tx_id t ≠ i.
Proof.
  unfold delete_row. rewrite !list_elem_of_In, filter_In, negb_true_iff, Nat.eqb_neq.
  done.
Qed.

Lemma find_transaction_deleted (u u' : user) (i : nat) (db : database A) :
  find_transaction u' i (delete_transaction i u db).2 = None
  ∨ (delete_transaction i u db).2 = db ∧ find_transaction u i db = None.
Proof.
  unfold delete_transaction.
  destruct (find_transaction u i db) as [t0|] eqn:Hfind; [left|right; done].
  cbn [snd]. apply find_transaction_None. cbn [transactions_table].
  intros t [_ Hne]%delete_row_elem_of [Hid _]. done.
Qed.

(** X7.  [delete_transaction] answers 404 and changes nothing when the user
    owns no row with that id.  Otherwise it removes the rows with that id
    and no other, in place; afterwards the row can be read by no user, and
    deleting it again answers 404. *)
Theorem delete_transaction_outcome (i : nat) (u : user) (db : database A) :
  let db' := (delete_transaction i u db).2 in
  (find_transaction u i db = None
   ∧ delete_transaction i u db = (Reply 404 (BodyError "Transaction not found"), db))
  ∨ (is_Some (find_transaction u i db)
     ∧ (delete_transaction i u db).1
       = Reply 200 (BodyMessage "Transaction deleted successfully")
     ∧ users_table db' = users_table db
     ∧ transactions_table db'
       = List.filter (λ t, negb (Nat.eqb (tx_id t) i)) (transactions_table db)
     ∧ (∀ t, t ∈ transactions_table db' ↔ t ∈ transactions_table db ∧ tx_id t ≠ i)
     ∧ (∀ u', get_transaction i u' db'
              = (Reply 404 (BodyError "Transaction not found"), db'))
     ∧ delete_transaction i u db'
       = (Reply 404 (BodyError "Transaction not found"), db')).
Proof.
  cbv zeta.
  destruct (find_transaction_deleted u u i db) as [Hgone|[_ Hnone]].
  2: { left. split; [done|]. unfold delete_transaction. by rewrite Hnone. }
  destruct (find_transaction u i db) as [t0|] eqn:Hfind.
  2: { left. split; [done|]. unfold delete_transaction. by rewrite Hfind. }
  right. split; [done|].
  assert (∀ u', find_transaction u' i (delete_transaction i u db).2 = None) as Hall.
  { intros u'. destruct (find_transaction_deleted u u' i db) as [?|[_ ?]]; congruence. }
  unfold delete_transaction in *. rewrite Hfind in *. cbn [fst snd] in *.
  split; [done|]. split; [done|]. split; [done|].
  split; [intros t; apply delete_row_elem_of|].
  split.
  - intros u'. unfold get_transaction. by rewrite Hall.
  - by rewrite Hall.
Qed.

Lemma filter_map_other {B : Type} (p : B → bool) (g : B → B) (l : list B) :
  (∀ x, x ∈ l → g x = x ∨ (p x = false ∧ p (g x) = false)) →
  List.filter p (map g l) = List.filter p l.
Proof.
  induction l as [|x l IH]; [done|]. intros Hg. simpl.
  rewrite IH by (intros y Hy; apply Hg; by right).
  destruct (Hg x) as [-> | [-> ->]]; [by left|done..].
Qed.

Lemma filter_filter_other {B : Type} (p q : B → bool) (l : list B) :
  (∀ x, x ∈ l → p x = true → q x = true) →
  List.filter p (List.filter q l) = List.filter p l.
Proof.
  induction l as [|x l IH]; [done|]. intros Hq. simpl.
  assert (List.filter p (List.filter q l) = List.filter p l) as IH'.
  { apply IH. intros y Hy. apply Hq. by right. }
  destruct (q x) eqn:Hqx; simpl; rewrite IH'; [done|].
  destruct (p x) eqn:Hpx; [|done]. rewrite Hq in Hqx; [done|by left|done].
Qed.

Lemma owner_other (u u' : user) (t : transaction A) :
  u_id u' ≠ u_id u → user_id t = u_id u → Nat.eqb (user_id t) (u_id u') = false.
Proof. intros Hne ->. by apply Nat.eqb_neq. Qed.

Lemma create_transaction_other (new_id : nat) (now : datetime)
    (data : json A) (u u' : user) (db : database A) :
  u_id u' ≠ u_id u →
  user_transactions u' (create_transaction new_id now data u db).2
  = user_transactions u' db.
Proof.
  intros Hne.
  destruct (create_transaction_cases new_id now data u db) as [[_ ->]|(t & -> & Hf)];
    [done|].
  cbn [snd]. rewrite user_transactions_app.
  destruct Hf as (_ & _ & Hown & _). rewrite (owner_other u u') by done.
  apply app_nil_r.
Qed.

Lemma update_transaction_other (i : nat) (data : json A)
    (u u' : user) (db : database A) :
  primary_key db → u_id u' ≠ u_id u →
  user_transactions u' (update_transaction i data u db).2 = user_transactions u' db.
Proof.
  intros Hpk Hne.
  destruct (update_transaction_cases i data u db)
    as [[_ ->]|[(_ & _ & ->)|(t0 & t & Hfind & -> & Hf)]]; [done..|].
  cbn [snd]. unfold user_transactions. cbn [transactions_table].
  apply find_transaction_Some in Hfind as (Hin & Hid & Hown).
  destruct Hf as (Hi & Hu & _).
  apply filter_map_other. intros t' Ht'.
  destruct (Nat.eqb (tx_id t') i) eqn:He; [right|by left].
  apply Nat.eqb_eq in He.
  assert (t' = t0) as ->
    by (apply (row_unique (transactions_table db)); [exact Hpk|done|done|congruence]).
  split; apply (owner_other u u'); congruence.
Qed.

Lemma delete_transaction_other (i : nat) (u u' : user) (db : database A) :
  primary_key db → u_id u' ≠ u_id u →
  user_transactions u' (delete_transaction i u db).2 = user_transactions u' db.
Proof.
  intros Hpk Hne. unfold delete_transaction.
  destruct (find_transaction u i db) as [t0|] eqn:Hfind; [|done].
  cbn [snd]. unfold user_transactions, delete_row. cbn [transactions_table].
  apply find_transaction_Some in Hfind as (Hin & Hid & Hown).
  apply filter_filter_other. intros t' Ht' Hp.
  apply negb_true_iff, Nat.eqb_neq. intros He.
  assert (t' = t0) as ->
    by (apply (row_unique (transactions_table db)); [exact Hpk|done|done|congruence]).
  rewrite (owner_other u u') in Hp; done.
Qed.

(** X8.  What one user creates, updates or deletes never changes the rows
    another user reads: the other user's list of transactions is the same
    list afterwards, and so are the summary and both exports computed from
    it. *)
Theorem other_users_untouched (u u' : user) (db : database A) :
  primary_key db → u_id u' ≠ u_id u →
  ∀ db',
    (∃ new_id now data, db' = (create_transaction new_id now data u db).2)
    ∨ (∃ i data, db' = (update_transaction i data u db).2)
    ∨ (∃ i, db' = (delete_transaction i u db).2) →
    user_transactions u' db' = user_transactions u' db
    ∧ (summary_route u' db').1 = (summary_route u' db).1
    ∧ (get_transactions u' db').1 = (get_transactions u' db).1
    ∧ ∀ now, (export_excel_route now u' db').1 = (export_excel_route now u' db).1
             ∧ (export_pdf_route now u' db').1 = (export_pdf_route now u' db).1.
Proof.
  intros Hpk Hne db' Hdb'.
  assert (user_transactions u' db' = user_transactions u' db) as Heq.
  { destruct Hdb' as [(n & now & data & ->)|[(i & data & ->)|(i & ->)]].
    - by apply create_transaction_other.
    - by apply update_transaction_other.
    - by apply delete_transaction_other. }
  unfold summary_route, get_transactions, export_excel_route, export_pdf_route.
  cbn [fst]. rewrite Heq. split; [done|]. split; [done|]. split; [done|].
  intros now. split; [done|].
  by destruct (export_pdf _ _ _).
Qed.

Lemma delete_row_NoDup (i : nat) (rows : list (transaction A)) :
  NoDup (map tx_id rows) → NoDup (map tx_id (delete_row i rows)).
Proof.
  unfold delete_row. induction rows as [|t rows IH]; [done|]. simpl.
  intros [Hnin Hnd]%NoDup_cons. destruct (negb _); [|by auto]. simpl.
  apply NoDup_cons. split; [|by auto].
  intros (t' & Heq & Hin)%list_elem_of_fmap. apply Hnin.
  apply list_elem_of_In, filter_In in Hin as [Hin _].
  rewrite Heq. by apply (list_elem_of_fmap_2 tx_id), list_elem_of_In.
Qed.

Lemma valid_rows_kinds (u : user) (db : database A) :
  Forall valid_row (transactions_table db) → kinds_valid (user_transactions u db).
Proof.
  rewrite Forall_forall. intros Hall t Ht.
  unfold user_transactions in Ht. apply list_elem_of_In, filter_In in Ht as [Ht _].
  by destruct (Hall t) as [Hk _]; [apply list_elem_of_In|].
Qed.

Lemma reachable_valid (db : database A) :
  reachable db → primary_key db ∧ Forall valid_row (transactions_table db).
Proof.
  intros Hr.
  induction Hr
    as [users|db new_id now data u _ [Hpk Hv] Hfresh|db i data u _ [Hpk Hv]
       |db i u _ [Hpk Hv]].
  - split; [apply NoDup_nil_2|constructor].
  - destruct (create_transaction_cases new_id now data u db)
      as [[_ ->]|(t & -> & Hf)]; [done|].
    destruct (created_from_valid _ _ _ _ _ Hf) as [Hvalid _].
    destruct Hf as (_ & Hid & _). cbn [snd]. unfold primary_key. cbn [transactions_table].
    split.
    + rewrite map_app. simpl. rewrite Hid.
      apply NoDup_app. split; [done|]. split; [|apply NoDup_singleton].
      intros x Hx ->%list_elem_of_singleton. done.
    + apply Forall_app. split; [done|]. by constructor.
  - destruct (update_transaction_cases i data u db)
      as [[_ ->]|[(_ & _ & ->)|(t0 & t & Hfind & -> & Hf)]]; [done..|].
    apply find_transaction_Some in Hfind as (Hin & Hid & Hown).
    assert (valid_row t) as Hvalid.
    { apply (updated_from_valid data t0); [done|].
      rewrite Forall_forall in Hv. by apply Hv. }
    destruct Hf as (Hi & _). cbn [snd]. unfold primary_key. cbn [transactions_table].
    split.
    + rewrite update_row_ids by congruence. done.
    + unfold update_row. apply Forall_fmap. eapply Forall_impl; [exact Hv|].
      intros t' Ht'. simpl. by destruct (Nat.eqb (tx_id t') i).
  - unfold delete_transaction.
    destruct (find_transaction u i db) as [t0|]; [|done].
    cbn [snd]. unfold primary_key, delete_row. cbn [transactions_table]. split.
    + by apply delete_row_NoDup.
    + rewrite Forall_forall in *. intros t Ht. apply Hv.
      by apply list_elem_of_In, filter_In in Ht as [Ht%list_elem_of_In _].
Qed.

(** X9.  Whatever sequence of creations, updates and deletions has been
    served since the table was empty, no two rows share an id, every row
    has one of the two kinds and an amount for which [amount <= 0] is
    false, and so the rows of every user have valid kinds. *)
Theorem reachable_invariant (db : database A) :
  reachable db →
  primary_key db
  ∧ Forall valid_row (transactions_table db)
  ∧ ∀ u, kinds_valid (user_transactions u db).
Proof.
  intros [Hpk Hv]%reachable_valid. eauto using valid_rows_kinds.
Qed.

(** X10.  The reading routes show a user rows of that user only:
    [get_transaction] answers with a row of the table that has the asked id
    and the requesting user as its owner, and with 404 exactly when there is
    none; [get_transactions] answers with the rows of the user, each once,
    as many as the summary counts. *)
Theorem reads_own_rows (u : user) (db : database A) :
  (∀ i, match find_transaction u i db with
        | Some t =>
            get_transaction i u db = (Reply 200 (BodyTransaction None t), db)
            ∧ t ∈ transactions_table db ∧ tx_id t = i ∧ user_id t = u_id u
        | None =>
            get_transaction i u db = (Reply 404 (BodyError "Transaction not found"), db)
            ∧ ∀ t, t ∈ transactions_table db → tx_id t = i → user_id t ≠ u_id u
        end)
  ∧ ∃ l, get_transactions u db = (Reply 200 (BodyTransactions l), db)
         ∧ l ≡ₚ user_transactions u db
         ∧ (∀ t, t ∈ l ↔ t ∈ transactions_table db ∧ user_id t = u_id u)
         ∧ length l = transaction_count (get_summary (user_transactions u db)).
Proof.
  split.
  - intros i. unfold get_transaction.
    destruct (find_transaction u i db) as [t|] eqn:Hfind.
    + split; [done|]. by apply find_transaction_Some.
    + split; [done|]. intros t Ht Hid Hown.
      by apply (proj1 (find_transaction_None u i db) Hfind t).
  - eexists. split; [done|]. split; [apply order_by_date_desc_perm|]. split.
    + intros t. rewrite order_by_date_desc_perm. unfold user_transactions.
      rewrite !list_elem_of_In, filter_In, Nat.eqb_eq. done.
    + by rewrite order_by_date_desc_perm.
Qed.

(** X11.  After a successful [create_transaction] the list that the summary
    of the user is computed from is the old one with the new row at its
    end.  An income adds its amount to the total income and leaves the total
    expense and the category breakdown as they were; an expense adds its
    amount to the total expense and to the entry of its category and leaves
    the total income and every other entry as they were. *)
Theorem create_transaction_totals (new_id : nat) (now : datetime)
    (data : json A) (u : user) (db : database A)
    (message : option string) (t : transaction A) (db' : database A) :
  create_transaction new_id now data u db = (Reply 201 (BodyTransaction message t), db') →
  let before := user_transactions u db in
  let after := user_transactions u db' in
  after = before ++ [t]
  ∧ ((type t = "income"
      ∧ total_income after = add (total_income before) (amount t)
      ∧ total_expense after = total_expense before
      ∧ category_spending after = category_spending before)
     ∨ (type t = "expense"
        ∧ total_expense after = add (total_expense before) (amount t)
        ∧ total_income after = total_income before
        ∧ category_spending after !! category t
          = Some (add (default zero (category_spending before !! category t)) (amount t))
        ∧ ∀ c, c ≠ category t →
               category_spending after !! c = category_spending before !! c)).
Proof.
  intros Heq before after.
  destruct (create_transaction_cases new_id now data u db)
    as [[Hr _]|(t' & Heq' & Hf)].
  { rewrite Heq in Hr. destruct Hr as [[m [=]]|[[=]|[[=]|[=]]]]. }
  rewrite Heq in Heq'. injection Heq' as _ <- ->.
  destruct (created_from_valid _ _ _ _ _ Hf) as [[Hk _] _].
  destruct Hf as (_ & _ & Hown & _).
  assert (after = before ++ [t]) as Hafter.
  { unfold after, before. rewrite user_transactions_app, Hown, Nat.eqb_refl. done. }
  split; [done|]. rewrite Hafter.
  unfold total_income, total_expense.
  fold (amounts_where is_income (before ++ [t])) (amounts_where is_income before).
  fold (amounts_where is_expense (before ++ [t])) (amounts_where is_expense before).
  rewrite !amounts_where_snoc, category_spending_snoc.
  unfold category_step, is_income, is_expense.
  destruct Hk as [Hk|Hk]; rewrite Hk; [left|right]; cbn [String.eqb Ascii.eqb Bool.eqb].
  - by rewrite py_sum_snoc.
  - rewrite py_sum_snoc. split; [done|]. split; [done|]. split; [done|].
    split; [apply lookup_insert_eq|]. intros c Hc. by apply lookup_insert_ne.
Qed.

End Transactions.

(** ** The summary and the exports, again *)

Section Shapes.
Context {A : Type} `{Amount A}.

Lemma str_len_app (s1 s2 : string) :
  str_len (s1 +:+ s2) = str_len s1 + str_len s2.
Proof.
  induction s1 as [|c s1 IH]; [done|]. simpl.
  destruct (continuation c); [done|]. by rewrite IH.
Qed.

Lemma str_take_len (n : nat) (s : string) : str_len (str_take n s) ≤ n.
Proof.
  revert n. induction s as [|c s IH]; intros n; simpl; [lia|].
  destruct (continuation c) eqn:Hc; simpl; rewrite ?Hc; [done|].
  destruct n as [|n]; simpl; rewrite ?Hc; [lia|]. specialize (IH n). lia.
Qed.

Lemma pdf_description_Ok (d : option string) (cell : string) :
  pdf_description d = Ok cell →
  ∃ s, d = Some s ∧ description_cell s cell ∧ str_len cell ≤ 33.
Proof.
  destruct d as [s|]; [|done]. unfold pdf_description. simpl.
  destruct (30 <? str_len s) eqn:Hlen; intros [= <-]; exists s; (split; [done|]).
  - apply Nat.ltb_lt in Hlen. split; [by right|].
    rewrite str_len_app. pose proof (str_take_len 30 s). simpl. lia.
  - apply Nat.ltb_ge in Hlen. split; [by left|lia].
Qed.

Lemma pdf_row_rendered (t : transaction A) (row : list string) :
  pdf_row t = Ok row → rendered t row.
Proof.
  unfold pdf_row. destruct (pdf_description (description t)) as [cell|] eqn:Hc; [|done].
  simpl. intros [= <-].
  destruct (pdf_description_Ok _ _ Hc) as (d & ? & ? & ?). by exists d, cell.
Qed.

Lemma pdf_data_Ok (l : list (transaction A)) (data : list (list string)) :
  pdf_data l = Ok data →
  ∃ body, data = pdf_header :: body ∧ Forall2 (λ t row, pdf_row t = Ok row) l body.
Proof.
  revert data. induction l as [|t l IH] using rev_ind; intros data.
  - intros [= <-]. exists []. split; [done|constructor].
  - rewrite pdf_data_snoc. unfold pdf_data_step.
    destruct (pdf_data l) as [data0|]; [|done]. simpl.
    destruct (IH data0) as (body & -> & Hrows); [done|].
    destruct (pdf_row t) as [row|] eqn:Hrow; [|done]. simpl. intros [= <-].
    exists (body ++ [row]). split; [done|].
    apply Forall2_app; [done|]. by repeat constructor.
Qed.

(** X13.  A PDF that is produced has a table whose first row is the header
    and whose other rows are the transactions in input order, each with its
    date as year-month-day, its kind capitalised, its category, its amount
    after a dollar sign and its description; the description is shown whole
    when it has at most 30 code points and cut to its first 30 code points
    followed by three dots otherwise, so that no Description cell has more
    than 33 code points; every row has as many cells as there are column
    widths. *)
Theorem pdf_table_shape (user_name : string) (now : datetime)
    (transactions : list (transaction A)) (f : pdf_file) :
  export_pdf user_name now transactions = Ok f →
  pdf_table_data f !! 0 = Some ["Date"; "Type"; "Category"; "Amount"; "Description"]
  ∧ Forall2 rendered transactions (pdf_body f)
  ∧ Forall (λ row, length row = length (pdf_col_widths_tenths_inch f)) (pdf_table_data f).
Proof.
  unfold export_pdf. destruct (pdf_data transactions) as [data|] eqn:Hdata; [|done].
  simpl. intros [= <-]. unfold pdf_body. simpl.
  apply pdf_data_Ok in Hdata as (body & -> & Hrows).
  split; [done|].
  assert (Forall2 rendered transactions body) as Hbody.
  { clear -Hrows. induction Hrows as [|t row l body Hrow _ IH]; constructor; [|done].
    by apply pdf_row_rendered. }
  split; [done|]. constructor; [done|].
  clear -Hbody. induction Hbody as [|t row l body Hrow _ IH]; constructor; [|done].
  by destruct Hrow as (d & cell & _ & _ & _ & ->).
Qed.

Lemma last12_length_min {B : Type} (l : list B) :
  length (last12 l) = Nat.min 12 (length l).
Proof. unfold last12. rewrite length_drop. lia. Qed.

Lemma distinct_year_months_bounds (l : list (transaction A)) (ym : nat * nat) :
  (∀ t, t ∈ l → four_digit_year (date t)) →
  ym ∈ distinct_year_months l → ym.1 / 1000 ≤ 9 ∧ ym.2 / 10 ≤ 9.
Proof.
  intros Hl. unfold distinct_year_months. rewrite elem_of_remove_dups.
  intros (t & -> & Ht)%list_elem_of_fmap.
  apply four_digit_year_bounds, Hl, Ht.
Qed.

(** X14.  When every date has a year of four digits, the series has one
    entry for each of the year-month pairs present when there are at most
    twelve, and twelve entries otherwise; every entry is the text
    [YYYY-MM] of a pair present, and every pair it leaves out is earlier
    than every pair it keeps. *)
Theorem monthly_series_latest (transactions : list (transaction A)) :
  (∀ t, t ∈ transactions → four_digit_year (date t)) →
  let series := monthly_summary transactions in
  let months := distinct_year_months transactions in
  length series = Nat.min 12 (length months)
  ∧ (∀ r, r ∈ series → ∃ ym, ym ∈ months ∧ row_month r = yyyy_mm ym)
  ∧ ∀ ym ym', ym ∈ months → ym' ∈ months →
      yyyy_mm ym ∉ map row_month series → yyyy_mm ym' ∈ map row_month series →
      earlier ym ym'.
Proof.
  intros Hl. cbv zeta.
  pose proof (distinct_months_four_digits transactions Hl) as Hperm.
  split; [|split].
  - rewrite <- (length_map row_month), monthly_summary_months, last12_length_min.
    rewrite (Permutation_length (sorted_perm _)), (Permutation_length Hperm).
    by rewrite length_fmap.
  - intros r Hr. apply (list_elem_of_fmap_2 row_month) in Hr.
    rewrite monthly_summary_months in Hr.
    assert (row_month r ∈ sorted (distinct_months transactions)) as Hin.
    { rewrite (last12_suffix (sorted (distinct_months transactions))).
      apply elem_of_app. by right. }
    rewrite (sorted_perm _), Hperm in Hin.
    apply list_elem_of_fmap in Hin as (ym & ? & ?). by exists ym.
  - intros ym ym' Hym Hym' Hnot Hkept. rewrite monthly_summary_months in Hnot, Hkept.
    destruct (distinct_year_months_bounds _ _ Hl Hym).
    destruct (distinct_year_months_bounds _ _ Hl Hym').
    apply yyyy_mm_lt; try done.
    assert (StronglySorted String_lt (sorted (distinct_months transactions))) as Hs.
    { apply sorted_strictly_ascending, NoDup_remove_dups. }
    assert (yyyy_mm ym ∈ sorted (distinct_months transactions)) as Hk.
    { rewrite (sorted_perm _), Hperm. by apply list_elem_of_fmap_2. }
    rewrite (last12_suffix (sorted (distinct_months transactions))) in Hs, Hk.
    apply elem_of_app in Hk as [Hk|Hk]; [|done].
    eapply StronglySorted_app_1_elem_of; [exact Hs|exact Hk|exact Hkept].
Qed.

End Shapes.

(** ** The three roundings of the response *)

Section Cents.

Lemma cents_gap (i e b : Q) (ci ce cb : Z) :
  (distance_to_cents i ci <= 1 # 2)%Q →
  (distance_to_cents e ce <= 1 # 2)%Q →
  (distance_to_cents b cb <= 1 # 2)%Q →
  (Qabs (b - (i - e)) < 1 # 200)%Q →
  (-1 <= cb - (ci - ce) <= 1)%Z.
Proof.
  unfold distance_to_cents. intros Hi He Hb Hd.
  apply Qabs_Qle_condition in Hi, He, Hb. apply Qabs_Qlt_condition in Hd.
  assert (- (2 # 1) < inject_Z (cb - (ci - ce)) < 2 # 1)%Q as Hq.
  { unfold Z.sub. repeat rewrite ?inject_Z_plus, ?inject_Z_opp. lra. }
  destruct Hq as [H1 H2]. unfold Qlt, inject_Z in H1, H2. simpl in H1, H2. lia.
Qed.

(** X15.  The three totals of the response are rounded one by one.  When
    the totals are finite and the subtraction that gives the balance is off
    by less than half a cent, each reported total is the binary64 value
    nearest to a whole number of cents, and the cents of the reported
    balance and the difference of the cents of the reported income and
    expense are at most one apart.  They are one apart for an income of
    0.375 and an expense of 0.25, reported as 0.38, 0.25 and 0.12, and for
    an income of 0.015 and an expense of 0.005, reported as 0.01, 0.01 and
    0.01. *)
Theorem reported_balance_within_a_cent :
  (∀ (l : list (transaction binary64)) (i e b : Q),
     Binary64.value (total_income l) = Some i →
     Binary64.value (total_expense l) = Some e →
     Binary64.value (balance l) = Some b →
     (Qabs (b - (i - e)) < 1 # 200)%Q →
     ∃ ci ce cb : Z,
       float_cents (total_income l) = Some ci
       ∧ float_cents (total_expense l) = Some ce
       ∧ float_cents (balance l) = Some cb
       ∧ (-1 <= cb - (ci - ce) <= 1)%Z
       ∧ (ci ≠ 0%Z → total_income_field (get_summary l)
                     = FloatOps.SF2Prim (Binary64.nearest ci 100))
       ∧ (ce ≠ 0%Z → total_expense_field (get_summary l)
                     = FloatOps.SF2Prim (Binary64.nearest ce 100))
       ∧ (cb ≠ 0%Z → balance_field (get_summary l)
                     = FloatOps.SF2Prim (Binary64.nearest cb 100)))
  ∧ (let report := get_summary FloatExamples.three_eighths in
     total_income_field report = 0.38%float
     ∧ total_expense_field report = 0.25%float
     ∧ balance_field report = 0.12%float
     ∧ float_cents (total_income FloatExamples.three_eighths) = Some 38%Z
     ∧ float_cents (total_expense FloatExamples.three_eighths) = Some 25%Z
     ∧ float_cents (balance FloatExamples.three_eighths) = Some 12%Z)
  ∧ (let report := get_summary FloatExamples.half_cents in
     total_income_field report = 0.01%float
     ∧ total_expense_field report = 0.01%float
     ∧ balance_field report = 0.01%float
     ∧ float_cents (total_income FloatExamples.half_cents) = Some 1%Z
     ∧ float_cents (total_expense FloatExamples.half_cents) = Some 1%Z
     ∧ float_cents (balance FloatExamples.half_cents) = Some 1%Z).
Proof.
  split; [|split].
  - intros l i e b Hi He Hb Hd.
    destruct (float_cents_is_Some _ _ Hi) as [ci Hci].
    destruct (float_cents_is_Some _ _ He) as [ce Hce].
    destruct (float_cents_is_Some _ _ Hb) as [cb Hcb].
    exists ci, ce, cb. split; [done|]. split; [done|]. split; [done|].
    destruct (float_cents_nearest _ _ _ Hi Hci) as [Hni _].
    destruct (float_cents_nearest _ _ _ He Hce) as [Hne _].
    destruct (float_cents_nearest _ _ _ Hb Hcb) as [Hnb _].
    split; [by apply (cents_gap i e b)|].
    unfold get_summary. cbn [total_income_field total_expense_field balance_field].
    split; [apply (round2_float_cents _ _ Hci)|].
    split; [apply (round2_float_cents _ _ Hce)|apply (round2_float_cents _ _ Hcb)].
  - vm_compute. done.
  - vm_compute. done.
Qed.

End Cents.

(** ** The routes on concrete requests, over exact amounts *)

Section RouteInstances.
Import Exact Examples ExactPlatform Requests.

Lemma two_users_primary_key : primary_key two_users.
Proof. unfold primary_key. simpl. by apply (bool_decide_unpack _). Qed.

Lemma other_users_untouched_witness :
  user_transactions bob (delete_transaction 3 alice two_users).2
  = user_transactions bob two_users
  ∧ (summary_route bob (delete_transaction 3 alice two_users).2).1
    = (summary_route bob two_users).1.
Proof.
  assert (u_id bob ≠ u_id alice) as Hne by (simpl; lia).
  destruct (other_users_untouched alice bob two_users two_users_primary_key Hne
              (delete_transaction 3 alice two_users).2) as (H1 & H2 & _).
  { right. right. by exists 3. }
  exact (conj H1 H2).
Defined.

Lemma first_row_reachable : reachable first_row.
Proof. apply reach_create; [apply reach_empty|]. simpl. by intros ?%elem_of_nil. Qed.

Lemma reachable_invariant_witness :
  reachable first_row
  ∧ primary_key first_row
  ∧ Forall valid_row (transactions_table first_row)
  ∧ ∀ u, kinds_valid (user_transactions u first_row).
Proof.
  exact (conj first_row_reachable (reachable_invariant first_row first_row_reachable)).
Defined.

Lemma reads_own_rows_witness :
  get_transaction 2 alice two_users
  = (Reply 404 (BodyError "Transaction not found"), two_users)
  ∧ ∃ l, get_transactions alice two_users = (Reply 200 (BodyTransactions l), two_users)
         ∧ l ≡ₚ user_transactions alice two_users
         ∧ (∀ t, t ∈ l ↔ t ∈ transactions_table two_users ∧ user_id t = u_id alice)
         ∧ length l
           = transaction_count (get_summary (user_transactions alice two_users)).
Proof.
  destruct (reads_own_rows alice two_users) as [Hget Hlist].
  split; [|exact Hlist].
  specialize (Hget 2).
  change (find_transaction alice 2 two_users) with (@None (transaction Qc)) in Hget.
  exact (proj1 Hget).
Defined.

Lemma create_transaction_totals_witness :
  create_transaction 4 report_day food_30 alice two_users
  = (Reply 201 (BodyTransaction (Some "Transaction created successfully")
                                (food_30_row (Some ""))),
     {| users_table := users_table two_users;
        transactions_table := transactions_table two_users ++ [food_30_row (Some "")] |})
  ∧ user_transactions alice
      {| users_table := users_table two_users;
         transactions_table := transactions_table two_users ++ [food_30_row (Some "")] |}
    = user_transactions alice two_users ++ [food_30_row (Some "")].
Proof.
  assert (create_transaction 4 report_day food_30 alice two_users
          = (Reply 201 (BodyTransaction (Some "Transaction created successfully")
                                        (food_30_row (Some ""))),
             {| users_table := users_table two_users;
                transactions_table :=
                  transactions_table two_users ++ [food_30_row (Some "")] |})) as Hc
    by (vm_compute; reflexivity).
  split; [exact Hc|].
  pose proof (create_transaction_totals 4 report_day food_30 alice two_users _ _ _ Hc)
    as Ht.
  cbv zeta in Ht. exact (proj1 Ht).
Defined.

Lemma request_token_spec_witness :
  request_token (A:=Qc) (bearer "1 x") = Go "1"
  ∧ request_token (A:=Qc) {| header_Authorization := Some ""; cookie_token := None |}
    = error 401 "Token is missing".
Proof.
  split.
  - exact (proj1 (proj2 (request_token_spec (A:=Qc) (bearer "1 x"))) "1 x" eq_refl).
  - exact (proj1 (proj1 (request_token_spec (A:=Qc)
                           {| header_Authorization := Some ""; cookie_token := None |}))
                 (or_introl eq_refl)).
Defined.

End RouteInstances.

(** ** The routes on concrete requests, over binary64 amounts *)

Section FloatRouteInstances.
Import Examples FloatExamples Requests FloatPlatform FloatRequests.

Lemma float_users_primary_key : primary_key two_users.
Proof. unfold primary_key. simpl. by apply (bool_decide_unpack _). Qed.

(** A request dated in the year 999 is stored, and the summary of its row
    has the key [999-06]. *)
Lemma create_transaction_year_999 :
  let body := JObj (<[ "date" := JStr "0999-06-15" ]> (food (JInt 5))) in
  let stored := {| tx_id := 4; user_id := 1; type := "expense"; category := "Food";
                   amount := 5%float; description := Some "";
                   date := on_day 999 6 15; created_at := report_day |} in
  create_transaction 4 report_day body alice two_users = created stored two_users
  ∧ map row_month (monthly_summary_field (get_summary [stored])) = ["999-06"].
Proof. split; vm_compute; reflexivity. Qed.

(** A token without [user_id] ends in a [KeyError]; the token of Alice runs
    the route for a user of the table. *)
Lemma token_required_gate_witness :
  (token_required get_transactions report_day (bearer "anonymous") two_users).1
  = Uncaught KeyError
  ∧ ∃ current_user,
      current_user ∈ users_table two_users
      ∧ token_required get_transactions report_day (bearer "1") two_users
        = get_transactions current_user two_users.
Proof.
  split.
  - destruct (token_required_gate get_transactions report_day (bearer "anonymous")
                two_users)
      as [[_ (m & _ & Hm)]|[[_ (tok & data & _ & _ & [[_ Hk]|(i & e & _ & _ & He)])]
                           |(tok & data & i & cu & Hreq & Hjwt & Hid & _)]].
    + vm_compute in Hm. discriminate Hm.
    + exact Hk.
    + vm_compute in He. injection He as <-. reflexivity.
    + vm_compute in Hreq. injection Hreq as <-.
      vm_compute in Hjwt. injection Hjwt as <-. vm_compute in Hid. discriminate Hid.
  - destruct (token_required_gate get_transactions report_day (bearer "1") two_users)
      as [[_ (m & _ & Hm)]|[[_ (tok & data & _ & _ & [[_ Hk]|(i & e & _ & _ & He)])]
                           |(tok & data & i & cu & _ & _ & _ & _ & Hin & _ & Hrun)]].
    + vm_compute in Hm. discriminate Hm.
    + vm_compute in Hk. discriminate Hk.
    + vm_compute in He. discriminate He.
    + exists cu. exact (conj Hin Hrun).
Defined.

(** A body that is [null], an amount too large for a float, an object
    without fields, and a string as body. *)
Lemma create_transaction_validation_witness :
  create_transaction 4 report_day JNull alice two_users
  = (Uncaught (Builtin TypeError), two_users)
  ∧ create_transaction 4 report_day (JObj (food (JInt (10 ^ 400)))) alice two_users
    = (Uncaught OverflowError, two_users)
  ∧ create_transaction 4 report_day (JObj ∅) alice two_users
    = (Reply 400 (BodyError "Missing required fields"), two_users)
  ∧ create_transaction 4 report_day (JStr "type category amount date") alice two_users
    = (Uncaught (Builtin TypeError), two_users).
Proof.
  split; [|split; [|split]].
  - pose proof (create_transaction_validation 4 report_day JNull alice two_users) as H.
    cbv zeta in H. exact (proj1 H eq_refl).
  - pose proof (create_transaction_validation 4 report_day
                  (JObj (food (JInt (10 ^ 400)))) alice two_users) as H.
    cbv zeta in H. destruct H as (_ & _ & H).
    destruct (H _ eq_refl) as [_ Hfields].
    destruct (Hfields (JStr "expense") (JStr "Food") (JInt (10 ^ 400)) (JStr "2024-02-01")
                eq_refl eq_refl eq_refl eq_refl) as [_ Hkind].
    destruct (Hkind eq_refl) as (_ & Hint & _).
    apply (Hint (10 ^ 400)%Z eq_refl). vm_compute. reflexivity.
  - pose proof (create_transaction_validation 4 report_day (JObj ∅) alice two_users) as H.
    cbv zeta in H. destruct H as (_ & _ & H).
    apply (proj1 (H _ eq_refl)). exists "type". split; [left|reflexivity].
  - pose proof (create_transaction_validation 4 report_day
                  (JStr "type category amount date") alice two_users) as H.
    cbv zeta in H. destruct H as (_ & H & _).
    apply (proj2 (H eq_refl)). intros key Hkey.
    apply list_elem_of_In in Hkey. simpl in Hkey.
    destruct Hkey as [<-|[<-|[<-|[<-|[]]]]]; vm_compute; reflexivity.
Defined.

(** An amount sent as the string "12.5" is stored as the float 12.5. *)
Lemma create_transaction_outcome_witness :
  ∃ t, create_transaction 4 report_day (JObj (food (JStr "12.5"))) alice two_users
       = created t two_users
       ∧ t = food_row 12.5 (Some "")
       ∧ valid_row t.
Proof.
  assert (create_transaction 4 report_day (JObj (food (JStr "12.5"))) alice two_users
          = created (food_row 12.5 (Some "")) two_users) as Hc
    by (vm_compute; reflexivity).
  destruct (create_transaction_outcome 4 report_day (JObj (food (JStr "12.5")))
              alice two_users) as [[Hr _]|(t & Heq & _ & _ & _ & _ & Hvalid & _)].
  - rewrite Hc in Hr. destruct Hr as [[m Hm]|[Hr|[Hr|Hr]]]; discriminate.
  - exists t. rewrite Hc in Heq. injection Heq as <-. done.
Defined.


Lemma update_transaction_outcome_witness :
  (update_transaction 3 (JObj {[ "amount" := JStr "12.50" ]}) alice two_users).1
  = Reply 200 (BodyTransaction (Some "Transaction updated successfully")
        (owned alice 3 "expense" "Food" 12.5%float (Some "Grocery shopping")
               (on_day 2024 1 20)))
  ∧ (update_transaction 2 (JObj {[ "amount" := JStr "12.50" ]}) alice two_users
     = (Reply 404 (BodyError "Transaction not found"), two_users))
  ∧ (update_transaction 3 (JObj {[ "amount" := JInt (10 ^ 400) ]}) alice two_users
     = (Uncaught OverflowError, two_users))
  ∧ (update_transaction 3 (JObj ∅) alice two_users).2 = two_users.
Proof.
  split; [vm_compute; reflexivity|]. split; [vm_compute; reflexivity|].
  split; [vm_compute; reflexivity|].
  destruct (update_transaction_outcome 3 (JObj ∅) alice two_users)
    as [[Hnone _]|[(_ & _ & Hsame)|(t0 & t & _ & _ & _ & _ & _ & _ & Hempty)]].
  - discriminate Hnone.
  - exact Hsame.
  - exact (Hempty (λ key, eq_refl) float_users_primary_key).
Defined.

(** Sixteen accented letters are 32 bytes and 16 code points, shown whole;
    31 letters are cut to 30; 2.675 is shown as $2.67. *)
Lemma pdf_table_shape_witness :
  ∃ f, export_pdf "Alice" report_day described = Ok f
       ∧ pdf_table_data f
         = [ ["Date"; "Type"; "Category"; "Amount"; "Description"];
             ["2024-01-05"; "Expense"; "Food"; "$2.67"; sixteen_accents];
             ["2024-01-01"; "Income"; "Salary"; "$1,000.00";
              "abcdefghijklmnopqrstuvwxyz0123..."] ]
       ∧ Forall2 rendered described (pdf_body f).
Proof.
  destruct (export_pdf "Alice" report_day described) as [f|] eqn:Hf;
    [|vm_compute in Hf; discriminate Hf].
  exists f. split; [reflexivity|].
  destruct (pdf_table_shape "Alice" report_day described f Hf) as (_ & Hrows & _).
  split; [|exact Hrows].
  vm_compute in Hf. injection Hf as <-. reflexivity.
Defined.

Lemma thirteen_months_four_digits (t : transaction binary64) :
  t ∈ thirteen_months → four_digit_year (date t).
Proof.
  intros Ht. apply list_elem_of_In in Ht. simpl in Ht.
  repeat (destruct Ht as [<-|Ht]; [unfold four_digit_year; simpl; lia|]). done.
Qed.

Lemma monthly_series_latest_witness :
  length (monthly_summary thirteen_months) = 12
  ∧ earlier (2023, 1) (2023, 2).
Proof.
  destruct (monthly_series_latest thirteen_months thirteen_months_four_digits)
    as (Hlen & _ & Hlate).
  split; [exact Hlen|].
  apply Hlate.
  - apply (bool_decide_unpack _). vm_compute. exact I.
  - apply (bool_decide_unpack _). vm_compute. exact I.
  - apply (bool_decide_unpack _). vm_compute. exact I.
  - apply (bool_decide_unpack _). vm_compute. exact I.
Defined.

Lemma reported_balance_within_a_cent_witness :
  ∃ ci ce cb : Z,
    float_cents (total_income half_cents) = Some ci
    ∧ float_cents (total_expense half_cents) = Some ce
    ∧ float_cents (balance half_cents) = Some cb
    ∧ (-1 <= cb - (ci - ce) <= 1)%Z.
Proof.
  destruct (Binary64.value (total_income half_cents)) as [i|] eqn:Hi;
    [|vm_compute in Hi; discriminate Hi].
  destruct (Binary64.value (total_expense half_cents)) as [e|] eqn:He;
    [|vm_compute in He; discriminate He].
  destruct (Binary64.value (balance half_cents)) as [b|] eqn:Hb;
    [|vm_compute in Hb; discriminate Hb].
  destruct (proj1 reported_balance_within_a_cent half_cents i e b Hi He Hb)
    as (ci & ce & cb & Hci & Hce & Hcb & Hgap & _).
  - vm_compute in Hi, He, Hb. injection Hi as <-. injection He as <-. injection Hb as <-.
    vm_compute. reflexivity.
  - exists ci, ce, cb. done.
Defined.

End FloatRouteInstances.
